(** * campus_guide: the file-ingestion pipeline, embedded and verified

    A shallow embedding of [app/__init__.py], [app/utility/file_services.py],
    [app/utility/db_services.py] and the routes of [app/routers/files.py]
    and [app/routers/institution.py].

    Conventions of the embedding.
    - A Python [str] is a Rocq [string], read as the UTF-8 encoding of the
      text; [bytes] are [list Byte.byte].  [str.lower] is known on ASCII
      text and on U+212A KELVIN SIGN, the one other character whose lower
      case is ASCII; on any other text its result is only known not to
      be ASCII.
    - A [pathlib.Path] is the list of its parts, the anchor (["/"]) first
      when the path is absolute (POSIX flavour, [suffix] as in Python 3.10
      to 3.13).  The store maps paths of regular files to their content;
      directories are not represented, so [makedirs] has no effect.
    - Python exceptions are the values of [exn] ([RuntimeError] with its
      subclass [RecursionError]).  A function of the service is a
      state-and-exception computation over [World]: a coroutine that is
      served alone runs to completion, and its [await]s disappear.
    - Third-party code is a parameter, gathered in [Env]:
      [kml2geojson.main.convert], [json.dumps], [json.loads], the text of
      a UTF-8 decoding error, and the failure (if any) of the final
      [shutil.move].  The other primitives on the local store (open,
      write, remove, exists) and the reads of an upload are taken to
      succeed.
    - The database is the three tables of [app/models.py], as lists of
      rows; [add]/[delete] followed by [commit] is one step, and the
      uniqueness constraints on names are not represented.  A route is
      first given as the computation of a request served alone; two
      uploads served together are given with the cut the event loop can
      make between the duplicate check and the insertion. *)

From Stdlib Require Import ZArith NArith Lia Bool Ascii String List.
From Stdlib Require Import Strings.Byte Floats.PrimFloat.
From stdpp Require Import base gmap strings list pretty.

Set Default Proof Using "Type".
Set Warnings "-register-all,-clear-no-such-hyp".

(* ===================================================================== *)
(** ** Python strings *)
(* ===================================================================== *)

Module Str.

(** [str.lower] on an ASCII character. *)
Definition lower_ascii (c : ascii) : ascii :=
  let n := nat_of_ascii c in
  if (65 <=? n)%nat && (n <=? 90)%nat then ascii_of_nat (n + 32) else c.

Definition is_ascii (c : ascii) : bool := (nat_of_ascii c <? 128)%nat.

(** U+212A KELVIN SIGN, in UTF-8. *)
Definition kelvin : string := String "226" (String "132" (String "170" EmptyString)).

(** [str.lower], as far as its result is ASCII.  Unicode gives an ASCII
    lower case to the ASCII characters and to U+212A KELVIN SIGN (whose
    lower case is ["k"]), and to no other character: on a text that holds
    another one the result is [None], which stands for a text that is not
    ASCII. *)
Fixpoint lower (s : string) : option string :=
  match s with
  | EmptyString => Some EmptyString
  | String c s' =>
      if is_ascii c then option_map (String (lower_ascii c)) (lower s')
      else
        match s' with
        | String c1 (String c2 s'') =>
            if Ascii.eqb c "226" && Ascii.eqb c1 "132" && Ascii.eqb c2 "170"
            then option_map (String "k"%char) (lower s'')
            else None
        | _ => None
        end
  end.

(** [s.split(c)]: never empty, one more field than occurrences of [c]. *)
Fixpoint split (c : ascii) (s : string) : list string :=
  match s with
  | EmptyString => [EmptyString]
  | String a s' =>
      if Ascii.eqb a c then EmptyString :: split c s'
      else match split c s' with
           | [] => [String a EmptyString]
           | x :: xs => String a x :: xs
           end
  end.

(** [s[i:]] for [i = s.rfind('.')], when there is a dot. *)
Fixpoint from_last_dot (s : string) : option string :=
  match s with
  | EmptyString => None
  | String a s' =>
      match from_last_dot s' with
      | Some t => Some t
      | None => if Ascii.eqb a "."%char then Some s else None
      end
  end.

(** [c in s]. *)
Fixpoint mem (c : ascii) (s : string) : bool :=
  match s with
  | EmptyString => false
  | String a s' => Ascii.eqb a c || mem c s'
  end.

(** [all(p(c) for c in s)]. *)
Fixpoint all (p : ascii -> bool) (s : string) : bool :=
  match s with
  | EmptyString => true
  | String a s' => p a && all p s'
  end.

(** [s.startswith(pre)]. *)
Fixpoint startswith (pre s : string) : bool :=
  match pre with
  | EmptyString => true
  | String a pre' =>
      match s with
      | EmptyString => false
      | String b s' => Ascii.eqb a b && startswith pre' s'
      end
  end.

(** [s[:n]]. *)
Definition take (n : nat) (s : string) : string := String.substring 0 n s.

(** [sep.join(l)]. *)
Fixpoint join (sep : string) (l : list string) : string :=
  match l with
  | [] => EmptyString
  | [x] => x
  | x :: rest => x +:+ sep +:+ join sep rest
  end.

End Str.

(* ===================================================================== *)
(** ** pathlib *)
(* ===================================================================== *)

Abbreviation Path := (list string).

Module Pathlib.

Definition is_anchor (part : string) : bool :=
  String.eqb part "/" || String.eqb part "//".

(** [Path(s)]: empty and ["."] components vanish; exactly two leading
    slashes are kept as the anchor ["//"], any other number is ["/"]. *)
Definition anchor_of (s : string) : list string :=
  if Str.startswith "///" s then ["/"]
  else if Str.startswith "//" s then ["//"]
  else if Str.startswith "/" s then ["/"]
  else [].

Definition keep_part (part : string) : bool :=
  negb (String.eqb part "") && negb (String.eqb part ".").

Definition of_string (s : string) : Path :=
  anchor_of s ++ filter (fun part => Is_true (keep_part part)) (Str.split "/" s).

(** [p.name]: the last part, unless the path is only its anchor. *)
Definition name (p : Path) : string :=
  match last p with
  | Some part => if is_anchor part then "" else part
  | None => ""
  end.

(** [PurePath.suffix] on the final component:
    [i = name.rfind('.')]; [name[i:]] when [0 < i < len(name) - 1]. *)
Definition suffix_of_name (nm : string) : string :=
  match nm with
  | EmptyString => ""
  | String _ rest =>
      match Str.from_last_dot rest with
      | Some t => if (String.length t =? 1)%nat then "" else t
      | None => ""
      end
  end.

Definition suffix (p : Path) : string := suffix_of_name (name p).

(** [p.parent]. *)
Definition parent (p : Path) : Path :=
  match p with
  | [] => []
  | [part] => if is_anchor part then [part] else []
  | _ => removelast p
  end.

(** [p / s]. *)
Definition joinpath (p : Path) (s : string) : Path :=
  match anchor_of s with
  | [] => p ++ of_string s
  | _ => of_string s
  end.

(** [p.with_suffix(suf)] for a well-formed [suf]; [None] stands for the
    [ValueError] raised on a path with an empty name. *)
Definition with_suffix (p : Path) (suf : string) : option Path :=
  let nm := name p in
  if String.eqb nm "" then None
  else
    let old := suffix_of_name nm in
    let stem := Str.take (String.length nm - String.length old) nm in
    Some (removelast p ++ [stem +:+ suf]).

(** [str(p)]. *)
Definition to_string (p : Path) : string :=
  match p with
  | [] => "."
  | part :: rest =>
      if is_anchor part then part +:+ Str.join "/" rest
      else Str.join "/" p
  end.

End Pathlib.

(* ===================================================================== *)
(** ** uuid.uuid4 *)
(* ===================================================================== *)

Module Uuid.

Definition hex_digit (n : N) : ascii :=
  match n with
  | 0%N => "0" | 1%N => "1" | 2%N => "2" | 3%N => "3" | 4%N => "4"
  | 5%N => "5" | 6%N => "6" | 7%N => "7" | 8%N => "8" | 9%N => "9"
  | 10%N => "a" | 11%N => "b" | 12%N => "c" | 13%N => "d" | 14%N => "e"
  | _ => "f"
  end%char.

(** ['%0<digits>x' % n], most significant digit first. *)
Fixpoint hex (digits : nat) (n : N) : string :=
  match digits with
  | O => EmptyString
  | S d => String (hex_digit (N.land (N.shiftr n (4 * N.of_nat d)) 15)) (hex d n)
  end.

(** [UUID(bytes=os.urandom(16), version=4).int], [r] being the 16 random
    bytes read as a number: the variant bits become [10], the version
    nibble becomes [4]. *)
Definition uuid4_int (r : N) : N :=
  let i := N.land r (N.ones 128) in
  let i := N.ldiff i (N.shiftl 0xc000 48) in
  let i := N.lor i (N.shiftl 0x8000 48) in
  let i := N.ldiff i (N.shiftl 0xf000 64) in
  N.lor i (N.shiftl 4 76).

(** [str(u)]: the 32 hex digits, hyphenated 8-4-4-4-12. *)
Definition hyphenate (h : string) : string :=
  String.substring 0 8 h +:+ "-" +:+ String.substring 8 4 h +:+ "-" +:+
  String.substring 12 4 h +:+ "-" +:+ String.substring 16 4 h +:+ "-" +:+
  String.substring 20 12 h.

Definition to_string (i : N) : string := hyphenate (hex 32 i).

(** The characters of the class [[0-9a-f-]]. *)
Definition is_hex_or_dash (c : ascii) : bool :=
  Str.mem c "0123456789abcdef-".

End Uuid.

(* ===================================================================== *)
(** ** Python values and exceptions *)
(* ===================================================================== *)

Abbreviation bytes := (list Byte.byte).

(** The values [json.loads] produces and [json.dumps] accepts, and the
    tuples [kml2geojson] may return. *)
Inductive pyval : Type :=
| PyNone
| PyBool (b : bool)
| PyInt (z : Z)
| PyFloat (f : float)
| PyStr (s : string)
| PyList (items : list pyval)
| PyTuple (items : list pyval)
| PyDict (entries : list (string * pyval)).

Inductive exn : Type :=
| HTTPException (status_code : Z) (detail : string)
| ValueError (msg : string)
| UnicodeDecodeError (msg : string)
| JSONDecodeError (msg : string)
| ExpatError (msg : string)
| IndexError (msg : string)
| KeyError (msg : string)
| TypeError (msg : string)
| AttributeError (msg : string)
| OSError (msg : string)
| FileNotFoundError (msg : string)
| RuntimeError (msg : string).

Module Py.

(** [bool(v)]. *)
Definition truthy (v : pyval) : bool :=
  match v with
  | PyNone => false
  | PyBool b => b
  | PyInt z => negb (z =? 0)%Z
  | PyFloat f => negb (PrimFloat.eqb f 0%float)
  | PyStr s => negb (String.eqb s "")
  | PyList items | PyTuple items => match items with [] => false | _ => true end
  | PyDict entries => match entries with [] => false | _ => true end
  end.

(** [isinstance(v, list)] and [isinstance(v, dict)]. *)
Definition is_list (v : pyval) : bool :=
  match v with PyList _ => true | _ => false end.

Definition is_dict (v : pyval) : bool :=
  match v with PyDict _ => true | _ => false end.

(** [key in d] for a dict [d]. *)
Definition has_key (key : string) (v : pyval) : bool :=
  match v with
  | PyDict entries => existsb (fun kv => String.eqb (fst kv) key) entries
  | _ => false
  end.

(** [v[i]] for the literal indices [0] and [1] of the service. *)
Definition getitem (v : pyval) (i : nat) : exn + pyval :=
  match v with
  | PyList items =>
      match items !! i with
      | Some x => inr x
      | None => inl (IndexError "list index out of range")
      end
  | PyTuple items =>
      match items !! i with
      | Some x => inr x
      | None => inl (IndexError "tuple index out of range")
      end
  | PyStr s =>
      match String.get i s with
      | Some c => inr (PyStr (String c EmptyString))
      | None => inl (IndexError "string index out of range")
      end
  | PyDict _ => inl (KeyError (pretty (Z.of_nat i)))
  | PyNone => inl (TypeError "'NoneType' object is not subscriptable")
  | PyBool _ => inl (TypeError "'bool' object is not subscriptable")
  | PyInt _ => inl (TypeError "'int' object is not subscriptable")
  | PyFloat _ => inl (TypeError "'float' object is not subscriptable")
  end.

(** [str(e)]. *)
Definition exn_str (e : exn) : string :=
  match e with
  | HTTPException status_code detail => pretty status_code +:+ ": " +:+ detail
  | ValueError msg | UnicodeDecodeError msg | JSONDecodeError msg
  | ExpatError msg | IndexError msg | KeyError msg | TypeError msg
  | AttributeError msg | OSError msg | FileNotFoundError msg
  | RuntimeError msg => msg
  end.

(** The exception classes the handlers name, with their subclasses. *)
Definition is_HTTPException (e : exn) : bool :=
  match e with HTTPException _ _ => true | _ => false end.

Definition is_ValueError (e : exn) : bool :=
  match e with
  | ValueError _ | UnicodeDecodeError _ | JSONDecodeError _ => true
  | _ => false
  end.

Definition is_JSONDecodeError (e : exn) : bool :=
  match e with JSONDecodeError _ => true | _ => false end.

Definition is_OSError (e : exn) : bool :=
  match e with OSError _ | FileNotFoundError _ => true | _ => false end.

Definition is_FileNotFoundError (e : exn) : bool :=
  match e with FileNotFoundError _ => true | _ => false end.

Definition is_ExpatError (e : exn) : bool :=
  match e with ExpatError _ => true | _ => false end.

(** Strict UTF-8, as [bytes.decode('utf-8')] accepts it. *)
Definition in_range (lo hi : N) (b : Byte.byte) : bool :=
  (lo <=? Byte.to_N b)%N && (Byte.to_N b <=? hi)%N.

Definition cont (b : Byte.byte) : bool := in_range 0x80 0xBF b.

Fixpoint utf8_valid (bs : bytes) : bool :=
  match bs with
  | [] => true
  | b0 :: rest =>
      if in_range 0x00 0x7F b0 then utf8_valid rest
      else
        match rest with
        | [] => false
        | b1 :: rest1 =>
            if in_range 0xC2 0xDF b0 then cont b1 && utf8_valid rest1
            else
              match rest1 with
              | [] => false
              | b2 :: rest2 =>
                  if in_range 0xE0 0xEF b0 then
                    (if in_range 0xE0 0xE0 b0 then in_range 0xA0 0xBF b1
                     else if in_range 0xED 0xED b0 then in_range 0x80 0x9F b1
                     else cont b1)
                    && cont b2 && utf8_valid rest2
                  else
                    match rest2 with
                    | [] => false
                    | b3 :: rest3 =>
                        in_range 0xF0 0xF4 b0
                        && (if in_range 0xF0 0xF0 b0 then in_range 0x90 0xBF b1
                            else if in_range 0xF4 0xF4 b0 then in_range 0x80 0x8F b1
                            else cont b1)
                        && cont b2 && cont b3 && utf8_valid rest3
                    end
              end
        end
  end.

(** Universal newlines of a file opened in text mode for reading. *)
Fixpoint universal_newlines (s : string) : string :=
  match s with
  | EmptyString => EmptyString
  | String c s' =>
      if Ascii.eqb c "013"%char then
        match s' with
        | String c' s'' =>
            if Ascii.eqb c' "010"%char then String "010"%char (universal_newlines s'')
            else String "010"%char (universal_newlines s')
        | EmptyString => String "010"%char EmptyString
        end
      else String c (universal_newlines s')
  end.

End Py.

(* ===================================================================== *)
(** ** The world: local store, database tables, entropy *)
(* ===================================================================== *)

(** A mutation of the store, as recorded in the journal of the world. *)
Inductive fs_op : Type :=
| OpWrite (p : Path)
| OpRemove (p : Path)
| OpMove (src dst : Path).

(** The path an operation creates, truncates, extends or replaces. *)
Definition op_writes (op : fs_op) (p : Path) : Prop :=
  match op with
  | OpWrite q => q = p
  | OpRemove q => q = p
  | OpMove src dst => src = p \/ dst = p
  end.

(** A row of [geofiles] or [imagefiles] ([GeoFile] and [ImageFile] have the
    same columns; the two timestamps are left out). *)
Record FileRow : Type := {
  id : string;
  name : string;
  content_type : string;
  size : Z;
  url : string;
  path : string;
  institution_id : string
}.

(** A row of [institutions], with the columns the file pipeline reads. *)
Record Institution : Type := {
  inst_id : string;
  inst_name : string
}.

Record World : Type := {
  files : gmap Path bytes;
  journal : list fs_op;
  institutions : list Institution;
  geofiles : list FileRow;
  imagefiles : list FileRow;
  entropy : nat -> N;
  drawn : nat
}.

(** The third-party code and the failures of the platform.  [json_loads]
    is [json.loads] on a text: the value, or the exception it raises (a
    [JSONDecodeError] on a text that is not JSON, a plain [ValueError] on
    an integer literal over the digit limit of the interpreter, a
    [RecursionError], which is a [RuntimeError], on a nesting deeper than
    the stack allows). *)
Record Env : Type := {
  kml2geojson_convert : bytes -> exn + pyval;
  json_dumps : pyval -> string;
  json_loads : string -> exn + pyval;
  utf8_reason : bytes -> string;
  move_error : Path -> Path -> option exn
}.

(** [fastapi.UploadFile]: the file name and content type of the multipart
    part (the latter absent when the part has no [Content-Type]) and the
    bytes still to be read. *)
Record UploadFile : Type := {
  filename : string;
  upload_content_type : option string;
  content : bytes
}.

(* ===================================================================== *)
(** ** Computations: state and exceptions *)
(* ===================================================================== *)

Inductive Res (A : Type) : Type :=
| Ok (a : A)
| Raise (e : exn).
Arguments Ok {A} a.
Arguments Raise {A} e.

Definition M (A : Type) : Type := World -> Res A * World.

Definition ret {A} (a : A) : M A := fun w => (Ok a, w).

Definition bind {A B} (m : M A) (k : A -> M B) : M B :=
  fun w =>
    match m w with
    | (Ok a, w') => k a w'
    | (Raise e, w') => (Raise e, w')
    end.

Definition raise {A} (e : exn) : M A := fun w => (Raise e, w).

(** [try: body except Exception as e: handler(e)]. *)
Definition try_except {A} (body : M A) (handler : exn -> M A) : M A :=
  fun w =>
    match body w with
    | (Ok a, w') => (Ok a, w')
    | (Raise e, w') => handler e w'
    end.

(** [try: body finally: cleanup]. *)
Definition try_finally {A} (body : M A) (cleanup : M unit) : M A :=
  fun w =>
    match body w with
    | (r, w') =>
        match cleanup w' with
        | (Ok _, w'') => (r, w'')
        | (Raise e, w'') => (Raise e, w'')
        end
    end.

Definition lift_sum {A} (r : exn + A) : M A :=
  match r with
  | inl e => raise e
  | inr a => ret a
  end.

Declare Scope py_scope.
Delimit Scope py_scope with py.
Notation "'do' x <- m ; k" := (bind m (fun x => k))
  (at level 10, x name, m at level 100, k at level 200,
   format "'[v' 'do'  x  <-  m ; '/' k ']'") : py_scope.
Notation "'exec' m ; k" := (bind m (fun _ => k))
  (at level 10, m at level 100, k at level 200,
   format "'[v' 'exec'  m ; '/' k ']'") : py_scope.
Local Open Scope py_scope.

(** *** Updates of the world *)

Definition with_files (f : gmap Path bytes) (op : fs_op) (w : World) : World :=
  {| files := f; journal := journal w ++ [op];
     institutions := institutions w; geofiles := geofiles w;
     imagefiles := imagefiles w; entropy := entropy w; drawn := drawn w |}.

Definition with_tables (insts : list Institution) (geo img : list FileRow)
    (w : World) : World :=
  {| files := files w; journal := journal w;
     institutions := insts; geofiles := geo; imagefiles := img;
     entropy := entropy w; drawn := drawn w |}.

(** *** Primitives of the platform *)

Module Os.

(** [aiofiles.os.path.exists(p)]. *)
Definition path_exists (p : Path) : M bool :=
  fun w => (Ok (bool_decide (is_Some (files w !! p))), w).

(** [aiofiles.os.makedirs(d, exist_ok=True)]. *)
Definition makedirs (d : Path) : M unit := ret tt.

(** [aiofiles.open(p, "wb")] (or ["w"]): create or truncate. *)
Definition open_w (p : Path) : M unit :=
  fun w => (Ok tt, with_files (<[p := []]> (files w)) (OpWrite p) w).

(** [f.write(data)] on a file opened for writing at [p]. *)
Definition write (p : Path) (data : bytes) : M unit :=
  fun w =>
    (Ok tt,
     with_files (<[p := default [] (files w !! p) ++ data]> (files w)) (OpWrite p) w).

(** [open(p, "rb").read()]. *)
Definition read_bytes (p : Path) : M bytes :=
  fun w =>
    match files w !! p with
    | Some data => (Ok data, w)
    | None => (Raise (FileNotFoundError "No such file or directory"), w)
    end.

(** [aiofiles.os.remove(p)]. *)
Definition remove (p : Path) : M unit :=
  fun w =>
    match files w !! p with
    | Some _ => (Ok tt, with_files (delete p (files w)) (OpRemove p) w)
    | None => (Raise (FileNotFoundError "No such file or directory"), w)
    end.

(** [os.path.getsize(p)]. *)
Definition getsize (p : Path) : M Z :=
  fun w =>
    match files w !! p with
    | Some data => (Ok (Z.of_nat (length data)), w)
    | None => (Raise (FileNotFoundError "No such file or directory"), w)
    end.

(** [os.path.exists(s)] on a path given as a string.  [stat] follows the
    string as it is written: after a final separator, or a final ["."],
    it asks for a directory, and a regular file does not answer. *)
Definition exists_str (s : string) : M bool :=
  fun w =>
    match last (Str.split "/" s) with
    | Some part =>
        if String.eqb part "" || String.eqb part "." then (Ok false, w)
        else (Ok (bool_decide (is_Some (files w !! Pathlib.of_string s))), w)
    | None => (Ok false, w)
    end.

(** [shutil.move(src, dst)] between two files of one directory: a rename,
    which replaces [dst] in one step or fails and changes nothing. *)
Definition move (E : Env) (src dst : Path) : M unit :=
  fun w =>
    match move_error E src dst with
    | Some e => (Raise e, w)
    | None =>
        match files w !! src with
        | Some data =>
            (Ok tt, with_files (<[dst := data]> (delete src (files w))) (OpMove src dst) w)
        | None => (Raise (FileNotFoundError "No such file or directory"), w)
        end
    end.

(** [uuid.uuid4()], then [str]. *)
Definition uuid4 : M string :=
  fun w =>
    (Ok (Uuid.to_string (Uuid.uuid4_int (entropy w (drawn w)))),
     {| files := files w; journal := journal w;
        institutions := institutions w; geofiles := geofiles w;
        imagefiles := imagefiles w; entropy := entropy w;
        drawn := S (drawn w) |}).

End Os.

(* ===================================================================== *)
(** ** app/__init__.py *)
(* ===================================================================== *)

Definition ALLOWED_MIME_TYPES : gset string :=
  {[ "image/png"; "image/jpeg"; "image/jpg"; "image/gif"; "image/webp";
     "application/geo+json"; "application/vnd.google-earth.kml+xml";
     "application/json"; "application/octet-stream" ]}.

Definition GEO_MIME_TYPES : gset string :=
  {[ "application/vnd.google-earth.kml+xml"; "application/octet-stream";
     "application/json"; "application/geo+json" ]}.

(** [content_type in types], for a content type that may be [None]. *)
Definition mime_in (ct : option string) (types : gset string) : bool :=
  match ct with
  | Some s => bool_decide (s ∈ types)
  | None => false
  end.

(* ===================================================================== *)
(** ** app/utility/file_services.py *)
(* ===================================================================== *)

Module FileHandler.

Definition BASE_STATIC_DIR : Path := Pathlib.of_string "app/static".
Definition GEO_JSON_DIR : Path := Pathlib.joinpath BASE_STATIC_DIR "geo_jsons".
Definition IMAGE_DIR : Path := Pathlib.joinpath BASE_STATIC_DIR "images".

(** [kml2geojson.main.convert(str(input_filepath))]: the library reads the
    file and converts what it has read. *)
Definition convert_call (E : Env) (input_filepath : Path) : M pyval :=
  do data <- Os.read_bytes input_filepath;
  lift_sum (kml2geojson_convert E data).

(** [p.with_suffix(suf)], raising on an empty name. *)
Definition with_suffix (p : Path) (suf : string) : M Path :=
  match Pathlib.with_suffix p suf with
  | Some q => ret q
  | None => raise (ValueError "path has an empty name")
  end.

(** The [finally] of the conversion and the handler of the overwrite:
    remove [p] if it is there, swallowing a failure of the removal. *)
Definition remove_if_exists (p : Path) : M unit :=
  do there <- Os.path_exists p;
  if there then try_except (Os.remove p) (fun _ => ret tt) else ret tt.

Definition convert_and_save_kml_to_geojson (E : Env)
    (input_filepath output_filepath : Path) : M unit :=
  try_finally
    (try_except
       (exec Os.makedirs (Pathlib.parent output_filepath);
        do result <-
          try_except (convert_call E input_filepath)
            (fun e =>
               if Py.is_ExpatError e
               then raise (ValueError "Invalid KML structure or encoding")
               else raise (ValueError "KML to GeoJSON conversion failed"));
        do geojson_dict <-
          lift_sum (if Py.is_list result then Py.getitem result 0
                    else Py.getitem result 1);
        if negb (Py.truthy geojson_dict)
        then raise (ValueError "Invalid KML structure or encoding")
        else
          exec Os.open_w output_filepath;
          exec Os.write output_filepath
                 (list_byte_of_string (json_dumps E geojson_dict));
          do there <- Os.path_exists output_filepath;
          if negb there
          then raise (ValueError "KML to GeoJSON conversion failed, file not created")
          else ret tt)
       (fun e => raise e))
    (remove_if_exists input_filepath).

Definition _get_upload_path (uploaded_file : UploadFile) : M Path :=
  let file_extension := Pathlib.suffix (Pathlib.of_string (filename uploaded_file)) in
  if String.eqb file_extension ""
  then raise (HTTPException 400 "File has no extension")
  else
    do u <- Os.uuid4;
    let new_filename := u +:+ file_extension in
    let upload_dir :=
      if mime_in (upload_content_type uploaded_file) GEO_MIME_TYPES
      then GEO_JSON_DIR else IMAGE_DIR in
    exec Os.makedirs upload_dir;
    ret (Pathlib.joinpath upload_dir new_filename).

(** [Path(file.filename).suffix.lower() == '.kml']. *)
Definition is_kml (file : UploadFile) : bool :=
  match Str.lower (Pathlib.suffix (Pathlib.of_string (filename file))) with
  | Some lowered => String.eqb lowered ".kml"
  | None => false
  end.

(** [uploaded_file.close()]. *)
Definition close (file : UploadFile) : M unit := ret tt.

Definition save_file (E : Env) (uploaded_file : UploadFile) : M Path :=
  try_finally
    (try_except
       (do file_path_obj <- _get_upload_path uploaded_file;
        let data := content uploaded_file in
        match data with
        | [] => raise (HTTPException 400 "Empty file uploaded")
        | _ =>
            exec Os.open_w file_path_obj;
            exec Os.write file_path_obj data;
            if is_kml uploaded_file then
              do output_filepath <- with_suffix file_path_obj ".geojson";
              exec convert_and_save_kml_to_geojson E file_path_obj output_filepath;
              ret output_filepath
            else ret file_path_obj
        end)
       (fun e =>
          if Py.is_HTTPException e then raise e
          else if Py.is_ValueError e then
            raise (HTTPException 400 ("Error processing KML file: " +:+ Py.exn_str e))
          else if Py.is_OSError e then
            raise (HTTPException 500 ("Could not save file on server: " +:+ Py.exn_str e))
          else
            raise (HTTPException 500 "An internal error occurred during file saving.")))
    (close uploaded_file).

(** [open(file_path, "r", encoding="utf-8").read()]. *)
Definition read_text (E : Env) (file_path : Path) : M string :=
  do data <- Os.read_bytes file_path;
  if Py.utf8_valid data
  then ret (Py.universal_newlines (string_of_list_byte data))
  else raise (UnicodeDecodeError
                ("'utf-8' codec can't decode " +:+ utf8_reason E data)).

(** [json.loads(content_string)]. *)
Definition loads (E : Env) (s : string) : M pyval := lift_sum (json_loads E s).

Definition load_geojson_content (E : Env) (file_path : Path) : M pyval :=
  do there <- Os.path_exists file_path;
  if negb there then raise (HTTPException 404 "GeoJSON file not found")
  else
    try_except
      (do content_string <- read_text E file_path;
       do parsed_data <- loads E content_string;
       if negb (Py.is_dict parsed_data) || negb (Py.has_key "type" parsed_data)
       then raise (ValueError
                     "Invalid GeoJSON structure: Missing 'type' key or not a dictionary.")
       else ret parsed_data)
      (fun e =>
         if Py.is_FileNotFoundError e then
           raise (HTTPException 404 "GeoJSON file not found")
         else if Py.is_JSONDecodeError e then
           raise (HTTPException 400 "Could not parse GeoJSON file content")
         else if Py.is_ValueError e then
           raise (HTTPException 400 (Py.exn_str e))
         else
           raise (HTTPException 500 ("Error loading GeoJSON file: " +:+ Py.exn_str e))).

Definition delete_file (file_path : Path) : M unit :=
  try_except
    (do there <- Os.path_exists file_path;
     if there then Os.remove file_path else ret tt)
    (fun e => raise (HTTPException 500 ("Failed to delete file: " +:+ Py.exn_str e))).

Definition file_exists (file_path : Path) : M bool := Os.path_exists file_path.

(** The size of a chunk in [overwrite_file]. *)
Definition CHUNK_SIZE : nat := 1024 * 1024.
Arguments CHUNK_SIZE : simpl never.

(** The loop [while True: chunk = file.read(n); if not chunk: break;
    tmp.write(chunk)] on the bytes [rest] still to be read.  Every turn
    that does not leave the loop consumes a byte, so [S (length rest)]
    turns are enough; the last branch is never taken with that fuel. *)
Fixpoint copy_chunks (fuel n : nat) (rest : bytes) (tmp : Path) : M unit :=
  match fuel with
  | O => raise (RuntimeError "copy_chunks: out of fuel")
  | S fuel' =>
      match take n rest with
      | [] => ret tt
      | chunk => exec Os.write tmp chunk; copy_chunks fuel' n (drop n rest) tmp
      end
  end.

(** The [except Exception as e] clause of [overwrite_file], at the value
    [temp_file_path] has when the exception arrives. *)
Definition overwrite_failed (temp_file_path : Path) (e : exn) : M Path :=
  exec remove_if_exists temp_file_path;
  raise (HTTPException 500 ("Failed to overwrite file: " +:+ Py.exn_str e)).

(** [overwrite_file].  The body of the [try] assigns [temp_file_path]
    twice: the [.tmp] path at the start and, after a conversion, its
    [.geojson] sibling.  The block is cut at the second assignment, each
    part under the handler at the value the variable has there; an
    [HTTPException] of the first part ends the computation, as in the
    source. *)
Definition overwrite_file (E : Env) (file : UploadFile) (target_path : Path) : M unit :=
  try_finally
    (do u <- Os.uuid4;
     let temp_filename := "." +:+ u +:+ ".tmp" in
     let temp_file_path := Pathlib.joinpath (Pathlib.parent target_path) temp_filename in
     do source <-
       try_except
         (exec Os.open_w temp_file_path;
          exec copy_chunks (S (length (content file))) CHUNK_SIZE (content file)
                 temp_file_path;
          if is_kml file then
            do output_filepath <- with_suffix temp_file_path ".geojson";
            exec convert_and_save_kml_to_geojson E temp_file_path output_filepath;
            ret output_filepath
          else ret temp_file_path)
         (overwrite_failed temp_file_path);
     try_except
       (Os.move E source target_path)
       (fun e => do _ <- overwrite_failed source e; ret tt))
    (close file).

End FileHandler.

(* ===================================================================== *)
(** ** app/utility/db_services.py *)
(* ===================================================================== *)

Module CRUDService.

(** The two file models of [app/models.py]. *)
Inductive model : Type := GeoFile | ImageFile.

Definition table (m : model) (w : World) : list FileRow :=
  match m with
  | GeoFile => geofiles w
  | ImageFile => imagefiles w
  end.

Definition set_table (m : model) (rows : list FileRow) (w : World) : World :=
  match m with
  | GeoFile => with_tables (institutions w) rows (imagefiles w) w
  | ImageFile => with_tables (institutions w) (geofiles w) rows w
  end.

(** [db.query(m).filter(cond).first()]. *)
Definition query_first (m : model) (cond : FileRow -> bool) : M (option FileRow) :=
  fun w => (Ok (List.find cond (table m w)), w).

(** [db.add(row); db.commit(); db.refresh(row)]: the primary key takes its
    default, a fresh [uuid4], when the row is inserted. *)
Definition db_add (m : model) (row : FileRow) : M FileRow :=
  do key <- Os.uuid4;
  let row' := {| id := key; name := name row; content_type := content_type row;
                 size := size row; url := url row; path := path row;
                 institution_id := institution_id row |} in
  fun w => (Ok row', set_table m (table m w ++ [row']) w).

(** [db.delete(row); db.commit()]: the row of that primary key goes. *)
Definition db_delete (m : model) (row : FileRow) : M unit :=
  fun w =>
    (Ok tt,
     set_table m (List.filter (fun r => negb (String.eqb (id r) (id row))) (table m w)) w).

Definition institution_exists (nm : string) : M bool :=
  fun w => (Ok (existsb (fun i => String.eqb (inst_name i) nm) (institutions w)), w).

Definition create_institution (nm : string) : M Institution :=
  do key <- Os.uuid4;
  let institution := {| inst_id := key; inst_name := nm |} in
  fun w =>
    (Ok institution,
     with_tables (institutions w ++ [institution]) (geofiles w) (imagefiles w) w).

Definition get_institution_by_id (institution_id : string) : M Institution :=
  fun w =>
    match List.find (fun i => String.eqb (inst_id i) institution_id) (institutions w) with
    | Some institution => (Ok institution, w)
    | None => (Raise (HTTPException 404 "Institution not found"), w)
    end.

(** [update_institution], on the columns kept here: [updates] holds the new
    name, or [None] to leave it. *)
Definition update_institution (institution_id0 : string) (updates : option string)
    : M Institution :=
  do institution <- get_institution_by_id institution_id0;
  let updated :=
    match updates with
    | Some nm => {| inst_id := inst_id institution; inst_name := nm |}
    | None => institution
    end in
  fun w =>
    (Ok updated,
     with_tables
       (map (fun x => if String.eqb (inst_id x) (inst_id institution)
                      then updated else x) (institutions w))
       (geofiles w) (imagefiles w) w).

(** The relationships [institution.geo_file] and [institution.image_file]
    ([uselist=False]): the row that refers to the institution, or [None]. *)
Definition related (m : model) (institution : Institution) : M (option FileRow) :=
  query_first m (fun r => String.eqb (institution_id r) (inst_id institution)).

(** [row.path] on what a relationship gave. *)
Definition path_of (row : option FileRow) : M string :=
  match row with
  | Some r => ret (path r)
  | None => raise (AttributeError "'NoneType' object has no attribute 'path'")
  end.

(** [db.delete(institution); db.commit()] with [cascade="all, delete-orphan"]
    on both relationships: the related rows go with the institution. *)
Definition db_delete_institution (institution : Institution)
    (geo image : option FileRow) : M unit :=
  exec match geo with Some r => db_delete GeoFile r | None => ret tt end;
  exec match image with Some r => db_delete ImageFile r | None => ret tt end;
  fun w =>
    (Ok tt,
     with_tables
       (List.filter (fun i => negb (String.eqb (inst_id i) (inst_id institution)))
          (institutions w))
       (geofiles w) (imagefiles w) w).

Definition delete_institution (institution_id : string) : M unit :=
  do institution <- get_institution_by_id institution_id;
  do geo <- related GeoFile institution;
  do geo_path <- path_of geo;
  exec FileHandler.delete_file (Pathlib.of_string geo_path);
  do image <- related ImageFile institution;
  do image_path <- path_of image;
  exec FileHandler.delete_file (Pathlib.of_string image_path);
  db_delete_institution institution geo image.

Definition file_exists (institution_id0 : string) (is_geo : bool) : M bool :=
  let m := if is_geo then GeoFile else ImageFile in
  do row <- query_first m (fun r => String.eqb (institution_id r) institution_id0);
  ret (match row with Some _ => true | None => false end).

Definition create_file (E : Env) (file : UploadFile) (institution_id0 : string)
    : M (model * FileRow) :=
  do file_path <- FileHandler.save_file E file;
  let file_model :=
    if mime_in (upload_content_type file) GEO_MIME_TYPES then GeoFile else ImageFile in
  let file_label := match file_model with GeoFile => "geo" | ImageFile => "image" end in
  let base_url := "localhost:8000/api/v1/files/" +:+ file_label +:+ "/" in
  do sz <- Os.getsize file_path;
  match upload_content_type file with
  | None => raise (RuntimeError "IntegrityError: NOT NULL constraint failed")
  | Some ct =>
      do new_file <-
        db_add file_model
          {| id := ""; name := Pathlib.name file_path; content_type := ct;
             size := sz; url := base_url +:+ Pathlib.name file_path;
             path := Pathlib.to_string file_path;
             institution_id := institution_id0 |};
      ret (file_model, new_file)
  end.

(** [create_file] from the return of [save_file] on: the record is built,
    added and committed, with no [await] on the way. *)
Definition record_file (file : UploadFile) (institution_id0 : string) (file_path : Path)
    : M (model * FileRow) :=
  let file_model :=
    if mime_in (upload_content_type file) GEO_MIME_TYPES then GeoFile else ImageFile in
  let file_label := match file_model with GeoFile => "geo" | ImageFile => "image" end in
  let base_url := "localhost:8000/api/v1/files/" +:+ file_label +:+ "/" in
  do sz <- Os.getsize file_path;
  match upload_content_type file with
  | None => raise (RuntimeError "IntegrityError: NOT NULL constraint failed")
  | Some ct =>
      do new_file <-
        db_add file_model
          {| id := ""; name := Pathlib.name file_path; content_type := ct;
             size := sz; url := base_url +:+ Pathlib.name file_path;
             path := Pathlib.to_string file_path;
             institution_id := institution_id0 |};
      ret (file_model, new_file)
  end.

Definition _get_file_or_404 (m : model) (file_name file_label : string) : M FileRow :=
  do file <- query_first m (fun r => String.eqb (name r) file_name);
  match file with
  | None => raise (HTTPException 404 (file_label +:+ " not found"))
  | Some row =>
      do there <- FileHandler.file_exists (Pathlib.of_string (path row));
      if there then ret row
      else raise (HTTPException 404
                    (file_label +:+ " found in DB but missing in filesystem"))
  end.

Definition _delete_file (m : model) (file : FileRow) : M unit :=
  exec FileHandler.delete_file (Pathlib.of_string (path file));
  db_delete m file.

Definition get_geo_file (file_name : string) : M FileRow :=
  _get_file_or_404 GeoFile file_name "GeoFile".

Definition get_image_file (file_name : string) : M FileRow :=
  _get_file_or_404 ImageFile file_name "ImageFile".

Definition get_geojson_file_content (E : Env) (path0 : string) : M pyval :=
  FileHandler.load_geojson_content E (Pathlib.of_string path0).

Definition delete_geo_file (file_name : string) : M unit :=
  do geo_file <- get_geo_file file_name;
  _delete_file GeoFile geo_file.

Definition delete_image_file (file_name : string) : M unit :=
  do image_file <- get_image_file file_name;
  _delete_file ImageFile image_file.

Definition update_file (E : Env) (file : UploadFile) (file_name : string)
    (is_geo : bool) : M FileRow :=
  let '(file_model, file_label) :=
    if is_geo then (GeoFile, "Geo File") else (ImageFile, "Image File") in
  do existing_file <- _get_file_or_404 file_model file_name file_label;
  exec FileHandler.overwrite_file E file (Pathlib.of_string (path existing_file));
  ret existing_file.

End CRUDService.

(* ===================================================================== *)
(** ** app/routers/files.py and app/routers/institution.py *)
(* ===================================================================== *)

Module Routers.

(** [f"{content_type}"] for a content type that may be [None]. *)
Definition show_content_type (ct : option string) : string :=
  match ct with
  | Some s => s
  | None => "None"
  end.

Definition invalid_file_type (ct : option string) : exn :=
  HTTPException 400
    ("Invalid file type '" +:+ show_content_type ct +:+
     "'. Allowed types are images, GeoJSON, or KML.").

Definition already_exists (file : UploadFile) : exn :=
  HTTPException 400
    ("File with name '" +:+ filename file +:+ "' already exists for institution.").

(** The [for file in files] loop of [upload_file], with the two lists it
    fills, as it runs when no other request is served in between. *)
Fixpoint upload_loop (E : Env) (files : list UploadFile) (institution_id0 : string)
    (geo_files image_files : list FileRow) : M (list FileRow * list FileRow) :=
  match files with
  | [] => ret (geo_files, image_files)
  | file :: rest =>
      if negb (mime_in (upload_content_type file) ALLOWED_MIME_TYPES)
      then raise (invalid_file_type (upload_content_type file))
      else
        let is_geo := mime_in (upload_content_type file) GEO_MIME_TYPES in
        do taken <- CRUDService.file_exists institution_id0 is_geo;
        if taken then raise (already_exists file)
        else
          do saved_file <- CRUDService.create_file E file institution_id0;
          if is_geo
          then upload_loop E rest institution_id0 (geo_files ++ [snd saved_file]) image_files
          else upload_loop E rest institution_id0 geo_files (image_files ++ [snd saved_file])
  end.

Definition upload_file (E : Env) (files : list UploadFile) (institution_id0 : string)
    : M (list FileRow * list FileRow) :=
  upload_loop E files institution_id0 [] [].

(** [upload_file] is a coroutine: at the [await]s of [save_file], where
    aiofiles hands the directory, the file and its bytes to a thread, the
    event loop runs the other requests that are ready, each with a session
    of its own on the one database.  The last of these [await]s comes when
    the store has the state [save_file] leaves; nothing is added to the
    session before, and no [await] stands between that point and the
    [commit].  A request with one file is therefore two runs: up to that
    point, and from it. *)
Definition upload_begin (E : Env) (file : UploadFile) (institution_id0 : string)
    : M Path :=
  if negb (mime_in (upload_content_type file) ALLOWED_MIME_TYPES)
  then raise (invalid_file_type (upload_content_type file))
  else
    let is_geo := mime_in (upload_content_type file) GEO_MIME_TYPES in
    do taken <- CRUDService.file_exists institution_id0 is_geo;
    if taken then raise (already_exists file)
    else FileHandler.save_file E file.

Definition upload_end (file : UploadFile) (institution_id0 : string) (file_path : Path)
    : M (list FileRow * list FileRow) :=
  let is_geo := mime_in (upload_content_type file) GEO_MIME_TYPES in
  do saved_file <- CRUDService.record_file file institution_id0 file_path;
  if is_geo then ret ([snd saved_file], []) else ret ([], [snd saved_file]).

(** The outcome of a request, kept as a value: what one request raises
    ends that request and no other. *)
Definition attempt {A} (m : M A) : M (exn + A) :=
  try_except (do a <- m; ret (inr a)) (fun e => ret (inl e)).

(** Two requests [POST /files/] with one file each, the second served
    while the first is suspended: both begin, then both end. *)
Definition upload_file_concurrently (E : Env) (file1 file2 : UploadFile)
    (institution_id1 institution_id2 : string)
    : M ((exn + list FileRow * list FileRow) * (exn + list FileRow * list FileRow)) :=
  do begun1 <- attempt (upload_begin E file1 institution_id1);
  do begun2 <- attempt (upload_begin E file2 institution_id2);
  do ended1 <- match begun1 with
               | inl e => ret (inl e)
               | inr file_path => attempt (upload_end file1 institution_id1 file_path)
               end;
  do ended2 <- match begun2 with
               | inl e => ret (inl e)
               | inr file_path => attempt (upload_end file2 institution_id2 file_path)
               end;
  ret (ended1, ended2).

Definition update_file (E : Env) (file : UploadFile) (file_name file_type : string)
    : M FileRow :=
  if negb (String.eqb file_type "geo" || String.eqb file_type "image")
  then raise (HTTPException 400 "Invalid file type. Must be 'geo' or 'image'.")
  else if negb (mime_in (upload_content_type file) ALLOWED_MIME_TYPES)
  then raise (invalid_file_type (upload_content_type file))
  else CRUDService.update_file E file file_name (String.eqb file_type "geo").

Definition delete_file (file_name file_type : string) : M unit :=
  if String.eqb file_type "geo" then CRUDService.delete_geo_file file_name
  else if String.eqb file_type "image" then CRUDService.delete_image_file file_name
  else raise (HTTPException 400 "Invalid file type. Must be 'geo' or 'image'.").

Definition create_institution (nm : string) : M Institution :=
  do taken <- CRUDService.institution_exists nm;
  if taken then raise (HTTPException 400 "Institution already exists")
  else CRUDService.create_institution nm.

Definition update_institution (institution_id0 : string) (updates : option string)
    : M Institution :=
  CRUDService.update_institution institution_id0 updates.

Definition delete_institution (institution_id0 : string) : M unit :=
  CRUDService.delete_institution institution_id0.

(** What the read route of [files.py] answers with:
    [JSONResponse(content=..., status_code=...)], kept as the body that is
    rendered when the response is built, and
    [FileResponse(path, media_type=...)], which opens nothing until it is
    sent. *)
Inductive Response : Type :=
| JSONResponse (body : bytes) (status : Z)
| FileResponse (file : string) (media_type : string).

(** Starlette's [JSONResponse.render]: the bytes of a value, or the
    exception of a value that has no JSON text (a NaN, a lone surrogate). *)
Record Starlette : Type := {
  render : pyval -> exn + bytes
}.

Definition get_file (E : Env) (St : Starlette) (file_name file_type : string)
    : M Response :=
  if String.eqb file_type "geo" then
    do geo_file <- CRUDService.get_geo_file file_name;
    do parsed_content <- CRUDService.get_geojson_file_content E (path geo_file);
    do body <- lift_sum (render St parsed_content);
    ret (JSONResponse body 200)
  else if String.eqb file_type "image" then
    do image_file <- CRUDService.get_image_file file_name;
    do there <- Os.exists_str (path image_file);
    if negb there then raise (HTTPException 404 "Image file not found on disk")
    else ret (FileResponse (path image_file) (content_type image_file))
  else raise (HTTPException 400 "Invalid file type.").

(** [get_institutions] calls [service.get_institutions()], a method that
    [CRUDService] does not define: the attribute lookup raises. *)
Definition get_institutions : M (list Institution) :=
  raise (AttributeError "'CRUDService' object has no attribute 'get_institutions'").

Definition get_institution_by_id (institution_id0 : string) : M Institution :=
  CRUDService.get_institution_by_id institution_id0.

(** A request to the service. *)
Inductive request : Type :=
| PostFiles (files : list UploadFile) (institution_id0 : string)
| PutFile (file : UploadFile) (file_name file_type : string)
| DeleteFile (file_name file_type : string)
| PostInstitution (nm : string)
| PutInstitution (institution_id0 : string) (updates : option string)
| DeleteInstitution (institution_id0 : string).

(** The world after a request, whatever its outcome. *)
Definition handle (E : Env) (r : request) (w : World) : World :=
  match r with
  | PostFiles files i => snd (upload_file E files i w)
  | PutFile file nm ty => snd (update_file E file nm ty w)
  | DeleteFile nm ty => snd (delete_file nm ty w)
  | PostInstitution nm => snd (create_institution nm w)
  | PutInstitution i updates => snd (update_institution i updates w)
  | DeleteInstitution i => snd (delete_institution i w)
  end.

End Routers.

(* ===================================================================== *)
(** ** Vocabulary of the specification *)
(* ===================================================================== *)

(** A single path component: no separator, neither empty nor ["."]. *)
Definition plain_name (s : string) : Prop :=
  Str.mem "/" s = false /\ s <> "" /\ s <> ".".

(** The shape of a non-empty [suffix]: a dot, then at least one character,
    none of them a dot or a separator. *)
Definition ext_shape (ext : string) : Prop :=
  exists e, ext = String "." e /\ e <> "" /\ Str.mem "." e = false /\
            Str.mem "/" e = false.

(** What [str(uuid.uuid4())] looks like: 36 characters of [[0-9a-f-]]. *)
Definition uuid_shape (u : string) : Prop :=
  String.length u = 36 /\ Str.all Uuid.is_hex_or_dash u = true.

(** The database tables and the entropy source. *)
Definition same_db (w w' : World) : Prop :=
  institutions w' = institutions w /\ geofiles w' = geofiles w /\
  imagefiles w' = imagefiles w /\ entropy w' = entropy w.

Definition keeps_db {A} (m : M A) : Prop := forall w, same_db w (snd (m w)).

(** What the body of [convert_and_save_kml_to_geojson] makes of the bytes
    of the input file: the dictionary to write, or the exception that
    leaves the function. *)
Definition conversion (E : Env) (data : bytes) : exn + pyval :=
  match kml2geojson_convert E data with
  | inl e =>
      inl (ValueError (if Py.is_ExpatError e then "Invalid KML structure or encoding"
                       else "KML to GeoJSON conversion failed"))
  | inr result =>
      match (if Py.is_list result then Py.getitem result 0 else Py.getitem result 1) with
      | inl e => inl e
      | inr d => if Py.truthy d then inr d
                 else inl (ValueError "Invalid KML structure or encoding")
      end
  end.

(** The identifier the next call of [uuid.uuid4] will give, and the world
    once it is drawn. *)
Definition next_uuid (w : World) : string :=
  Uuid.to_string (Uuid.uuid4_int (entropy w (drawn w))).

Definition tick (w : World) : World :=
  {| files := files w; journal := journal w;
     institutions := institutions w; geofiles := geofiles w;
     imagefiles := imagefiles w; entropy := entropy w; drawn := S (drawn w) |}.

(** The extension of an upload, its directory, the path allocated to it in
    [w] and the path of its conversion. *)
Definition extension (f : UploadFile) : string :=
  Pathlib.suffix (Pathlib.of_string (filename f)).

Definition upload_dir (f : UploadFile) : Path :=
  if mime_in (upload_content_type f) GEO_MIME_TYPES
  then FileHandler.GEO_JSON_DIR else FileHandler.IMAGE_DIR.

Definition allocated (f : UploadFile) (w : World) : Path :=
  upload_dir f ++ [next_uuid w +:+ extension f].

Definition converted (f : UploadFile) (w : World) : Path :=
  upload_dir f ++ [next_uuid w +:+ ".geojson"].

(** The [except] clauses of [save_file], as a map on exceptions. *)
Definition save_error (e : exn) : exn :=
  if Py.is_HTTPException e then e
  else if Py.is_ValueError e then
    HTTPException 400 ("Error processing KML file: " +:+ Py.exn_str e)
  else if Py.is_OSError e then
    HTTPException 500 ("Could not save file on server: " +:+ Py.exn_str e)
  else HTTPException 500 "An internal error occurred during file saving.".

(** The world with the store [f], after the mutations [ops]. *)
Definition set_store (f : gmap Path bytes) (ops : list fs_op) (w : World) : World :=
  {| files := f; journal := journal w ++ ops;
     institutions := institutions w; geofiles := geofiles w;
     imagefiles := imagefiles w; entropy := entropy w; drawn := drawn w |}.

(** The bytes written for a converted dictionary. *)
Definition geojson_bytes (E : Env) (d : pyval) : bytes :=
  list_byte_of_string (json_dumps E d).

(** The text [load_geojson_content] reads from the bytes of a file, when
    they decode, and the value [json.loads] finds in it. *)
Definition text_of (data : bytes) : option string :=
  if Py.utf8_valid data
  then Some (Py.universal_newlines (string_of_list_byte data))
  else None.

Definition parsed (E : Env) (data : bytes) : option pyval :=
  match text_of data with
  | Some s => match json_loads E s with inr v => Some v | inl _ => None end
  | None => None
  end.

(** The minimal shape asked of a GeoJSON value: an object with a ["type"]. *)
Definition geojson_shaped (v : pyval) : bool :=
  Py.is_dict v && Py.has_key "type" v.

(** The errors of [load_geojson_content]. *)
Definition NotFound : exn := HTTPException 404 "GeoJSON file not found".
Definition ParseError : exn := HTTPException 400 "Could not parse GeoJSON file content".
Definition InvalidStructure : exn :=
  HTTPException 400 "Invalid GeoJSON structure: Missing 'type' key or not a dictionary.".
Definition DecodeError (E : Env) (data : bytes) : exn :=
  HTTPException 400 ("'utf-8' codec can't decode " +:+ utf8_reason E data).

(** The letters [kml], each in either case, the first one possibly
    written as the Kelvin sign. *)
Definition kml_letters (e : string) : Prop :=
  ∃ k m l, e = k +:+ m +:+ l ∧
           (k = "k" ∨ k = "K" ∨ k = Str.kelvin) ∧ (m = "m" ∨ m = "M") ∧
           (l = "l" ∨ l = "L").

(** The answers to an exception of [json.loads] that is a [ValueError]
    without being a [JSONDecodeError], and to one that is no [ValueError]
    at all. *)
Definition ValueRejected (e : exn) : exn := HTTPException 400 (Py.exn_str e).
Definition LoadFailed (e : exn) : exn :=
  HTTPException 500 ("Error loading GeoJSON file: " +:+ Py.exn_str e).

(** The [except] clauses of [load_geojson_content], as a map on
    exceptions. *)
Definition load_error (e : exn) : exn :=
  if Py.is_FileNotFoundError e then NotFound
  else if Py.is_JSONDecodeError e then ParseError
  else if Py.is_ValueError e then ValueRejected e
  else LoadFailed e.


(** The temporary paths of an overwrite of [target] in [w]. *)
Definition temp_path (target : Path) (w : World) : Path :=
  Pathlib.parent target ++ ["." +:+ next_uuid w +:+ ".tmp"].

Definition temp_geojson (target : Path) (w : World) : Path :=
  Pathlib.parent target ++ ["." +:+ next_uuid w +:+ ".geojson"].

(** The error [overwrite_file] raises for the exception [e]. *)
Definition OverwriteFailed (e : exn) : exn :=
  HTTPException 500 ("Failed to overwrite file: " +:+ Py.exn_str e).

(** The journal of the streaming phase of an overwrite: the temporary
    file is opened, then written once per chunk. *)
Definition streamed (tmp : Path) (k : nat) : list fs_op :=
  OpWrite tmp :: replicate k (OpWrite tmp).

(** What [overwrite_file] returns and leaves behind, [k] being the number
    of chunks read. *)
Definition overwrite_outcome (E : Env) (f : UploadFile) (target : Path) (w : World)
    (k : nat) : Res unit * World :=
  let tmp := temp_path target w in
  let out := temp_geojson target w in
  if FileHandler.is_kml f then
    match conversion E (content f) with
    | inl e =>
        (Raise (OverwriteFailed e),
         set_store (delete tmp (files w)) (streamed tmp k ++ [OpRemove tmp]) (tick w))
    | inr d =>
        match move_error E out target with
        | Some e =>
            (Raise (OverwriteFailed e),
             set_store (delete out (delete tmp (files w)))
               (streamed tmp k ++ [OpWrite out; OpWrite out; OpRemove tmp; OpRemove out])
               (tick w))
        | None =>
            (Ok tt,
             set_store (<[target := geojson_bytes E d]> (delete out (delete tmp (files w))))
               (streamed tmp k ++ [OpWrite out; OpWrite out; OpRemove tmp; OpMove out target])
               (tick w))
        end
    end
  else
    match move_error E tmp target with
    | Some e =>
        (Raise (OverwriteFailed e),
         set_store (delete tmp (files w)) (streamed tmp k ++ [OpRemove tmp]) (tick w))
    | None =>
        (Ok tt,
         set_store (<[target := content f]> (delete tmp (files w)))
           (streamed tmp k ++ [OpMove tmp target]) (tick w))
    end.

(* ===================================================================== *)
(** ** A sample environment, for the examples *)
(* ===================================================================== *)

Module Sample.

Definition quote (s : string) : string :=
  String "034"%char (s +:+ String "034"%char EmptyString).

(** A serializer in the manner of [json.dumps] (floats are all rendered
    as [0.0], strings are not escaped). *)
Fixpoint dumps (v : pyval) : string :=
  match v with
  | PyNone => "null"
  | PyBool b => if b then "true" else "false"
  | PyInt z => pretty z
  | PyFloat _ => "0.0"
  | PyStr s => quote s
  | PyList items | PyTuple items =>
      "[" +:+ Str.join ", " (map dumps items) +:+ "]"
  | PyDict entries =>
      "{" +:+ Str.join ", "
                (map (fun kv => match kv with
                                | (k, x) => quote k +:+ ": " +:+ dumps x
                                end) entries) +:+ "}"
  end.

Definition feature_collection : pyval :=
  PyDict [("type", PyStr "FeatureCollection"); ("features", PyList [])].

(** A parser that knows three texts. *)
Definition loads (s : string) : exn + pyval :=
  if String.eqb s (dumps feature_collection) then inr feature_collection
  else if String.eqb s "[]" then inr (PyList [])
  else if String.eqb s "{}" then inr (PyDict [])
  else inl (JSONDecodeError "Expecting value: line 1 column 1 (char 0)").

(** A converter that accepts what starts with ["<"]. *)
Definition convert (data : bytes) : exn + pyval :=
  match data with
  | x3c :: _ => inr (PyList [feature_collection])
  | _ => inl (ExpatError "syntax error: line 1, column 0")
  end.

Definition env : Env :=
  {| kml2geojson_convert := convert;
     json_dumps := dumps;
     json_loads := loads;
     utf8_reason := fun _ => "byte 0xff in position 0: invalid start byte";
     move_error := fun _ _ => None |}.

(** The same, with a converter that finds nothing and returns [[]]. *)
Definition env_empty_result : Env :=
  {| kml2geojson_convert := fun _ => inr (PyList []);
     json_dumps := dumps;
     json_loads := loads;
     utf8_reason := utf8_reason env;
     move_error := fun _ _ => None |}.

(** The same as [env], with a parser that gives up on the nesting of the
    text, and with one that meets an integer literal of 5000 digits. *)
Definition env_too_deep : Env :=
  {| kml2geojson_convert := convert;
     json_dumps := dumps;
     json_loads := fun _ =>
       inl (RuntimeError "maximum recursion depth exceeded while decoding a JSON array from a unicode string");
     utf8_reason := utf8_reason env;
     move_error := fun _ _ => None |}.

Definition env_long_integer : Env :=
  {| kml2geojson_convert := convert;
     json_dumps := dumps;
     json_loads := fun _ =>
       inl (ValueError "Exceeds the limit (4300 digits) for integer string conversion: value has 5000 digits; use sys.set_int_max_str_digits() to increase the limit");
     utf8_reason := utf8_reason env;
     move_error := fun _ _ => None |}.

(** The same as [env], on a platform where no file can be moved. *)
Definition env_no_move : Env :=
  {| kml2geojson_convert := convert;
     json_dumps := dumps;
     json_loads := loads;
     utf8_reason := utf8_reason env;
     move_error := fun _ _ => Some (OSError "[Errno 13] Permission denied") |}.

Definition world (store : gmap Path bytes) : World :=
  {| files := store; journal := [];
     institutions := []; geofiles := []; imagefiles := [];
     entropy := fun n => N.of_nat n; drawn := 0 |}.

(** ["<kml/>"], ["not kml"], and two uploads. *)
Definition kml_bytes : bytes := [x3c; x6b; x6d; x6c; x2f; x3e].
Definition junk_bytes : bytes := [x6e; x6f; x74; x20; x6b; x6d; x6c].

Definition upload (nm ct : string) (data : bytes) : UploadFile :=
  {| filename := nm; upload_content_type := Some ct; content := data |}.

Definition stored : Path := ["app"; "static"; "geo_jsons"; "campus.geojson"].

(** An institution with a geo file on the store and no image file. *)
Definition campus_row : FileRow :=
  {| id := "7d0c"; name := "campus.geojson";
     content_type := "application/geo+json"; size := 6;
     url := "localhost:8000/api/v1/files/geo/campus.geojson";
     path := "app/static/geo_jsons/campus.geojson";
     institution_id := "abu" |}.

Definition campus : World :=
  {| files := {[ stored := kml_bytes ]}; journal := [];
     institutions := [ {| inst_id := "abu"; inst_name := "Ahmadu Bello University" |} ];
     geofiles := [campus_row]; imagefiles := [];
     entropy := fun n => N.of_nat n; drawn := 0 |}.

(** A renderer in the manner of [JSONResponse.render]. *)
Definition starlette : Routers.Starlette :=
  {| Routers.render := fun v => inr (list_byte_of_string (dumps v)) |}.

(** [campus] once its stored file has been lost. *)
Definition campus_lost : World :=
  {| files := ∅; journal := [];
     institutions := [ {| inst_id := "abu"; inst_name := "Ahmadu Bello University" |} ];
     geofiles := [campus_row]; imagefiles := [];
     entropy := fun n => N.of_nat n; drawn := 0 |}.

(** [campus] with a logo as well. *)
Definition logo : Path := ["app"; "static"; "images"; "logo.png"].

Definition logo_row : FileRow :=
  {| id := "51aa"; name := "logo.png"; content_type := "image/png"; size := 7;
     url := "localhost:8000/api/v1/files/image/logo.png";
     path := "app/static/images/logo.png";
     institution_id := "abu" |}.

Definition campus_complete : World :=
  {| files := {[ stored := kml_bytes; logo := junk_bytes ]}; journal := [];
     institutions := [ {| inst_id := "abu"; inst_name := "Ahmadu Bello University" |} ];
     geofiles := [campus_row]; imagefiles := [logo_row];
     entropy := fun n => N.of_nat n; drawn := 0 |}.

End Sample.

(** The rows of a table that belong to an institution, and the invariant
    of the two file tables. *)
Definition owned (rows : list FileRow) (i : string) : list FileRow :=
  List.filter (fun r => String.eqb (institution_id r) i) rows.

Definition at_most_one (w : World) : Prop :=
  forall i, length (owned (geofiles w) i) <= 1 /\ length (owned (imagefiles w) i) <= 1.

(** The errors of [save_file]. *)
Definition save_failure (e : exn) : Prop :=
  e = HTTPException 400 "File has no extension" \/
  e = HTTPException 400 "Empty file uploaded" \/
  (exists m, e = HTTPException 400 ("Error processing KML file: " +:+ m)) \/
  e = HTTPException 500 "An internal error occurred during file saving.".


(** The two 400 errors of an upload without content or without extension,
    and the 500 error of [save_file]. *)
Definition EmptyUpload : exn := HTTPException 400 "Empty file uploaded".
Definition NoExtension : exn := HTTPException 400 "File has no extension".
Definition InternalError : exn :=
  HTTPException 500 "An internal error occurred during file saving.".

(** The error raised on the attribute of a missing relationship. *)
Definition MissingRelationship : exn :=
  AttributeError "'NoneType' object has no attribute 'path'".

(** The allowed content types and the geo ones, as the specification lists
    them. *)
Definition listed_allowed (s : string) : Prop :=
  s = "image/png" \/ s = "image/jpeg" \/ s = "image/jpg" \/ s = "image/gif" \/
  s = "image/webp" \/ s = "application/geo+json" \/
  s = "application/vnd.google-earth.kml+xml" \/ s = "application/json" \/
  s = "application/octet-stream".

Definition listed_geo (s : string) : Prop :=
  s = "application/geo+json" \/ s = "application/vnd.google-earth.kml+xml" \/
  s = "application/json" \/ s = "application/octet-stream".

Definition listed_image (s : string) : Prop :=
  s = "image/png" \/ s = "image/jpeg" \/ s = "image/jpg" \/ s = "image/gif" \/
  s = "image/webp".

(** The table an upload goes to, and the segment of a URL that names a
    table. *)
Definition kind (f : UploadFile) : CRUDService.model :=
  if mime_in (upload_content_type f) GEO_MIME_TYPES
  then CRUDService.GeoFile else CRUDService.ImageFile.

Definition file_type (m : CRUDService.model) : string :=
  match m with CRUDService.GeoFile => "geo" | CRUDService.ImageFile => "image" end.

(** The labels under which the routes look a file up: one pair when it is
    read or deleted, another when it is updated. *)
Definition lookup_label (m : CRUDService.model) : string :=
  match m with CRUDService.GeoFile => "GeoFile" | CRUDService.ImageFile => "ImageFile" end.

Definition update_label (m : CRUDService.model) : string :=
  match m with CRUDService.GeoFile => "Geo File" | CRUDService.ImageFile => "Image File" end.

(** The errors of the look-up of a file by its name. *)
Definition missing_on_disk (label : string) : exn :=
  HTTPException 404 (label +:+ " found in DB but missing in filesystem").

Definition not_in_db (label : string) : exn :=
  HTTPException 404 (label +:+ " not found").

(** The errors of the institution routes. *)
Definition AlreadyExists : exn := HTTPException 400 "Institution already exists".
Definition InstitutionNotFound : exn := HTTPException 404 "Institution not found".

(** No two institutions bear the same name; no two rows of a file table do. *)
Definition unique_names (w : World) : Prop := NoDup (map inst_name (institutions w)).

Definition unique_file_names (m : CRUDService.model) (w : World) : Prop :=
  NoDup (map name (CRUDService.table m w)).

(** The number of chunks of [n] bytes in [len] bytes. *)
Definition chunks (len n : nat) : nat := (len + n - 1) / n.

(* ===================================================================== *)
(** * Properties *)
(* ===================================================================== *)

(** ** Strings and paths *)

Lemma mem_app c a b : Str.mem c (a +:+ b) = Str.mem c a || Str.mem c b.
Proof. induction a as [|x a IH]; simpl; [done|]. by rewrite IH, orb_assoc. Qed.

Lemma all_app p a b : Str.all p (a +:+ b) = Str.all p a && Str.all p b.
Proof. induction a as [|x a IH]; simpl; [done|]. by rewrite IH, andb_assoc. Qed.

Lemma all_not_mem p c s : Str.all p s = true → p c = false → Str.mem c s = false.
Proof.
  intros Hall Hc. induction s as [|x s IH]; simpl in *; [reflexivity|].
  apply andb_true_iff in Hall as [Hx Hs]. rewrite (IH Hs).
  destruct (Ascii.eqb_spec x c) as [->|]; [|reflexivity]. rewrite Hc in Hx. discriminate.
Qed.

Lemma string_length_app a b : String.length (a +:+ b) = String.length a + String.length b.
Proof. induction a as [|x a IH]; simpl; [done|]. by rewrite IH. Qed.

Lemma split_single c s : Str.mem c s = false → Str.split c s = [s].
Proof.
  induction s as [|x s IH]; simpl; [done|]. intros H.
  apply orb_false_iff in H as [Hx Hs]. rewrite Hx, IH by done. done.
Qed.

Lemma split_no_sep c s x : x ∈ Str.split c s → Str.mem c x = false.
Proof.
  revert x. induction s as [|a s IH]; simpl; intros x Hx.
  - apply list_elem_of_singleton in Hx as ->. done.
  - destruct (Ascii.eqb a c) eqn:Hac.
    + apply elem_of_cons in Hx as [->|Hx]; [done|by apply IH].
    + destruct (Str.split c s) as [|y ys]; simpl in *.
      * apply list_elem_of_singleton in Hx as ->. simpl. by rewrite Hac.
      * apply elem_of_cons in Hx as [->|Hx].
        -- simpl. rewrite Hac. apply IH. left.
        -- apply IH. by right.
Qed.

Lemma from_last_dot_None s : Str.from_last_dot s = None ↔ Str.mem "." s = false.
Proof.
  induction s as [|a s IH]; simpl; [done|].
  destruct (Str.from_last_dot s) as [t|].
  - split; [done|]. intros H. apply orb_false_iff in H as [_ H]. by apply IH in H.
  - destruct IH as [IH _]. rewrite IH by done. rewrite orb_false_r.
    destruct (Ascii.eqb a "."); done.
Qed.

Lemma from_last_dot_Some s t :
  Str.from_last_dot s = Some t →
  ∃ pre e, s = pre +:+ t ∧ t = String "." e ∧ Str.mem "." e = false.
Proof.
  revert t. induction s as [|a s IH]; simpl; intros t; [done|].
  destruct (Str.from_last_dot s) as [t'|] eqn:Hs.
  - intros [= <-]. destruct (IH _ eq_refl) as (pre & e & -> & -> & He).
    exists (String a pre), e. done.
  - destruct (Ascii.eqb_spec a ".") as [->|]; [|done]. intros [= <-].
    exists "", s. split; [done|]. split; [done|]. by apply from_last_dot_None.
Qed.

Lemma from_last_dot_app pre e :
  Str.mem "." e = false → Str.from_last_dot (pre +:+ String "." e) = Some (String "." e).
Proof.
  intros He. induction pre as [|a pre IH]; simpl.
  - apply from_last_dot_None in He. by rewrite He.
  - by rewrite IH.
Qed.

Lemma anchor_of_plain s : plain_name s → Pathlib.anchor_of s = [].
Proof.
  intros (Hs & Hne & _). destruct s as [|a s]; [done|]. simpl in Hs.
  apply orb_false_iff in Hs as [Ha _].
  rewrite Ascii.eqb_sym in Ha.
  unfold Pathlib.anchor_of. cbn [Str.startswith]. by rewrite Ha.
Qed.

Lemma of_string_plain s : plain_name s → Pathlib.of_string s = [s].
Proof.
  intros H. unfold Pathlib.of_string. rewrite anchor_of_plain by done.
  destruct H as (Hs & Hne & Hdot). rewrite split_single by done. simpl.
  unfold filter; simpl.
  assert (Pathlib.keep_part s = true) as Hk.
  { unfold Pathlib.keep_part. apply String.eqb_neq in Hne, Hdot. by rewrite Hne, Hdot. }
  rewrite decide_True by (by rewrite Hk). done.
Qed.

Lemma joinpath_plain dir s : plain_name s → Pathlib.joinpath dir s = dir ++ [s].
Proof.
  intros H. unfold Pathlib.joinpath. rewrite anchor_of_plain by done.
  by rewrite of_string_plain.
Qed.

Lemma name_snoc dir nm : Pathlib.is_anchor nm = false → Pathlib.name (dir ++ [nm]) = nm.
Proof. intros H. unfold Pathlib.name. by rewrite last_snoc, H. Qed.

Lemma parent_snoc dir nm : Pathlib.is_anchor nm = false → Pathlib.parent (dir ++ [nm]) = dir.
Proof.
  intros H. unfold Pathlib.parent.
  destruct dir as [|d dir]; simpl; [by rewrite H|].
  destruct (dir ++ [nm]) as [|x l] eqn:Heq; [by destruct dir|].
  rewrite <- Heq. f_equal. apply removelast_last.
Qed.

Lemma take_app u t : Str.take (String.length (u +:+ t) - String.length t) (u +:+ t) = u.
Proof.
  rewrite string_length_app. replace (_ + _ - _) with (String.length u) by lia.
  unfold Str.take. induction u as [|a u IH]; simpl.
  - by destruct t.
  - by rewrite IH.
Qed.

Lemma suffix_of_name_app u e :
  u ≠ "" → e ≠ "" → Str.mem "." e = false →
  Pathlib.suffix_of_name (u +:+ String "." e) = String "." e.
Proof.
  intros Hu He Hdot. destruct u as [|a u]; [done|]. simpl.
  rewrite from_last_dot_app by done. simpl. by destruct e.
Qed.

Lemma name_no_slash s : Str.mem "/" (Pathlib.name (Pathlib.of_string s)) = false.
Proof.
  unfold Pathlib.name. destruct (last _) as [part|] eqn:Hlast; [|done].
  destruct (Pathlib.is_anchor part) eqn:Hanc; [done|].
  apply last_Some_elem_of in Hlast. unfold Pathlib.of_string in Hlast.
  apply elem_of_app in Hlast as [Hin|Hin].
  - unfold Pathlib.anchor_of in Hin. unfold Pathlib.is_anchor in Hanc.
    repeat case_match; set_unfold; destruct_or?; subst; simpl in *; done.
  - apply list_elem_of_filter in Hin as [_ Hin]. by eapply split_no_sep.
Qed.

Lemma suffix_of_name_shape nm :
  Str.mem "/" nm = false → Pathlib.suffix_of_name nm ≠ "" →
  ext_shape (Pathlib.suffix_of_name nm) ∧
  ∃ stem, stem ≠ "" ∧ nm = stem +:+ Pathlib.suffix_of_name nm.
Proof.
  intros Hsl. unfold Pathlib.suffix_of_name. destruct nm as [|a rest]; [done|].
  destruct (Str.from_last_dot rest) as [t|] eqn:Ht; [|done].
  destruct (String.length t =? 1) eqn:Hlen; [done|]. intros _.
  apply from_last_dot_Some in Ht as (pre & e & -> & -> & He).
  simpl in Hsl. apply orb_false_iff in Hsl as [_ Hsl].
  rewrite mem_app in Hsl. apply orb_false_iff in Hsl as [_ Hsl]. simpl in Hsl.
  split.
  - exists e. repeat split; try done. by intros ->.
  - by exists (String a pre).
Qed.

Lemma suffix_shape fname :
  Pathlib.suffix (Pathlib.of_string fname) ≠ "" →
  ext_shape (Pathlib.suffix (Pathlib.of_string fname)).
Proof. intros H. by apply suffix_of_name_shape; [apply name_no_slash|]. Qed.

(** ** Identifiers and stored names *)

Lemma hex_digit_ok n : Uuid.is_hex_or_dash (Uuid.hex_digit n) = true.
Proof.
  destruct n as [|p]; [done|].
  do 4 (destruct p as [p|p|]; try reflexivity).
Qed.

Lemma hex_length d n : String.length (Uuid.hex d n) = d.
Proof. induction d as [|d IH]; simpl; [done|]. by rewrite IH. Qed.

Lemma hex_all d n : Str.all Uuid.is_hex_or_dash (Uuid.hex d n) = true.
Proof.
  induction d as [|d IH]; [done|].
  cbn [Uuid.hex Str.all]. by rewrite hex_digit_ok, IH.
Qed.

Lemma hyphenate_all (P : ascii → bool) h :
  String.length h = 32 → Str.all P h = true → P "-"%char = true →
  String.length (Uuid.hyphenate h) = 36 ∧ Str.all P (Uuid.hyphenate h) = true.
Proof.
  intros Hlen Hall Hdash.
  do 32 (destruct h as [|? h]; simpl in Hlen; [lia|]; apply Nat.succ_inj in Hlen).
  destruct h; [|simpl in Hlen; lia].
  simpl in Hall.
  repeat (apply andb_true_iff in Hall as [? Hall]).
  split; [reflexivity|].
  unfold Uuid.hyphenate. simpl.
  repeat match goal with H : P _ = true |- _ => rewrite H; clear H end.
  reflexivity.
Qed.

Lemma hyphenate_shape h :
  String.length h = 32 → Str.all Uuid.is_hex_or_dash h = true →
  uuid_shape (Uuid.hyphenate h).
Proof. intros Hlen Hall. by apply hyphenate_all. Qed.

Lemma uuid4_shape i : uuid_shape (Uuid.to_string i).
Proof. apply hyphenate_shape; [apply hex_length|apply hex_all]. Qed.

Lemma uuid_shape_nonempty u : uuid_shape u → u ≠ "".
Proof. intros [Hlen _] ->. simpl in Hlen. lia. Qed.

Lemma uuid_shape_no_dot u : uuid_shape u → Str.mem "." u = false.
Proof. intros [_ H]. by eapply all_not_mem. Qed.

Lemma uuid_shape_no_slash u : uuid_shape u → Str.mem "/" u = false.
Proof. intros [_ H]. by eapply all_not_mem. Qed.

Lemma long_not_anchor s : 2 < String.length s → Pathlib.is_anchor s = false.
Proof.
  intros H. unfold Pathlib.is_anchor.
  destruct (String.eqb_spec s "/") as [->|]; [simpl in H; lia|].
  destruct (String.eqb_spec s "//") as [->|]; [simpl in H; lia|]. done.
Qed.

(** The file name [u ++ ext] an upload is stored under. *)
Lemma stored_name_plain u ext :
  uuid_shape u → ext_shape ext → plain_name (u +:+ ext).
Proof.
  intros Hu (e & -> & He & Hdot & Hsl). repeat split.
  - rewrite mem_app, (uuid_shape_no_slash u) by done. simpl. by rewrite Hsl.
  - intros H. apply (f_equal String.length) in H. rewrite string_length_app in H.
    destruct Hu as [Hu _]. simpl in H. lia.
  - intros H. apply (f_equal String.length) in H. rewrite string_length_app in H.
    destruct Hu as [Hu _]. simpl in H. lia.
Qed.

Lemma stored_name_not_anchor u ext : uuid_shape u → Pathlib.is_anchor (u +:+ ext) = false.
Proof. intros [Hu _]. apply long_not_anchor. rewrite string_length_app. lia. Qed.

Lemma stored_with_suffix dir u ext :
  uuid_shape u → ext_shape ext →
  Pathlib.with_suffix (dir ++ [u +:+ ext]) ".geojson" = Some (dir ++ [u +:+ ".geojson"]).
Proof.
  intros Hu Hext. unfold Pathlib.with_suffix.
  rewrite name_snoc by by apply stored_name_not_anchor.
  destruct (String.eqb_spec (u +:+ ext) "") as [Heq|_].
  { apply (stored_name_plain u ext) in Hu as (_ & Hne & _); done. }
  destruct Hext as (e & -> & He & Hdot & Hsl).
  rewrite suffix_of_name_app by (try done; by apply uuid_shape_nonempty).
  by rewrite take_app, removelast_last.
Qed.


Lemma append_inj_l u a b : u +:+ a = u +:+ b → a = b.
Proof. induction u as [|c u IH]; simpl; [done|]. intros [= H]. by apply IH. Qed.

(** The temporary name [.u.tmp] of an overwrite. *)
Lemma temp_name_plain u : uuid_shape u → plain_name ("." +:+ u +:+ ".tmp").
Proof.
  intros Hu. repeat split.
  - rewrite !mem_app, (uuid_shape_no_slash u) by done. done.
  - simpl. intros H. discriminate H.
  - simpl. intros [= H]. destruct u; simpl in H; discriminate H.
Qed.

Lemma temp_name_split u : "." +:+ u +:+ ".tmp" = ("." +:+ u) +:+ String "." "tmp".
Proof. reflexivity. Qed.

Lemma temp_with_suffix dir u :
  uuid_shape u →
  Pathlib.with_suffix (dir ++ ["." +:+ u +:+ ".tmp"]) ".geojson"
  = Some (dir ++ ["." +:+ u +:+ ".geojson"]).
Proof.
  intros Hu. rewrite temp_name_split. unfold Pathlib.with_suffix.
  rewrite name_snoc by (apply long_not_anchor; rewrite !string_length_app; simpl; lia).
  destruct (String.eqb_spec (("." +:+ u) +:+ String "." "tmp") "") as [Heq|_].
  { discriminate Heq. }
  rewrite suffix_of_name_app by done.
  by rewrite take_app, removelast_last.
Qed.

(** *** The version of an identifier *)





(** ** The store: conversion and save *)

Lemma World_eq (w1 w2 : World) :
  files w1 = files w2 → journal w1 = journal w2 →
  institutions w1 = institutions w2 → geofiles w1 = geofiles w2 →
  imagefiles w1 = imagefiles w2 → entropy w1 = entropy w2 → drawn w1 = drawn w2 →
  w1 = w2.
Proof. destruct w1, w2; simpl; intros; by subst. Qed.

(** Unfolds the combinators and the primitives, then computes. *)
Ltac run :=
  unfold FileHandler.convert_and_save_kml_to_geojson, FileHandler.convert_call,
    FileHandler.remove_if_exists, FileHandler.with_suffix, FileHandler.close,
    FileHandler.delete_file, FileHandler.file_exists,
    Os.makedirs, Os.path_exists, Os.open_w, Os.write, Os.read_bytes, Os.remove,
    Os.getsize, Os.uuid4, try_finally, try_except, bind, ret, raise, lift_sum;
  simpl.

Lemma convert_spec E input output data w :
  files w !! input = Some data → input ≠ output →
  FileHandler.convert_and_save_kml_to_geojson E input output w =
  match conversion E data with
  | inr d =>
      (Ok tt, set_store (delete input (<[output := geojson_bytes E d]> (files w)))
                [OpWrite output; OpWrite output; OpRemove input] w)
  | inl e => (Raise e, set_store (delete input (files w)) [OpRemove input] w)
  end.
Proof.
  intros Hin Hne. unfold conversion. run. rewrite Hin.
  destruct (kml2geojson_convert E data) as [e|result]; run.
  - destruct (Py.is_ExpatError e); run; rewrite Hin; run; by rewrite Hin.
  - destruct (if Py.is_list result then _ else _) as [e|d]; run.
    + rewrite Hin; run. by rewrite Hin.
    + destruct (Py.truthy d); run.
      * rewrite !lookup_insert_eq. run. rewrite !lookup_insert_ne, Hin by done. run.
        rewrite !lookup_insert_ne, Hin by done.
        f_equal. apply World_eq; simpl; try done.
        -- by rewrite insert_insert_eq.
        -- by rewrite <- !app_assoc.
      * rewrite Hin; run. by rewrite Hin.
Qed.

Lemma get_upload_path_ok f w :
  extension f ≠ "" → FileHandler._get_upload_path f w = (Ok (allocated f w), tick w).
Proof.
  intros Hext. unfold FileHandler._get_upload_path. fold (extension f).
  destruct (String.eqb_spec (extension f) "") as [|_]; [done|]. run.
  fold (next_uuid w). fold (upload_dir f). unfold allocated.
  rewrite joinpath_plain; [done|].
  apply stored_name_plain; [apply uuid4_shape|by apply suffix_shape].
Qed.

Lemma get_upload_path_no_ext f w :
  extension f = "" →
  FileHandler._get_upload_path f w = (Raise (HTTPException 400 "File has no extension"), w).
Proof.
  intros Hext. unfold FileHandler._get_upload_path. fold (extension f).
  by rewrite Hext.
Qed.

Lemma snoc_inj {A} (l : list A) a b : l ++ [a] = l ++ [b] → a = b.
Proof. intros H. apply app_inv_head in H. by injection H. Qed.

Lemma allocated_ne_converted f w :
  FileHandler.is_kml f = true → allocated f w ≠ converted f w.
Proof.
  unfold FileHandler.is_kml, allocated, converted. fold (extension f).
  intros Hk Heq. apply snoc_inj, append_inj_l in Heq. rewrite Heq in Hk.
  discriminate Hk.
Qed.

Lemma is_kml_extension f : FileHandler.is_kml f = true → extension f ≠ "".
Proof.
  unfold FileHandler.is_kml. fold (extension f). intros H Heq. rewrite Heq in H.
  discriminate H.
Qed.

Lemma allocated_with_suffix f w :
  extension f ≠ "" →
  Pathlib.with_suffix (allocated f w) ".geojson" = Some (converted f w).
Proof.
  intros H. apply stored_with_suffix; [apply uuid4_shape|by apply suffix_shape].
Qed.

Lemma save_file_no_extension E f w :
  extension f = "" →
  FileHandler.save_file E f w = (Raise (HTTPException 400 "File has no extension"), w).
Proof.
  intros H. unfold FileHandler.save_file. run.
  by rewrite get_upload_path_no_ext.
Qed.

Lemma save_file_empty E f w :
  extension f ≠ "" → content f = [] →
  FileHandler.save_file E f w = (Raise (HTTPException 400 "Empty file uploaded"), tick w).
Proof.
  intros H Hc. unfold FileHandler.save_file. run.
  rewrite get_upload_path_ok by done. by rewrite Hc.
Qed.

Lemma save_file_plain E f w :
  extension f ≠ "" → content f ≠ [] → FileHandler.is_kml f = false →
  FileHandler.save_file E f w =
  (Ok (allocated f w),
   set_store (<[allocated f w := content f]> (files w))
     [OpWrite (allocated f w); OpWrite (allocated f w)] (tick w)).
Proof.
  intros H Hc Hk. unfold FileHandler.save_file. run.
  rewrite get_upload_path_ok by done. destruct (content f) as [|b data] eqn:Hd; [done|].
  run. rewrite Hk. f_equal. apply World_eq; simpl; try done.
  - by rewrite lookup_insert_eq, insert_insert_eq.
  - by rewrite <- app_assoc.
Qed.

Lemma save_file_kml E f w :
  content f ≠ [] → FileHandler.is_kml f = true →
  FileHandler.save_file E f w =
  match conversion E (content f) with
  | inr d =>
      (Ok (converted f w),
       set_store (<[converted f w := geojson_bytes E d]> (delete (allocated f w) (files w)))
         [OpWrite (allocated f w); OpWrite (allocated f w);
          OpWrite (converted f w); OpWrite (converted f w);
          OpRemove (allocated f w)] (tick w))
  | inl e =>
      (Raise (save_error e),
       set_store (delete (allocated f w) (files w))
         [OpWrite (allocated f w); OpWrite (allocated f w);
          OpRemove (allocated f w)] (tick w))
  end.
Proof.
  intros Hc Hk. pose proof (is_kml_extension _ Hk) as Hext.
  pose proof (allocated_ne_converted f w Hk) as Hne.
  unfold FileHandler.save_file.
  unfold try_finally, try_except, bind at 1.
  rewrite get_upload_path_ok by done.
  destruct (content f) as [|b data] eqn:Hd; [done|]. rewrite Hk.
  unfold bind at 1. unfold Os.open_w at 1. unfold bind at 1. unfold Os.write at 1.
  cbn [files with_files].
  unfold bind at 1. unfold FileHandler.with_suffix. rewrite allocated_with_suffix by done.
  unfold ret at 1. unfold bind at 1.
  erewrite convert_spec; [|simpl; by rewrite lookup_insert_eq|done].
  rewrite lookup_insert_eq. simpl.
  destruct (conversion E (b :: data)) as [e|d]; simpl.
  - unfold save_error.
    assert (∀ e', (if Py.is_HTTPException e then raise e
                   else if Py.is_ValueError e then raise (HTTPException 400 ("Error processing KML file: " +:+ Py.exn_str e))
                   else if Py.is_OSError e then raise (HTTPException 500 ("Could not save file on server: " +:+ Py.exn_str e))
                   else @raise Path (HTTPException 500 "An internal error occurred during file saving.")) e'
               = (Raise (if Py.is_HTTPException e then e
                   else if Py.is_ValueError e then (HTTPException 400 ("Error processing KML file: " +:+ Py.exn_str e))
                   else if Py.is_OSError e then (HTTPException 500 ("Could not save file on server: " +:+ Py.exn_str e))
                   else (HTTPException 500 "An internal error occurred during file saving.")), e')) as Hh.
    { intros e'. by repeat case_match. }
    rewrite Hh. unfold FileHandler.close, ret. f_equal.
    apply World_eq; simpl; try done.
    + by rewrite insert_insert_eq, delete_insert_eq.
    + by rewrite <- !app_assoc.
  - unfold FileHandler.close, ret. f_equal. apply World_eq; simpl; try done.
    + rewrite insert_insert_eq. rewrite delete_insert_ne by done.
      by rewrite delete_insert_eq.
    + by rewrite <- !app_assoc.
Qed.

(** ** Reading GeoJSON back *)

Lemma load_geojson_content_spec E p w :
  FileHandler.load_geojson_content E p w =
  (match files w !! p with
   | None => Raise NotFound
   | Some data =>
       match text_of data with
       | None => Raise (DecodeError E data)
       | Some s =>
           match json_loads E s with
           | inl e => Raise (load_error e)
           | inr v => if geojson_shaped v then Ok v else Raise InvalidStructure
           end
       end
   end, w).
Proof.
  unfold FileHandler.load_geojson_content, FileHandler.read_text, FileHandler.loads,
    text_of, geojson_shaped, load_error.
  run. destruct (files w !! p) as [data|] eqn:Hp; simpl; [|reflexivity].
  rewrite Hp; simpl.
  destruct (Py.utf8_valid data); simpl; [|reflexivity].
  destruct (json_loads E _) as [e|v]; simpl.
  - unfold raise. by destruct e.
  - rewrite <- negb_andb. destruct (Py.is_dict v && Py.has_key "type" v); reflexivity.
Qed.






(** ** Overwriting a stored file *)

Lemma CHUNK_SIZE_pos : 0 < FileHandler.CHUNK_SIZE.
Proof. unfold FileHandler.CHUNK_SIZE. apply Nat.mul_pos_pos; lia. Qed.

Lemma take_nil_inv {A} n (l : list A) : 0 < n → take n l = [] → l = [].
Proof. destruct n; [lia|]. by destruct l. Qed.

(** The read loop terminates within its fuel and copies every byte. *)
Lemma copy_chunks_spec fuel n rest tmp base w :
  0 < n → length rest < fuel → files w !! tmp = Some base →
  ∃ k, FileHandler.copy_chunks fuel n rest tmp w =
       (Ok tt, set_store (<[tmp := base ++ rest]> (files w))
                 (replicate k (OpWrite tmp)) w).
Proof.
  intros Hn. revert rest base w.
  induction fuel as [|fuel IH]; intros rest base w Hfuel Hbase; [lia|].
  cbn [FileHandler.copy_chunks].
  destruct (take n rest) as [|b chunk] eqn:Htake.
  - apply take_nil_inv in Htake as ->; [|done]. exists 0. unfold ret. f_equal.
    apply World_eq; simpl; try done.
    + by rewrite app_nil_r, insert_id.
    + by rewrite app_nil_r.
  - assert (rest ≠ []) as Hne by (intros ->; by destruct n).
    unfold bind, Os.write. rewrite Hbase. simpl.
    destruct (IH (drop n rest) (base ++ b :: chunk)
                (with_files (<[tmp:=base ++ b :: chunk]> (files w)) (OpWrite tmp) w))
      as [k Hk].
    + rewrite length_drop. destruct rest; [done|]. simpl in *. lia.
    + simpl. by rewrite lookup_insert_eq.
    + exists (S k). rewrite Hk. f_equal. apply World_eq; simpl; try done.
      * rewrite insert_insert_eq. rewrite <- Htake, <- app_assoc. by rewrite take_drop.
      * by rewrite <- app_assoc.
Qed.

Lemma temp_ne_geojson target w : temp_path target w ≠ temp_geojson target w.
Proof.
  unfold temp_path, temp_geojson. intros H.
  apply snoc_inj in H. apply (append_inj_l ".") in H. apply append_inj_l in H.
  discriminate H.
Qed.

Lemma temp_path_joinpath target w :
  Pathlib.joinpath (Pathlib.parent target) ("." +:+ next_uuid w +:+ ".tmp")
  = temp_path target w.
Proof. apply joinpath_plain, temp_name_plain, uuid4_shape. Qed.

(** The temporary file lies in the directory of the target. *)
Lemma temp_path_parent target w :
  Pathlib.parent (temp_path target w) = Pathlib.parent target.
Proof.
  apply parent_snoc, long_not_anchor. rewrite !string_length_app. simpl. lia.
Qed.

Lemma temp_path_with_suffix target w :
  Pathlib.with_suffix (temp_path target w) ".geojson" = Some (temp_geojson target w).
Proof. apply temp_with_suffix, uuid4_shape. Qed.

Lemma remove_if_exists_present p data w :
  files w !! p = Some data →
  FileHandler.remove_if_exists p w = (Ok tt, set_store (delete p (files w)) [OpRemove p] w).
Proof. intros H. unfold FileHandler.remove_if_exists. run. rewrite H. simpl. by rewrite H. Qed.

Lemma remove_if_exists_absent p w :
  files w !! p = None → FileHandler.remove_if_exists p w = (Ok tt, w).
Proof. intros H. unfold FileHandler.remove_if_exists. run. by rewrite H. Qed.

Lemma move_ok E src dst data w :
  move_error E src dst = None → files w !! src = Some data →
  Os.move E src dst w =
  (Ok tt, set_store (<[dst := data]> (delete src (files w))) [OpMove src dst] w).
Proof. intros He Hs. unfold Os.move. by rewrite He, Hs. Qed.

Lemma move_fails E src dst e w :
  move_error E src dst = Some e → Os.move E src dst w = (Raise e, w).
Proof. intros He. unfold Os.move. by rewrite He. Qed.

Lemma overwrite_stream f tmp w :
  ∃ k, (exec Os.open_w tmp;
        FileHandler.copy_chunks (S (length (content f))) FileHandler.CHUNK_SIZE
          (content f) tmp) w
       = (Ok tt, set_store (<[tmp := content f]> (files w)) (streamed tmp k) w).
Proof.
  unfold bind, Os.open_w.
  destruct (copy_chunks_spec (S (length (content f))) FileHandler.CHUNK_SIZE (content f)
              tmp [] (with_files (<[tmp:=[]]> (files w)) (OpWrite tmp) w))
    as [k Hk]; [apply CHUNK_SIZE_pos|lia|by simpl; rewrite lookup_insert_eq|].
  exists k. rewrite Hk. f_equal. apply World_eq; simpl; try done.
  - by rewrite insert_insert_eq.
  - by rewrite <- app_assoc.
Qed.

Lemma overwrite_file_outcome E f target w :
  ∃ k, FileHandler.overwrite_file E f target w = overwrite_outcome E f target w k.
Proof.
  destruct (overwrite_stream f (temp_path target w) (tick w)) as [k Hk].
  exists k. unfold FileHandler.overwrite_file, overwrite_outcome.
  pose proof (temp_ne_geojson target w) as Hne.
  unfold try_finally, FileHandler.close. unfold bind at 1. unfold Os.uuid4.
  fold (next_uuid w). fold (tick w). rewrite temp_path_joinpath.
  unfold bind at 1. unfold try_except at 1.
  unfold bind at 1 in Hk. unfold bind at 1.
  destruct (Os.open_w (temp_path target w) (tick w)) as [[[]|e0] w1] eqn:Hopen;
    [|discriminate Hk].
  unfold bind at 1.
  destruct (FileHandler.copy_chunks _ _ _ _ w1) as [[[]|e0] w2] eqn:Hcopy;
    [|discriminate Hk].
  injection Hk as ->.
  pose proof (temp_path_with_suffix target w) as Hws.
  set (tmp := temp_path target w) in *. set (out := temp_geojson target w) in *.
  destruct (FileHandler.is_kml f).
  - unfold bind at 1. unfold FileHandler.with_suffix.
    rewrite Hws. unfold ret at 1. unfold bind at 1.
    erewrite convert_spec; [|simpl; by rewrite lookup_insert_eq|done].
    destruct (conversion E (content f)) as [e|d].
    + unfold FileHandler.overwrite_failed, bind.
      rewrite remove_if_exists_absent by (simpl; by rewrite lookup_delete_eq).
      unfold raise, ret. f_equal. apply World_eq; simpl; try done.
      * by rewrite delete_insert_eq.
      * by rewrite <- !app_assoc.
    + unfold ret at 1. unfold try_except.
      destruct (move_error E out target) as [e|] eqn:Hmove.
      * rewrite (move_fails _ _ _ e) by done.
        unfold FileHandler.overwrite_failed, bind.
        erewrite remove_if_exists_present
          by (simpl; rewrite lookup_delete_ne, lookup_insert_eq by done; done).
        unfold raise, ret. f_equal. apply World_eq; simpl; try done.
        -- rewrite (delete_insert_ne _ tmp out) by done.
           by rewrite !delete_insert_eq.
        -- by rewrite <- !app_assoc.
      * erewrite move_ok;
          [|done|simpl; rewrite lookup_delete_ne, lookup_insert_eq by done; done].
        unfold ret. f_equal. apply World_eq; simpl; try done.
        -- rewrite (delete_insert_ne _ tmp out) by done.
           by rewrite !delete_insert_eq.
        -- by rewrite <- !app_assoc.
  - unfold ret at 1. unfold try_except.
    destruct (move_error E tmp target) as [e|] eqn:Hmove.
    + rewrite (move_fails _ _ _ e) by done.
      unfold FileHandler.overwrite_failed, bind.
      erewrite remove_if_exists_present by (simpl; by rewrite lookup_insert_eq).
      unfold raise, ret. f_equal. apply World_eq; simpl; try done.
      * by rewrite delete_insert_eq.
      * by rewrite <- !app_assoc.
    + erewrite move_ok; [|done|simpl; by rewrite lookup_insert_eq].
      unfold ret. f_equal. apply World_eq; simpl; try done.
      * by rewrite delete_insert_eq.
      * by rewrite <- !app_assoc.
Qed.




(** ** What the file services leave alone *)

Lemma same_db_refl w : same_db w w.
Proof. by repeat split. Qed.

Lemma same_db_trans w1 w2 w3 : same_db w1 w2 → same_db w2 w3 → same_db w1 w3.
Proof. unfold same_db. intros (?&?&?&?) (?&?&?&?). repeat split; congruence. Qed.

Lemma same_db_set_store f ops w : same_db w (set_store f ops w).
Proof. by repeat split. Qed.

Lemma same_db_tick w : same_db w (tick w).
Proof. by repeat split. Qed.

Lemma save_file_keeps_db E f : keeps_db (FileHandler.save_file E f).
Proof.
  intros w.
  destruct (String.eqb_spec (extension f) "") as [Hext|Hext].
  { rewrite save_file_no_extension by done. apply same_db_refl. }
  destruct (content f) as [|b data] eqn:Hc.
  { rewrite save_file_empty by done. apply same_db_tick. }
  destruct (FileHandler.is_kml f) eqn:Hk.
  - rewrite save_file_kml by (done || by rewrite Hc). rewrite Hc.
    destruct (conversion E (b :: data)); simpl; apply (same_db_trans _ (tick w));
      auto using same_db_tick, same_db_set_store.
  - rewrite save_file_plain by (done || by rewrite Hc). simpl.
    apply (same_db_trans _ (tick w)); auto using same_db_tick, same_db_set_store.
Qed.

Lemma overwrite_file_keeps_db E f target : keeps_db (FileHandler.overwrite_file E f target).
Proof.
  intros w. destruct (overwrite_file_outcome E f target w) as [k ->].
  unfold overwrite_outcome.
  repeat case_match; simpl; apply (same_db_trans _ (tick w));
    auto using same_db_tick, same_db_set_store.
Qed.

Lemma delete_file_spec p w :
  FileHandler.delete_file p w =
  (Ok tt, match files w !! p with
          | Some _ => set_store (delete p (files w)) [OpRemove p] w
          | None => w
          end).
Proof.
  unfold FileHandler.delete_file. run.
  destruct (files w !! p) eqn:Hp; simpl; [|done]. by rewrite Hp.
Qed.

Lemma delete_file_keeps_db p : keeps_db (FileHandler.delete_file p).
Proof.
  intros w. rewrite delete_file_spec. simpl.
  destruct (files w !! p); auto using same_db_refl, same_db_set_store.
Qed.

(** ** The errors of [save_file] *)

Lemma conversion_error E data e :
  conversion E data = inl e →
  (∃ m, e = ValueError m) ∨ (∃ m, e = IndexError m) ∨ (∃ m, e = KeyError m) ∨
  (∃ m, e = TypeError m).
Proof.
  unfold conversion. destruct (kml2geojson_convert E data) as [e0|result].
  { intros [= <-]. left. by eexists. }
  destruct result as [|b|z|x|s|items|items|entries]; simpl;
    repeat match goal with
    | |- context [match ?l !! ?i with _ => _ end] => destruct (l !! i); simpl
    | |- context [match String.get ?i ?s with _ => _ end] => destruct (String.get i s); simpl
    | |- context [if Py.truthy ?d then _ else _] => destruct (Py.truthy d)
    end;
    intros [= <-]; eauto 6.
Qed.

Lemma save_error_conversion E data e :
  conversion E data = inl e → save_failure (save_error e).
Proof.
  intros H. apply conversion_error in H as [[m ->]|[[m ->]|[[m ->]|[m ->]]]];
    unfold save_failure; simpl; eauto 6.
Qed.

Lemma save_file_raises E f w e :
  fst (FileHandler.save_file E f w) = Raise e → save_failure e.
Proof.
  destruct (String.eqb_spec (extension f) "") as [Hext|Hext].
  { rewrite save_file_no_extension by done. intros [= <-]. by left. }
  destruct (content f) as [|b data] eqn:Hc.
  { rewrite save_file_empty by done. intros [= <-]. right; by left. }
  destruct (FileHandler.is_kml f) eqn:Hk.
  - rewrite save_file_kml by (done || by rewrite Hc). rewrite Hc.
    destruct (conversion E (b :: data)) eqn:Hconv; simpl; [|done].
    intros [= <-]. by eapply save_error_conversion.
  - rewrite save_file_plain by (done || by rewrite Hc). done.
Qed.

(** ** Saving an upload *)

(** C4 (amended).  Every upload without content makes [save_file] fail with
    a 400 error before anything is written to the store: the store and
    its journal are what they were.  The error is "Empty file uploaded"
    when the file name has an extension, and "File has no extension" when
    it has none, the extension being looked at first. *)
Theorem save_file_empty_upload E f w :
  content f = [] →
  ∃ w', FileHandler.save_file E f w =
          (Raise (if String.eqb (extension f) "" then NoExtension else EmptyUpload), w')
        ∧ files w' = files w ∧ journal w' = journal w.
Proof.
  intros Hc. destruct (String.eqb_spec (extension f) "") as [Hext|Hext].
  - rewrite save_file_no_extension by done. by exists w.
  - rewrite save_file_empty by done. by exists (tick w).
Qed.

Lemma save_file_empty_upload_witness :
  content (Sample.upload "empty.kml" "application/vnd.google-earth.kml+xml" []) = [] ∧
  ∃ w', FileHandler.save_file Sample.env
          (Sample.upload "empty.kml" "application/vnd.google-earth.kml+xml" [])
          (Sample.world ∅) = (Raise EmptyUpload, w')
        ∧ files w' = ∅ ∧ journal w' = [].
Proof.
  split; [reflexivity|].
  destruct (save_file_empty_upload Sample.env
              (Sample.upload "empty.kml" "application/vnd.google-earth.kml+xml" [])
              (Sample.world ∅) eq_refl) as (w' & Hrun & Hf & Hj).
  exists w'. split; [exact Hrun|]. split; [exact Hf|exact Hj].
Defined.

(** C4 as stated fails: an empty upload named [myfile] is refused for its
    name, with "File has no extension", not with "Empty file uploaded". *)
Lemma save_file_empty_without_extension :
  content (Sample.upload "myfile" "application/octet-stream" []) = [] ∧
  fst (FileHandler.save_file Sample.env
         (Sample.upload "myfile" "application/octet-stream" []) (Sample.world ∅))
  = Raise NoExtension ∧
  NoExtension ≠ EmptyUpload.
Proof. split; [reflexivity|]. split; [reflexivity|]. intros H. discriminate H. Qed.




(** C3 (the code departs from the claim).  When [kml2geojson] returns a
    falsy result (the empty list, the empty tuple, [None], ...) for a
    [.kml] upload, [save_file] does not report the 400 of a conversion
    error: the result is subscripted before it is tested, the subscript
    raises, and the caller receives the 500 "An internal error occurred
    during file saving.". *)
Theorem save_file_falsy_result_is_internal_error E f w result :
  FileHandler.is_kml f = true → content f ≠ [] →
  kml2geojson_convert E (content f) = inr result → Py.truthy result = false →
  fst (FileHandler.save_file E f w) = Raise InternalError.
Proof.
  intros Hk Hc Hconv Hfalsy. rewrite save_file_kml by done.
  unfold conversion. rewrite Hconv.
  destruct result as [|b|z|x|s|items|items|entries]; simpl in *; try reflexivity.
  - destruct s; [reflexivity|discriminate Hfalsy].
  - destruct items; [reflexivity|discriminate Hfalsy].
  - destruct items; [reflexivity|discriminate Hfalsy].
Qed.

Lemma save_file_falsy_result_witness :
  (FileHandler.is_kml (Sample.upload "campus.kml" "application/vnd.google-earth.kml+xml"
                         Sample.kml_bytes) = true ∧
   content (Sample.upload "campus.kml" "application/vnd.google-earth.kml+xml"
              Sample.kml_bytes) ≠ [] ∧
   kml2geojson_convert Sample.env_empty_result Sample.kml_bytes = inr (PyList []) ∧
   Py.truthy (PyList []) = false) ∧
  fst (FileHandler.save_file Sample.env_empty_result
         (Sample.upload "campus.kml" "application/vnd.google-earth.kml+xml" Sample.kml_bytes)
         (Sample.world ∅))
  = Raise (HTTPException 500 "An internal error occurred during file saving.").
Proof.
  assert (content (Sample.upload "campus.kml" "application/vnd.google-earth.kml+xml"
                     Sample.kml_bytes) ≠ []) as Hc.
  { intros H. discriminate H. }
  split; [by repeat split|].
  exact (save_file_falsy_result_is_internal_error Sample.env_empty_result
           (Sample.upload "campus.kml" "application/vnd.google-earth.kml+xml" Sample.kml_bytes)
           (Sample.world ∅) (PyList []) eq_refl Hc eq_refl eq_refl).
Defined.

(** A falsy element selected from the result is reported as the claim says. *)
Lemma save_file_falsy_selection E f w items d :
  FileHandler.is_kml f = true → content f ≠ [] →
  kml2geojson_convert E (content f) = inr (PyList (d :: items)) → Py.truthy d = false →
  fst (FileHandler.save_file E f w)
  = Raise (HTTPException 400
             "Error processing KML file: Invalid KML structure or encoding").
Proof.
  intros Hk Hc Hconv Hfalsy. rewrite save_file_kml by done.
  unfold conversion. rewrite Hconv. simpl. by rewrite Hfalsy.
Qed.

(** What a [.kml] upload leaves on the store. *)
Lemma save_file_kml_artifacts E f w :
  FileHandler.is_kml f = true →
  files w !! allocated f w = None → files w !! converted f w = None →
  files (snd (FileHandler.save_file E f w)) !! allocated f w = None ∧
  match fst (FileHandler.save_file E f w) with
  | Ok p => p = converted f w ∧ is_Some (files (snd (FileHandler.save_file E f w)) !! p)
  | Raise e =>
      save_failure e ∧ files (snd (FileHandler.save_file E f w)) = files w
  end.
Proof.
  intros Hk Ha Hc. pose proof (is_kml_extension _ Hk) as Hext.
  pose proof (allocated_ne_converted f w Hk) as Hne.
  destruct (content f) as [|b data] eqn:Hd.
  { rewrite save_file_empty by done. simpl. split; [done|]. split; [|done].
    right; by left. }
  rewrite save_file_kml by (done || by rewrite Hd). rewrite Hd.
  destruct (conversion E (b :: data)) as [e|d] eqn:Hconv; simpl.
  - rewrite lookup_delete_eq. split; [done|]. split; [|by rewrite delete_id].
    by eapply save_error_conversion.
  - rewrite lookup_insert_ne, lookup_delete_eq by done. split; [done|].
    split; [done|]. by rewrite lookup_insert_eq.
Qed.

(** When the library itself rejects the KML, the error is a 400. *)
Lemma save_file_kml_rejected E f w e :
  FileHandler.is_kml f = true → content f ≠ [] →
  kml2geojson_convert E (content f) = inl e →
  ∃ m, fst (FileHandler.save_file E f w)
       = Raise (HTTPException 400 ("Error processing KML file: " +:+ m)).
Proof.
  intros Hk Hc Hconv. rewrite save_file_kml by done.
  unfold conversion. rewrite Hconv. simpl. by eexists.
Qed.

(** C2 (the code departs from the claim).  The sample [.kml] upload, on
    which the converter returns the empty list: the conversion fails and
    nothing is left on the store, neither the [.kml] nor a [.geojson],
    but the error that propagates is the 500 of an internal error, not a
    400. *)
Theorem save_file_kml_empty_list_evaluated :
  fst (FileHandler.save_file Sample.env_empty_result
         (Sample.upload "campus.kml" "application/vnd.google-earth.kml+xml" Sample.kml_bytes)
         (Sample.world ∅))
  = Raise (HTTPException 500 "An internal error occurred during file saving.") ∧
  files (snd (FileHandler.save_file Sample.env_empty_result
         (Sample.upload "campus.kml" "application/vnd.google-earth.kml+xml" Sample.kml_bytes)
         (Sample.world ∅))) = ∅.
Proof. split; vm_compute; reflexivity. Qed.

(** ** The file tables *)

Lemma find_none_owned rows i :
  List.find (fun r => String.eqb (institution_id r) i) rows = None ↔ owned rows i = [].
Proof.
  unfold owned. induction rows as [|r rows IH]; simpl; [done|].
  destruct (String.eqb (institution_id r) i); [done|exact IH].
Qed.

Lemma owned_app rows rows' i : owned (rows ++ rows') i = owned rows i ++ owned rows' i.
Proof. unfold owned. apply List.filter_app. Qed.

Lemma owned_filter_le q rows i :
  length (owned (List.filter q rows) i) ≤ length (owned rows i).
Proof.
  unfold owned. induction rows as [|r rows IH]; simpl; [done|].
  destruct (q r); simpl; destruct (String.eqb (institution_id r) i); simpl; lia.
Qed.

Lemma file_exists_spec i is_geo w :
  CRUDService.file_exists i is_geo w =
  (Ok (match owned (CRUDService.table (if is_geo then CRUDService.GeoFile
                                        else CRUDService.ImageFile) w) i with
       | [] => false
       | _ => true
       end), w).
Proof.
  unfold CRUDService.file_exists, CRUDService.query_first, bind, ret.
  destruct (List.find _ _) as [r|] eqn:Hfind.
  - destruct (owned _ i) eqn:Ho; [|done].
    apply find_none_owned in Ho. congruence.
  - apply find_none_owned in Hfind. by rewrite Hfind.
Qed.

(** The world once a row is added to a table. *)
Lemma table_set_table m rows w : CRUDService.table m (CRUDService.set_table m rows w) = rows.
Proof. by destruct m. Qed.

Lemma create_file_tables E f i w r w' :
  CRUDService.create_file E f i w = (r, w') →
  institutions w' = institutions w ∧
  match r with
  | Ok (m, row) =>
      m = (if mime_in (upload_content_type f) GEO_MIME_TYPES
           then CRUDService.GeoFile else CRUDService.ImageFile) ∧
      institution_id row = i ∧
      Some (content_type row) = upload_content_type f ∧
      match m with
      | CRUDService.GeoFile =>
          geofiles w' = geofiles w ++ [row] ∧ imagefiles w' = imagefiles w
      | CRUDService.ImageFile =>
          geofiles w' = geofiles w ∧ imagefiles w' = imagefiles w ++ [row]
      end
  | Raise _ => geofiles w' = geofiles w ∧ imagefiles w' = imagefiles w
  end.
Proof.
  unfold CRUDService.create_file. unfold bind at 1.
  pose proof (save_file_keeps_db E f w) as (Hi & Hg & Him & _).
  destruct (FileHandler.save_file E f w) as [[p|e] w1]; simpl in Hi, Hg, Him.
  2:{ intros [= <- <-]. done. }
  unfold bind at 1. unfold Os.getsize.
  destruct (files w1 !! p) as [data|]; [|intros [= <- <-]; done].
  destruct (upload_content_type f) as [ct|]; [|intros [= <- <-]; done].
  unfold CRUDService.db_add, bind, Os.uuid4, ret. simpl.
  destruct (bool_decide (ct ∈ GEO_MIME_TYPES)); simpl; intros [= <- <-]; simpl;
    repeat split; congruence.
Qed.

Lemma at_most_one_append_geo w w' row :
  at_most_one w → owned (geofiles w) (institution_id row) = [] →
  geofiles w' = geofiles w ++ [row] → imagefiles w' = imagefiles w →
  at_most_one w'.
Proof.
  intros Hinv Hfree Hg Him j. rewrite Hg, Him. destruct (Hinv j) as [Hgj Hij].
  split; [|done]. rewrite owned_app. rewrite length_app.
  unfold owned at 2. simpl.
  destruct (String.eqb_spec (institution_id row) j) as [<-|_]; simpl; [|lia].
  rewrite Hfree. simpl. lia.
Qed.

Lemma at_most_one_append_image w w' row :
  at_most_one w → owned (imagefiles w) (institution_id row) = [] →
  geofiles w' = geofiles w → imagefiles w' = imagefiles w ++ [row] →
  at_most_one w'.
Proof.
  intros Hinv Hfree Hg Him j. rewrite Hg, Him. destruct (Hinv j) as [Hgj Hij].
  split; [done|]. rewrite owned_app. rewrite length_app.
  unfold owned at 2. simpl.
  destruct (String.eqb_spec (institution_id row) j) as [<-|_]; simpl; [|lia].
  rewrite Hfree. simpl. lia.
Qed.

Lemma at_most_one_same w w' :
  at_most_one w → geofiles w' = geofiles w → imagefiles w' = imagefiles w →
  at_most_one w'.
Proof. intros Hinv Hg Him j. rewrite Hg, Him. apply Hinv. Qed.

Lemma at_most_one_same_db w w' : at_most_one w → same_db w w' → at_most_one w'.
Proof. intros Hinv (_ & Hg & Him & _). by eapply at_most_one_same. Qed.

Lemma at_most_one_filter w w' q1 q2 :
  at_most_one w → geofiles w' = List.filter q1 (geofiles w) →
  imagefiles w' = List.filter q2 (imagefiles w) → at_most_one w'.
Proof.
  intros Hinv Hg Him j. rewrite Hg, Him. destruct (Hinv j) as [Hgj Hij].
  pose proof (owned_filter_le q1 (geofiles w) j).
  pose proof (owned_filter_le q2 (imagefiles w) j). lia.
Qed.

Lemma filter_true {A} (l : list A) : List.filter (fun _ => true) l = l.
Proof. induction l as [|x l IH]; simpl; congruence. Qed.

(** The upload loop keeps the invariant, whatever its outcome. *)
Lemma upload_loop_at_most_one E files i geo img w :
  at_most_one w → at_most_one (snd (Routers.upload_loop E files i geo img w)).
Proof.
  revert geo img w. induction files as [|file rest IH]; intros geo img w Hinv; [done|].
  cbn [Routers.upload_loop].
  destruct (mime_in (upload_content_type file) ALLOWED_MIME_TYPES); simpl; [|done].
  unfold bind at 1. rewrite file_exists_spec.
  destruct (owned _ i) as [|r0 rs] eqn:Hfree; [|done].
  unfold bind at 1.
  destruct (CRUDService.create_file E file i w) as [[[m row]|e] w1] eqn:Hrun.
  - apply create_file_tables in Hrun as (_ & -> & Hrow & _ & Htab).
    destruct (mime_in (upload_content_type file) GEO_MIME_TYPES); simpl in *;
      apply IH; destruct Htab as [Hg Him]; subst i.
    + by eapply at_most_one_append_geo.
    + by eapply at_most_one_append_image.
  - apply create_file_tables in Hrun as (_ & Hg & Him). simpl.
    by eapply at_most_one_same.
Qed.

Lemma get_file_or_404_world m nm label w :
  snd (CRUDService._get_file_or_404 m nm label w) = w.
Proof.
  unfold CRUDService._get_file_or_404, CRUDService.query_first, FileHandler.file_exists,
    Os.path_exists, bind, ret, raise.
  destruct (List.find _ _) as [row|]; [|done].
  by destruct (bool_decide _).
Qed.

Lemma delete_file_world p w :
  same_db w (snd (FileHandler.delete_file p w)).
Proof. apply delete_file_keeps_db. Qed.

Lemma db_delete_tables m row w :
  CRUDService.db_delete m row w =
  (Ok tt, CRUDService.set_table m
            (List.filter (fun r => negb (String.eqb (id r) (id row)))
               (CRUDService.table m w)) w).
Proof. done. Qed.

Lemma at_most_one_db_delete m row w :
  at_most_one w → at_most_one (snd (CRUDService.db_delete m row w)).
Proof.
  intros Hinv. rewrite db_delete_tables. simpl. destruct m; simpl.
  - eapply (at_most_one_filter w _ _ (fun _ => true)); [done|done|].
    simpl. by rewrite filter_true.
  - eapply (at_most_one_filter w _ (fun _ => true)); [done| |done].
    simpl. by rewrite filter_true.
Qed.

Lemma delete_by_name_at_most_one m nm label w :
  at_most_one w →
  at_most_one (snd ((do row <- CRUDService._get_file_or_404 m nm label;
                     CRUDService._delete_file m row) w)).
Proof.
  intros Hinv. unfold bind at 1.
  pose proof (get_file_or_404_world m nm label w) as Hw.
  destruct (CRUDService._get_file_or_404 m nm label w) as [[row|e] w1];
    simpl in Hw; subst w1; [|done].
  unfold CRUDService._delete_file, bind.
  pose proof (delete_file_world (Pathlib.of_string (path row)) w) as Hdb.
  rewrite delete_file_spec in *. simpl in *.
  apply at_most_one_db_delete. by eapply at_most_one_same_db.
Qed.

Lemma overwrite_after_lookup_at_most_one E file m nm label w :
  at_most_one w →
  at_most_one
    (snd ((do existing_file <- CRUDService._get_file_or_404 m nm label;
           exec FileHandler.overwrite_file E file
                  (Pathlib.of_string (path existing_file));
           ret existing_file) w)).
Proof.
  intros Hinv. unfold bind at 1.
  pose proof (get_file_or_404_world m nm label w) as Hw.
  destruct (CRUDService._get_file_or_404 m nm label w) as [[row|e] w1];
    simpl in Hw; rewrite Hw; [|done].
  unfold bind, ret.
  pose proof (overwrite_file_keeps_db E file (Pathlib.of_string (path row)) w) as Hdb.
  destruct (FileHandler.overwrite_file E file (Pathlib.of_string (path row)) w)
    as [[[]|e] w2]; simpl in *; by eapply at_most_one_same_db.
Qed.

Lemma update_file_at_most_one E file nm is_geo w :
  at_most_one w → at_most_one (snd (CRUDService.update_file E file nm is_geo w)).
Proof.
  intros Hinv. unfold CRUDService.update_file.
  destruct is_geo; by apply overwrite_after_lookup_at_most_one.
Qed.

(** [delete_institution], case by case. *)
Lemma delete_institution_spec i w :
  CRUDService.delete_institution i w =
  match List.find (fun x => String.eqb (inst_id x) i) (institutions w) with
  | None => (Raise (HTTPException 404 "Institution not found"), w)
  | Some institution =>
      match List.find (fun r => String.eqb (institution_id r) (inst_id institution))
              (geofiles w) with
      | None => (Raise (AttributeError "'NoneType' object has no attribute 'path'"), w)
      | Some geo =>
          let w1 := snd (FileHandler.delete_file (Pathlib.of_string (path geo)) w) in
          match List.find (fun r => String.eqb (institution_id r) (inst_id institution))
                  (imagefiles w) with
          | None =>
              (Raise (AttributeError "'NoneType' object has no attribute 'path'"), w1)
          | Some image =>
              CRUDService.db_delete_institution institution (Some geo) (Some image)
                (snd (FileHandler.delete_file (Pathlib.of_string (path image)) w1))
          end
      end
  end.
Proof.
  unfold CRUDService.delete_institution, CRUDService.get_institution_by_id.
  unfold bind at 1. destruct (List.find _ (institutions w)) as [inst|]; [|done].
  unfold bind at 1. unfold CRUDService.related, CRUDService.query_first. simpl.
  destruct (List.find _ (geofiles w)) as [geo|]; simpl; [|done].
  unfold bind at 1. simpl. unfold bind at 1.
  pose proof (delete_file_world (Pathlib.of_string (path geo)) w) as (_ & _ & Him & _).
  assert (∀ p w0, FileHandler.delete_file p w0
                  = (Ok tt, snd (FileHandler.delete_file p w0))) as Hd.
  { intros p w0. by rewrite delete_file_spec. }
  rewrite (Hd _ w).
  set (w1 := snd (FileHandler.delete_file (Pathlib.of_string (path geo)) w)) in *.
  unfold bind at 1. rewrite Him.
  destruct (List.find _ (imagefiles w)) as [image|]; simpl; [|done].
  unfold bind at 1. simpl. unfold bind at 1. by rewrite (Hd _ w1).
Qed.

Lemma delete_institution_at_most_one i w :
  at_most_one w → at_most_one (snd (CRUDService.delete_institution i w)).
Proof.
  intros Hinv. rewrite delete_institution_spec.
  destruct (List.find _ (institutions w)) as [inst|]; [|done].
  destruct (List.find _ (geofiles w)) as [geo|]; [|done].
  pose proof (delete_file_world (Pathlib.of_string (path geo)) w) as Hdb1.
  cbv zeta. set (w1 := snd (FileHandler.delete_file _ w)) in *.
  destruct (List.find _ (imagefiles w)) as [image|]; simpl;
    [|by eapply at_most_one_same_db].
  pose proof (delete_file_world (Pathlib.of_string (path image)) w1) as Hdb2.
  set (w2 := snd (FileHandler.delete_file _ w1)) in *.
  assert (at_most_one w2) as Hinv2.
  { eapply at_most_one_same_db; [|exact Hdb2]. by eapply at_most_one_same_db. }
  unfold CRUDService.db_delete_institution, bind. simpl.
  eapply (at_most_one_filter w2); [exact Hinv2|reflexivity|reflexivity].
Qed.

Lemma create_institution_at_most_one nm w :
  at_most_one w → at_most_one (snd (Routers.create_institution nm w)).
Proof.
  intros Hinv. unfold Routers.create_institution, CRUDService.institution_exists,
    CRUDService.create_institution, bind, Os.uuid4, raise. simpl.
  by destruct (existsb _ _).
Qed.

Lemma update_institution_at_most_one i updates w :
  at_most_one w → at_most_one (snd (Routers.update_institution i updates w)).
Proof.
  intros Hinv. unfold Routers.update_institution, CRUDService.update_institution,
    CRUDService.get_institution_by_id, bind.
  by destruct (List.find _ (institutions w)).
Qed.

(** Every request keeps the invariant, whether it succeeds or fails. *)
Lemma handle_at_most_one E r w :
  at_most_one w → at_most_one (Routers.handle E r w).
Proof.
  intros Hinv. destruct r as [files i|file nm ty|nm ty|nm|i updates|i]; simpl.
  - by apply upload_loop_at_most_one.
  - unfold Routers.update_file.
    destruct (negb _); [done|]. destruct (negb _); [done|].
    by apply update_file_at_most_one.
  - unfold Routers.delete_file.
    destruct (String.eqb ty "geo"); [by apply delete_by_name_at_most_one|].
    destruct (String.eqb ty "image"); [by apply delete_by_name_at_most_one|done].
  - by apply create_institution_at_most_one.
  - by apply update_institution_at_most_one.
  - by apply delete_institution_at_most_one.
Qed.

Lemma upload_rejects_duplicate E file rest i w row :
  mime_in (upload_content_type file) ALLOWED_MIME_TYPES = true →
  In row (CRUDService.table
            (if mime_in (upload_content_type file) GEO_MIME_TYPES
             then CRUDService.GeoFile else CRUDService.ImageFile) w) →
  institution_id row = i →
  Routers.upload_file E (file :: rest) i w = (Raise (Routers.already_exists file), w).
Proof.
  intros Hallowed Hin Hrow. unfold Routers.upload_file. cbn [Routers.upload_loop].
  rewrite Hallowed. simpl. unfold bind at 1. rewrite file_exists_spec.
  destruct (owned _ i) as [|r0 rs] eqn:Ho; [|done].
  exfalso. assert (In row (owned (CRUDService.table
            (if mime_in (upload_content_type file) GEO_MIME_TYPES
             then CRUDService.GeoFile else CRUDService.ImageFile) w) i)) as Hin'.
  { unfold owned. apply List.filter_In. split; [done|]. by apply String.eqb_eq. }
  by rewrite Ho in Hin'.
Qed.

(** Requests served one at a time.  From a world where every institution
    owns at most one GeoFile and at most one ImageFile, every sequence of
    requests (uploads, updates, deletions, creations and deletions of
    institutions, successful or not), each served to its end before the
    next begins, leads to such a world; and an upload whose first file is
    of a kind the institution already owns is rejected with the 400
    "already exists" error, the world (tables and store) being left as it
    was. *)
Theorem at_most_one_file_per_kind E w :
  at_most_one w →
  (∀ requests, at_most_one (foldl (fun w0 r => Routers.handle E r w0) w requests)) ∧
  (∀ file rest i row,
     mime_in (upload_content_type file) ALLOWED_MIME_TYPES = true →
     In row (CRUDService.table
               (if mime_in (upload_content_type file) GEO_MIME_TYPES
                then CRUDService.GeoFile else CRUDService.ImageFile) w) →
     institution_id row = i →
     Routers.upload_file E (file :: rest) i w
     = (Raise (HTTPException 400
                 ("File with name '" +:+ filename file +:+
                  "' already exists for institution.")), w)).
Proof.
  intros Hinv. split.
  - intros requests. revert w Hinv.
    induction requests as [|r requests IH]; intros w Hinv; [done|].
    simpl. apply IH. by apply handle_at_most_one.
  - intros file rest i row Hallowed Hin Hrow.
    by erewrite upload_rejects_duplicate.
Qed.

Lemma at_most_one_file_per_kind_witness :
  at_most_one Sample.campus ∧
  at_most_one
    (foldl (fun w0 r => Routers.handle Sample.env r w0) Sample.campus
       [Routers.PostFiles
          [Sample.upload "map.geojson" "application/geo+json" Sample.junk_bytes;
           Sample.upload "logo.png" "image/png" Sample.junk_bytes] "abu";
        Routers.DeleteInstitution "abu"]) ∧
  Routers.upload_file Sample.env
    [Sample.upload "map.geojson" "application/geo+json" Sample.junk_bytes] "abu"
    Sample.campus
  = (Raise (HTTPException 400
              "File with name 'map.geojson' already exists for institution."),
     Sample.campus).
Proof.
  assert (at_most_one Sample.campus) as Hinv.
  { intros j. unfold owned, Sample.campus, Sample.campus_row.
    cbn [geofiles imagefiles List.filter institution_id].
    destruct (String.eqb "abu" j); cbn [List.length]; lia. }
  split; [exact Hinv|].
  destruct (at_most_one_file_per_kind Sample.env Sample.campus Hinv) as [Hall Hdup].
  split; [apply Hall|].
  apply (Hdup (Sample.upload "map.geojson" "application/geo+json" Sample.junk_bytes) []
           "abu" Sample.campus_row).
  - reflexivity.
  - left. reflexivity.
  - reflexivity.
Defined.

(** ** Deleting an institution *)

(** C10 (the code departs from the specification).  An institution owns
    zero or one file of each kind and its deletion cascades to them; yet
    for an institution that lacks a GeoFile or an ImageFile,
    [delete_institution] raises the [AttributeError] of the missing
    relationship and removes no row of the database, the institution
    included.  When the GeoFile is the missing one nothing at all has
    changed; when the GeoFile is there and the ImageFile is missing, the
    file of the GeoFile has been removed from the store (and nothing else)
    by the time the error is raised, so that its record is left without a
    file. *)
Theorem delete_institution_missing_relationship i institution w :
  List.find (fun x => String.eqb (inst_id x) i) (institutions w) = Some institution →
  List.find (fun r => String.eqb (institution_id r) (inst_id institution)) (geofiles w)
    = None ∨
  List.find (fun r => String.eqb (institution_id r) (inst_id institution)) (imagefiles w)
    = None →
  ∃ w', CRUDService.delete_institution i w = (Raise MissingRelationship, w') ∧
        institutions w' = institutions w ∧ geofiles w' = geofiles w ∧
        imagefiles w' = imagefiles w ∧
        match List.find (fun r => String.eqb (institution_id r) (inst_id institution))
                (geofiles w) with
        | None => w' = w
        | Some geo => files w' = delete (Pathlib.of_string (path geo)) (files w)
        end.
Proof.
  intros Hinst Hmissing. rewrite delete_institution_spec, Hinst.
  destruct (List.find _ (geofiles w)) as [geo|] eqn:Hgeo.
  - destruct Hmissing as [Hmissing|Hmissing]; [discriminate Hmissing|].
    rewrite Hmissing. cbv zeta. eexists. split; [reflexivity|].
    rewrite delete_file_spec. simpl.
    destruct (files w !! Pathlib.of_string (path geo)) eqn:Hp; simpl;
      repeat split; try done. by rewrite delete_id.
  - exists w. by repeat split.
Qed.

Lemma delete_institution_missing_relationship_witness :
  (List.find (fun x => String.eqb (inst_id x) "abu") (institutions Sample.campus)
     = Some {| inst_id := "abu"; inst_name := "Ahmadu Bello University" |} ∧
   List.find (fun r => String.eqb (institution_id r) "abu") (imagefiles Sample.campus)
     = None) ∧
  ∃ w', CRUDService.delete_institution "abu" Sample.campus
        = (Raise MissingRelationship, w') ∧
        institutions w' = institutions Sample.campus ∧
        geofiles w' = [Sample.campus_row] ∧ imagefiles w' = [].
Proof.
  split; [by split|].
  destruct (delete_institution_missing_relationship "abu"
              {| inst_id := "abu"; inst_name := "Ahmadu Bello University" |}
              Sample.campus eq_refl (or_intror eq_refl))
    as (w' & Hrun & Hi & Hg & Him & _).
  exists w'. split; [exact Hrun|]. split; [exact Hi|]. split; [exact Hg|exact Him].
Defined.

(** The sample institution has a GeoFile, stored on disk, and no
    ImageFile; its deletion raises, and the stored file is gone. *)
Lemma delete_institution_removes_geo_artifact :
  List.find (fun r => String.eqb (institution_id r) "abu") (imagefiles Sample.campus)
    = None ∧
  fst (CRUDService.delete_institution "abu" Sample.campus) = Raise MissingRelationship ∧
  files Sample.campus !! Sample.stored = Some Sample.kml_bytes ∧
  files (snd (CRUDService.delete_institution "abu" Sample.campus)) !! Sample.stored = None.
Proof. repeat split; vm_compute; reflexivity. Qed.

(** ** Content types *)

Lemma elem_of_ALLOWED (s : string) : s ∈ ALLOWED_MIME_TYPES ↔ listed_allowed s.
Proof.
  unfold ALLOWED_MIME_TYPES, listed_allowed.
  rewrite !elem_of_union, !elem_of_singleton. tauto.
Qed.

Lemma elem_of_GEO (s : string) : s ∈ GEO_MIME_TYPES ↔ listed_geo s.
Proof.
  unfold GEO_MIME_TYPES, listed_geo.
  rewrite !elem_of_union, !elem_of_singleton. tauto.
Qed.

Lemma mime_in_allowed s : mime_in (Some s) ALLOWED_MIME_TYPES = true ↔ listed_allowed s.
Proof. simpl. rewrite bool_decide_eq_true. apply elem_of_ALLOWED. Qed.

Lemma mime_in_geo s : mime_in (Some s) GEO_MIME_TYPES = true ↔ listed_geo s.
Proof. simpl. rewrite bool_decide_eq_true. apply elem_of_GEO. Qed.

Lemma listed_split s : listed_allowed s ↔ listed_geo s ∨ listed_image s.
Proof. unfold listed_allowed, listed_geo, listed_image. tauto. Qed.

Lemma listed_image_not_geo s : listed_image s → ¬ listed_geo s.
Proof.
  unfold listed_image, listed_geo. intros Hi Hg.
  destruct_or!; subst; discriminate.
Qed.

Lemma create_file_raises E f i w e w' :
  CRUDService.create_file E f i w = (Raise e, w') →
  save_failure e ∨ (∃ m, e = FileNotFoundError m) ∨ (∃ m, e = RuntimeError m).
Proof.
  unfold CRUDService.create_file. unfold bind at 1.
  pose proof (save_file_raises E f w) as Hs.
  destruct (FileHandler.save_file E f w) as [[p|e0] w1]; simpl in Hs.
  2:{ intros [= <- <-]. left. by apply Hs. }
  unfold bind at 1. unfold Os.getsize.
  destruct (files w1 !! p) as [data|]; [|intros [= <- <-]; right; left; by eexists].
  destruct (upload_content_type f) as [ct|]; [|intros [= <- <-]; right; right; by eexists].
  unfold CRUDService.db_add, bind, Os.uuid4, ret. simpl. intros H. discriminate H.
Qed.

Lemma invalid_file_type_distinct s e :
  save_failure e ∨ (∃ m, e = FileNotFoundError m) ∨ (∃ m, e = RuntimeError m) →
  e ≠ Routers.invalid_file_type (Some s).
Proof.
  unfold save_failure, Routers.invalid_file_type. simpl.
  intros H Heq. destruct_or!; repeat match goal with H : ∃ _, _ |- _ => destruct H end;
    subst; discriminate Heq.
Qed.

(** A single upload, step by step. *)
Lemma upload_single E file i w :
  Routers.upload_file E [file] i w =
  if negb (mime_in (upload_content_type file) ALLOWED_MIME_TYPES)
  then (Raise (Routers.invalid_file_type (upload_content_type file)), w)
  else
    match owned (CRUDService.table
                   (if mime_in (upload_content_type file) GEO_MIME_TYPES
                    then CRUDService.GeoFile else CRUDService.ImageFile) w) i with
    | _ :: _ => (Raise (Routers.already_exists file), w)
    | [] =>
        match CRUDService.create_file E file i w with
        | (Ok saved, w') =>
            (Ok (if mime_in (upload_content_type file) GEO_MIME_TYPES
                 then ([snd saved], []) else ([], [snd saved])), w')
        | (Raise e, w') => (Raise e, w')
        end
    end.
Proof.
  unfold Routers.upload_file. cbn [Routers.upload_loop].
  destruct (negb _); [done|]. unfold bind at 1. rewrite file_exists_spec.
  destruct (owned _ i); [|done]. unfold bind at 1.
  destruct (CRUDService.create_file E file i w) as [[saved|e] w']; [|done].
  by destruct (mime_in _ GEO_MIME_TYPES).
Qed.

(** C8.  For an upload of declared content type [s]: the upload of that
    single file fails with the 400 "Invalid file type" error exactly when
    [s] is outside the nine listed types (and then whatever follows it in
    the batch, the world being left as it was); among the listed types the
    four geo types, and only they, classify as geo, the five others as
    image; and a successful upload returns the record in the list, and
    adds it to the table, of its classification. *)
Theorem mime_classification E file i w s :
  upload_content_type file = Some s →
  (fst (Routers.upload_file E [file] i w)
     = Raise (HTTPException 400
                ("Invalid file type '" +:+ s +:+
                 "'. Allowed types are images, GeoJSON, or KML."))
   ↔ ¬ listed_allowed s) ∧
  (∀ rest, ¬ listed_allowed s →
     Routers.upload_file E (file :: rest) i w
     = (Raise (HTTPException 400
                 ("Invalid file type '" +:+ s +:+
                  "'. Allowed types are images, GeoJSON, or KML.")), w)) ∧
  (listed_allowed s →
     (mime_in (upload_content_type file) GEO_MIME_TYPES = true ↔ listed_geo s) ∧
     (mime_in (upload_content_type file) GEO_MIME_TYPES = false ↔ listed_image s)) ∧
  (∀ geo img w', Routers.upload_file E [file] i w = (Ok (geo, img), w') →
     (listed_geo s →
        ∃ row, geo = [row] ∧ img = [] ∧
               geofiles w' = geofiles w ++ [row] ∧ imagefiles w' = imagefiles w) ∧
     (listed_image s →
        ∃ row, geo = [] ∧ img = [row] ∧
               geofiles w' = geofiles w ∧ imagefiles w' = imagefiles w ++ [row])).
Proof.
  intros Hct.
  assert (∀ rest, ¬ listed_allowed s →
     Routers.upload_file E (file :: rest) i w
     = (Raise (Routers.invalid_file_type (Some s)), w)) as Hreject.
  { intros rest Hno. unfold Routers.upload_file. cbn [Routers.upload_loop].
    rewrite Hct. rewrite <- mime_in_allowed in Hno.
    apply not_true_is_false in Hno. by rewrite Hno. }
  assert (listed_allowed s →
     (mime_in (upload_content_type file) GEO_MIME_TYPES = true ↔ listed_geo s) ∧
     (mime_in (upload_content_type file) GEO_MIME_TYPES = false ↔ listed_image s))
    as Hclass.
  { intros Hall. rewrite Hct. split; [apply mime_in_geo|].
    rewrite <- not_true_iff_false, mime_in_geo.
    apply listed_split in Hall. pose proof (listed_image_not_geo s). tauto. }
  split; [|split; [exact Hreject|split; [exact Hclass|]]].
  - split.
    + intros Hrun Hall. rewrite upload_single, Hct in Hrun.
      pose proof Hall as Hall'. rewrite <- mime_in_allowed in Hall'.
      rewrite Hall' in Hrun. simpl negb in Hrun. cbv iota in Hrun.
      destruct (owned _ i) as [|r0 rs]; [|discriminate Hrun].
      destruct (CRUDService.create_file E file i w) as [[saved|e] w'] eqn:Hc;
        [discriminate Hrun|].
      apply create_file_raises in Hc. apply (invalid_file_type_distinct s) in Hc.
      simpl in Hrun. injection Hrun as Hrun. by apply Hc.
    + intros Hno. by rewrite (Hreject [] Hno).
  - intros geo img w' Hrun. rewrite upload_single in Hrun.
    destruct (negb _); [discriminate Hrun|].
    destruct (owned _ i) as [|r0 rs]; [|discriminate Hrun].
    destruct (CRUDService.create_file E file i w) as [[[m row]|e] w1] eqn:Hc;
      [|discriminate Hrun].
    apply create_file_tables in Hc as (_ & -> & _ & _ & Htab).
    split.
    + intros Hgeo. destruct Hclass as [Hg _]; [apply listed_split; by left|].
      apply Hg in Hgeo. rewrite Hgeo in *. injection Hrun as <- <- <-.
      exists row. by destruct Htab.
    + intros Himg. destruct Hclass as [_ Hi]; [apply listed_split; by right|].
      apply Hi in Himg. rewrite Himg in *. injection Hrun as <- <- <-.
      exists row. by destruct Htab.
Qed.

Lemma mime_classification_witness :
  upload_content_type (Sample.upload "notes.docx" "application/msword" Sample.junk_bytes)
    = Some "application/msword" ∧
  ¬ listed_allowed "application/msword" ∧
  fst (Routers.upload_file Sample.env
         [Sample.upload "notes.docx" "application/msword" Sample.junk_bytes] "abu"
         (Sample.world ∅))
  = Raise (HTTPException 400
             "Invalid file type 'application/msword'. Allowed types are images, GeoJSON, or KML.").
Proof.
  assert (¬ listed_allowed "application/msword") as Hno.
  { unfold listed_allowed. intros H. destruct_or!; discriminate H. }
  split; [reflexivity|]. split; [exact Hno|].
  exact (proj2 (proj1 (mime_classification Sample.env
                         (Sample.upload "notes.docx" "application/msword" Sample.junk_bytes)
                         "abu" (Sample.world ∅) "application/msword" eq_refl)) Hno).
Defined.

(** ** A [.kml] file name under an image content type *)

Lemma IMAGE_DIR_parts : FileHandler.IMAGE_DIR = ["app"; "static"; "images"].
Proof. reflexivity. Qed.

Lemma GEO_JSON_DIR_parts : FileHandler.GEO_JSON_DIR = ["app"; "static"; "geo_jsons"].
Proof. reflexivity. Qed.

(** C9.  An upload named [*.kml] (in any letter case) with content that
    converts is saved as the [.geojson] conversion of its content,
    whatever its content type: in the geo directory for a geo type, in
    the image directory for any other.  Under an image content type the
    record created for it is an ImageFile whose name and path are those
    of the [.geojson] file in the image directory. *)
Theorem kml_extension_drives_conversion E f i w d :
  FileHandler.is_kml f = true → content f ≠ [] → conversion E (content f) = inr d →
  (∃ w1,
     FileHandler.save_file E f w
     = (Ok ((if mime_in (upload_content_type f) GEO_MIME_TYPES
             then FileHandler.GEO_JSON_DIR else FileHandler.IMAGE_DIR)
            ++ [next_uuid w +:+ ".geojson"]), w1) ∧
     files w1 !! ((if mime_in (upload_content_type f) GEO_MIME_TYPES
                   then FileHandler.GEO_JSON_DIR else FileHandler.IMAGE_DIR)
                  ++ [next_uuid w +:+ ".geojson"]) = Some (geojson_bytes E d)) ∧
  (∀ s, upload_content_type f = Some s → listed_image s →
     ∃ row w',
       CRUDService.create_file E f i w = (Ok (CRUDService.ImageFile, row), w') ∧
       name row = next_uuid w +:+ ".geojson" ∧
       path row = "app/static/images/" +:+ next_uuid w +:+ ".geojson" ∧
       content_type row = s ∧ institution_id row = i ∧
       imagefiles w' = imagefiles w ++ [row] ∧ geofiles w' = geofiles w ∧
       files w' !! (FileHandler.IMAGE_DIR ++ [next_uuid w +:+ ".geojson"])
         = Some (geojson_bytes E d)).
Proof.
  intros Hk Hc Hconv.
  pose proof (save_file_kml E f w Hc Hk) as Hsave. rewrite Hconv in Hsave.
  unfold converted, upload_dir in Hsave.
  split.
  - eexists. split; [exact Hsave|]. simpl. by rewrite lookup_insert_eq.
  - intros s Hct Himg.
    assert (mime_in (upload_content_type f) GEO_MIME_TYPES = false) as Hgeo.
    { rewrite Hct. apply not_true_iff_false. rewrite mime_in_geo.
      by apply listed_image_not_geo. }
    rewrite Hgeo in Hsave.
    unfold CRUDService.create_file. unfold bind at 1. rewrite Hsave.
    unfold bind at 1. unfold Os.getsize. cbn [files set_store].
    rewrite lookup_insert_eq. rewrite Hgeo, Hct.
    unfold CRUDService.db_add, bind, Os.uuid4, ret. cbn.
    eexists _, _. split; [reflexivity|]. cbn.
    rewrite name_snoc by apply stored_name_not_anchor, uuid4_shape.
    rewrite lookup_insert_eq. by repeat split.
Qed.

Lemma kml_extension_drives_conversion_witness :
  (FileHandler.is_kml (Sample.upload "plan.KML" "image/png" Sample.kml_bytes) = true ∧
   content (Sample.upload "plan.KML" "image/png" Sample.kml_bytes) ≠ [] ∧
   conversion Sample.env Sample.kml_bytes = inr Sample.feature_collection ∧
   listed_image "image/png") ∧
  ∃ row w',
    CRUDService.create_file Sample.env
      (Sample.upload "plan.KML" "image/png" Sample.kml_bytes) "abu" (Sample.world ∅)
    = (Ok (CRUDService.ImageFile, row), w') ∧
    name row = "00000000-0000-4000-8000-000000000000.geojson" ∧
    path row = "app/static/images/00000000-0000-4000-8000-000000000000.geojson" ∧
    imagefiles w' = [row] ∧ geofiles w' = [] ∧
    files w' !! ["app"; "static"; "images"; "00000000-0000-4000-8000-000000000000.geojson"]
      = Some (geojson_bytes Sample.env Sample.feature_collection).
Proof.
  assert (content (Sample.upload "plan.KML" "image/png" Sample.kml_bytes) ≠ []) as Hc.
  { intros H. discriminate H. }
  assert (listed_image "image/png") as Himg by (by left).
  split; [by repeat split|].
  destruct (proj2 (kml_extension_drives_conversion Sample.env
                     (Sample.upload "plan.KML" "image/png" Sample.kml_bytes) "abu"
                     (Sample.world ∅) Sample.feature_collection eq_refl Hc eq_refl)
              "image/png" eq_refl Himg)
    as (row & w' & Hrun & Hname & Hpath & _ & _ & Hi & Hg & Hfile).
  exists row, w'. split; [exact Hrun|]. split; [exact Hname|]. split; [exact Hpath|].
  split; [exact Hi|]. split; [exact Hg|exact Hfile].
Defined.

(** ** Uploads served together *)

(** [create_file] and a request with one file, as the runs they are cut
    into. *)
Lemma create_file_cut E f i w :
  CRUDService.create_file E f i w
  = (do file_path <- FileHandler.save_file E f; CRUDService.record_file f i file_path) w.
Proof. reflexivity. Qed.

Lemma upload_file_cut E file i w :
  Routers.upload_file E [file] i w
  = (do file_path <- Routers.upload_begin E file i; Routers.upload_end file i file_path) w.
Proof.
  unfold Routers.upload_file, Routers.upload_begin, Routers.upload_end.
  cbn [Routers.upload_loop].
  destruct (mime_in (upload_content_type file) ALLOWED_MIME_TYPES); cbn [negb]; [|done].
  unfold bind. rewrite file_exists_spec.
  destruct (owned _ i) as [|r0 rs]; [|done].
  rewrite create_file_cut. unfold bind.
  destruct (FileHandler.save_file E file w) as [[p|e] w1]; [|done].
  destruct (CRUDService.record_file file i p w1) as [[saved|e] w2]; [|done].
  by destruct (mime_in (upload_content_type file) GEO_MIME_TYPES).
Qed.

Lemma geo_is_allowed ct :
  mime_in ct GEO_MIME_TYPES = true → mime_in ct ALLOWED_MIME_TYPES = true.
Proof.
  destruct ct as [s|]; [|done]. rewrite mime_in_geo, mime_in_allowed.
  unfold listed_geo, listed_allowed. tauto.
Qed.

Lemma upload_begin_plain E f i w :
  mime_in (upload_content_type f) GEO_MIME_TYPES = true →
  owned (geofiles w) i = [] →
  extension f ≠ "" → content f ≠ [] → FileHandler.is_kml f = false →
  Routers.upload_begin E f i w =
  (Ok (allocated f w),
   set_store (<[allocated f w := content f]> (files w))
     [OpWrite (allocated f w); OpWrite (allocated f w)] (tick w)).
Proof.
  intros Hgeo Hfree Hext Hc Hk. unfold Routers.upload_begin.
  rewrite (geo_is_allowed _ Hgeo), Hgeo. cbn [negb]. unfold bind.
  rewrite file_exists_spec. cbn [CRUDService.table]. rewrite Hfree.
  by apply save_file_plain.
Qed.

Lemma upload_end_geo f i p w data :
  mime_in (upload_content_type f) GEO_MIME_TYPES = true →
  files w !! p = Some data →
  ∃ row, Routers.upload_end f i p w
         = (Ok ([row], []), CRUDService.set_table CRUDService.GeoFile
                              (geofiles w ++ [row]) (tick w)) ∧
         institution_id row = i.
Proof.
  intros Hgeo Hp. unfold Routers.upload_end, CRUDService.record_file.
  rewrite Hgeo. unfold bind at 1 2. unfold Os.getsize. rewrite Hp.
  destruct (upload_content_type f) as [ct|]; [|discriminate Hgeo].
  unfold CRUDService.db_add, bind, Os.uuid4, ret. fold (next_uuid w). fold (tick w).
  cbn [snd CRUDService.table tick geofiles]. eexists. split; [reflexivity|]. reflexivity.
Qed.

(** C5 (the code departs from the claim).  The duplicate check and the
    insertion are not one step: of two uploads of a geo file for one
    institution that owns none, the second served while the first is
    suspended in [save_file], neither is rejected; both records are
    inserted, and the institution owns two GeoFiles.  (Served one after
    the other, the second is rejected: [at_most_one_file_per_kind].) *)
Theorem concurrent_uploads_duplicate E f1 f2 i w :
  owned (geofiles w) i = [] →
  mime_in (upload_content_type f1) GEO_MIME_TYPES = true →
  mime_in (upload_content_type f2) GEO_MIME_TYPES = true →
  extension f1 ≠ "" → content f1 ≠ [] → FileHandler.is_kml f1 = false →
  extension f2 ≠ "" → content f2 ≠ [] → FileHandler.is_kml f2 = false →
  ∃ r1 r2 w',
    Routers.upload_file_concurrently E f1 f2 i i w
    = (Ok (inr ([r1], []), inr ([r2], [])), w') ∧
    geofiles w' = geofiles w ++ [r1; r2] ∧
    owned (geofiles w') i = [r1; r2] ∧
    ¬ at_most_one w'.
Proof.
  intros Hfree Hg1 Hg2 He1 Hc1 Hk1 He2 Hc2 Hk2.
  unfold Routers.upload_file_concurrently, Routers.attempt, try_except.
  unfold bind at 1 2. rewrite upload_begin_plain by done. unfold ret at 1.
  set (p1 := allocated f1 w).
  set (w1 := set_store _ _ (tick w)).
  unfold bind at 1 2. rewrite upload_begin_plain by done. unfold ret at 1.
  set (p2 := allocated f2 w1).
  set (w2 := set_store _ _ (tick w1)).
  assert (∃ data, files w2 !! p1 = Some data) as [data1 Hp1].
  { subst w2 w1. cbn [files set_store tick].
    destruct (decide (p2 = p1)) as [->|Hne].
    - rewrite lookup_insert_eq. eauto.
    - rewrite lookup_insert_ne by done. rewrite lookup_insert_eq. eauto. }
  destruct (upload_end_geo f1 i p1 w2 data1 Hg1 Hp1) as (r1 & Hend1 & Hi1).
  unfold bind at 1 2. rewrite Hend1. unfold ret at 1 2.
  set (w3 := CRUDService.set_table _ _ (tick w2)).
  assert (files w3 !! p2 = Some (content f2)) as Hp2.
  { subst w3 w2. cbn [files CRUDService.set_table with_tables set_store tick].
    apply lookup_insert_eq. }
  destruct (upload_end_geo f2 i p2 w3 (content f2) Hg2 Hp2) as (r2 & Hend2 & Hi2).
  unfold bind at 1 2. rewrite Hend2. unfold ret.
  assert (geofiles w2 = geofiles w) as Hgeo2 by reflexivity.
  assert (geofiles w3 = geofiles w ++ [r1]) as Hgeo3.
  { subst w3. cbn [geofiles CRUDService.set_table with_tables tick]. by rewrite Hgeo2. }
  set (w4 := CRUDService.set_table _ _ (tick w3)).
  assert (geofiles w4 = geofiles w ++ [r1; r2]) as Hgeo4.
  { subst w4. cbn [geofiles CRUDService.set_table with_tables tick].
    by rewrite Hgeo3, <- app_assoc. }
  assert (owned (geofiles w4) i = [r1; r2]) as Howned.
  { rewrite Hgeo4, owned_app, Hfree. unfold owned. cbn [List.filter app].
    by rewrite Hi1, Hi2, String.eqb_refl. }
  exists r1, r2, w4. split; [reflexivity|]. split; [done|]. split; [done|].
  intros Hinv. destruct (Hinv i) as [Hle _]. rewrite Howned in Hle.
  cbn [length] in Hle. lia.
Qed.

Lemma concurrent_uploads_duplicate_witness :
  at_most_one Sample.campus ∧
  owned (geofiles Sample.campus) "kano" = [] ∧
  ∃ r1 r2 w',
    Routers.upload_file_concurrently Sample.env
      (Sample.upload "map.geojson" "application/geo+json" Sample.junk_bytes)
      (Sample.upload "plan.geojson" "application/geo+json" Sample.junk_bytes)
      "kano" "kano" Sample.campus
    = (Ok (inr ([r1], []), inr ([r2], [])), w') ∧
    owned (geofiles w') "kano" = [r1; r2] ∧ ¬ at_most_one w'.
Proof.
  split.
  { intros j. unfold owned, Sample.campus, Sample.campus_row.
    cbn [geofiles imagefiles List.filter institution_id].
    destruct (String.eqb "abu" j); cbn [List.length]; lia. }
  split; [reflexivity|].
  assert (extension (Sample.upload "map.geojson" "application/geo+json" Sample.junk_bytes)
          ≠ "") as He1.
  { intros H. vm_compute in H. discriminate H. }
  assert (extension (Sample.upload "plan.geojson" "application/geo+json" Sample.junk_bytes)
          ≠ "") as He2.
  { intros H. vm_compute in H. discriminate H. }
  assert (Sample.junk_bytes ≠ []) as Hc.
  { intros H. discriminate H. }
  destruct (concurrent_uploads_duplicate Sample.env
              (Sample.upload "map.geojson" "application/geo+json" Sample.junk_bytes)
              (Sample.upload "plan.geojson" "application/geo+json" Sample.junk_bytes)
              "kano" Sample.campus eq_refl eq_refl eq_refl He1 Hc eq_refl He2 Hc eq_refl)
    as (r1 & r2 & w' & Hrun & _ & Howned & Hbroken).
  exists r1, r2, w'. split; [exact Hrun|]. split; [exact Howned|exact Hbroken].
Defined.

(* ===================================================================== *)
(** * Further properties of the services *)
(* ===================================================================== *)

(** ** Paths and the strings that name them *)

Lemma split_app_sep c a b :
  Str.mem c a = false → Str.split c (a +:+ String c b) = a :: Str.split c b.
Proof.
  induction a as [|x a IH]; simpl.
  - intros _. by rewrite Ascii.eqb_refl.
  - intros H. apply orb_false_iff in H as [Hx Ha]. rewrite Hx, IH by done. done.
Qed.

Lemma split_join p :
  p ≠ [] → Forall (fun s => Str.mem "/" s = false) p →
  Str.split "/" (Str.join "/" p) = p.
Proof.
  induction p as [|x p IH]; [done|]. intros _ Hall.
  apply Forall_cons in Hall as [Hx Hp]. destruct p as [|y p].
  - simpl. by apply split_single.
  - change (Str.join "/" (x :: y :: p)) with (x +:+ String "/" (Str.join "/" (y :: p))).
    rewrite split_app_sep by done. by rewrite IH.
Qed.

Lemma plain_not_anchor s : plain_name s → Pathlib.is_anchor s = false.
Proof.
  intros (Hs & _ & _). unfold Pathlib.is_anchor.
  destruct (String.eqb_spec s "/") as [->|_]; [discriminate Hs|].
  destruct (String.eqb_spec s "//") as [->|_]; [discriminate Hs|]. done.
Qed.

Lemma join_head x p :
  x ≠ "" → ∃ a rest, x = String a rest ∧ ∃ tail, Str.join "/" (x :: p) = String a tail.
Proof.
  intros Hx. destruct x as [|a rest]; [done|]. exists a, rest. split; [done|].
  destruct p; simpl; by eexists.
Qed.

Lemma filter_plain p :
  Forall plain_name p → filter (fun part => Is_true (Pathlib.keep_part part)) p = p.
Proof.
  induction 1 as [|x p Hx Hp IH]; [done|].
  rewrite filter_cons, IH. destruct Hx as (_ & Hne & Hdot).
  apply String.eqb_neq in Hne, Hdot.
  rewrite decide_True; [done|]. unfold Pathlib.keep_part. by rewrite Hne, Hdot.
Qed.

Lemma plain_no_slash p :
  Forall plain_name p → Forall (fun s => Str.mem "/" s = false) p.
Proof. intros H. eapply Forall_impl; [exact H|]. by intros s (Hs & _). Qed.

(** [Path(str(p)) == p] for a relative path of plain components. *)
Lemma of_string_to_string p :
  p ≠ [] → Forall plain_name p → Pathlib.of_string (Pathlib.to_string p) = p.
Proof.
  intros Hne Hall. destruct p as [|x p]; [done|].
  pose proof Hall as Hall'. apply Forall_cons in Hall' as [Hx Hp].
  unfold Pathlib.to_string. rewrite plain_not_anchor by done.
  unfold Pathlib.of_string.
  rewrite split_join by (done || by apply plain_no_slash).
  rewrite filter_plain by done.
  destruct Hx as (Hsl & Hx & _).
  destruct (join_head x p Hx) as (a & rest & -> & tail & ->).
  simpl in Hsl. apply orb_false_iff in Hsl as [Ha _]. rewrite Ascii.eqb_sym in Ha.
  unfold Pathlib.anchor_of. cbn [Str.startswith]. by rewrite Ha.
Qed.

Lemma last_split_plain p x :
  Forall plain_name (p ++ [x]) →
  last (Str.split "/" (Pathlib.to_string (p ++ [x]))) = Some x.
Proof.
  intros Hall. assert (p ++ [x] ≠ []) as Hne by (by destruct p).
  destruct (p ++ [x]) as [|y q] eqn:Hq; [done|].
  pose proof Hall as Hall'. apply Forall_cons in Hall' as [Hy _].
  unfold Pathlib.to_string. rewrite plain_not_anchor by done.
  rewrite split_join by (done || by apply plain_no_slash).
  rewrite <- Hq. apply last_snoc.
Qed.

Lemma upload_dir_plain f : Forall plain_name (upload_dir f).
Proof.
  unfold upload_dir. destruct (mime_in _ _).
  - rewrite GEO_JSON_DIR_parts. repeat constructor; done.
  - rewrite IMAGE_DIR_parts. repeat constructor; done.
Qed.

Lemma stored_path_plain f nm : plain_name nm → Forall plain_name (upload_dir f ++ [nm]).
Proof. intros Hnm. apply Forall_app. split; [apply upload_dir_plain|by constructor]. Qed.

Lemma stored_path_round_trip f nm :
  plain_name nm →
  Pathlib.of_string (Pathlib.to_string (upload_dir f ++ [nm])) = upload_dir f ++ [nm].
Proof.
  intros Hnm. apply of_string_to_string; [by destruct (upload_dir f)|].
  by apply stored_path_plain.
Qed.

Lemma stored_plain w sfx : ext_shape sfx → plain_name (next_uuid w +:+ sfx).
Proof. intros H. apply stored_name_plain; [apply uuid4_shape|done]. Qed.

Lemma ext_shape_no_slash ext : ext_shape ext → Str.mem "/" ext = false.
Proof. intros (e & -> & _ & _ & Hsl). simpl. exact Hsl. Qed.

(** [str.lower] read backwards: a lowered text that begins with [x]
    comes from an ASCII character that lowers to [x], or, [x] being
    ["k"], from the Kelvin sign. *)
Lemma lower_cons_inv s x t :
  Str.lower s = Some (String x t) →
  (∃ c s', s = String c s' ∧ Str.is_ascii c = true ∧ Str.lower_ascii c = x ∧
           Str.lower s' = Some t) ∨
  (∃ s', s = Str.kelvin +:+ s' ∧ x = "k"%char ∧ Str.lower s' = Some t).
Proof.
  destruct s as [|c s]; [intros H; discriminate H|]. cbn [Str.lower].
  destruct (Str.is_ascii c) eqn:Hc.
  - destruct (Str.lower s) as [t'|] eqn:Hs; [|intros H; discriminate H].
    intros [= <- <-]. left. by exists c, s.
  - destruct s as [|c1 [|c2 s]]; try (intros H; discriminate H).
    destruct (Ascii.eqb_spec c "226") as [->|]; [|intros H; discriminate H].
    destruct (Ascii.eqb_spec c1 "132") as [->|]; [|intros H; discriminate H].
    destruct (Ascii.eqb_spec c2 "170") as [->|]; [|intros H; discriminate H].
    cbn [andb]. destruct (Str.lower s) as [t'|] eqn:Hs; [|intros H; discriminate H].
    intros [= <- <-]. right. by exists s.
Qed.

Lemma lower_nil_inv s : Str.lower s = Some "" → s = "".
Proof.
  destruct s as [|c s]; [done|]. cbn [Str.lower].
  destruct (Str.is_ascii c).
  - destruct (Str.lower s); intros H; discriminate H.
  - destruct s as [|c1 [|c2 s]]; try (intros H; discriminate H).
    destruct (_ && _); [|intros H; discriminate H].
    destruct (Str.lower s); intros H; discriminate H.
Qed.

Ltac lower_ascii_cases c :=
  destruct c as [[] [] [] [] [] [] [] []]; vm_compute; intros H;
  first [discriminate H | by left | by right].

Lemma lower_ascii_k c : Str.lower_ascii c = "k"%char → c = "k"%char ∨ c = "K"%char.
Proof. lower_ascii_cases c. Qed.

Lemma lower_ascii_m c : Str.lower_ascii c = "m"%char → c = "m"%char ∨ c = "M"%char.
Proof. lower_ascii_cases c. Qed.

Lemma lower_ascii_l c : Str.lower_ascii c = "l"%char → c = "l"%char ∨ c = "L"%char.
Proof. lower_ascii_cases c. Qed.

(** The texts that [str.lower] sends to ["kml"]. *)
Lemma lower_kml e : Str.lower e = Some "kml" ↔ kml_letters e.
Proof.
  unfold kml_letters. split.
  - intros He.
    assert (∃ k e1, e = k +:+ e1 ∧
              (k = "k" ∨ k = "K" ∨ k = Str.kelvin) ∧ Str.lower e1 = Some "ml")
      as (k & e1 & -> & Hk & He1).
    { apply lower_cons_inv in He as [(c & s' & -> & _ & Hc & Hs)|(s' & -> & _ & Hs)].
      - exists (String c ""), s'. split; [done|]. split; [|done].
        apply lower_ascii_k in Hc as [->| ->]; auto.
      - exists Str.kelvin, s'. auto. }
    apply lower_cons_inv in He1 as [(c & e2 & -> & _ & Hc & He2)|(s' & _ & Hx & _)];
      [|discriminate Hx].
    apply lower_cons_inv in He2 as [(c' & e3 & -> & _ & Hc' & He3)|(s' & _ & Hx & _)];
      [|discriminate Hx].
    apply lower_nil_inv in He3 as ->.
    exists k, (String c ""), (String c' ""). split; [reflexivity|].
    split; [done|].
    apply lower_ascii_m in Hc as [->| ->]; apply lower_ascii_l in Hc' as [->| ->]; auto.
  - intros (k & m & l & -> & Hk & Hm & Hl).
    destruct Hk as [->|[->| ->]]; destruct Hm as [->| ->]; destruct Hl as [->| ->];
      reflexivity.
Qed.

Lemma kml_letters_shape e : kml_letters e → e ≠ "" ∧ Str.mem "." e = false.
Proof.
  intros (k & m & l & -> & Hk & Hm & Hl).
  destruct Hk as [->|[->| ->]]; destruct Hm as [->| ->]; destruct Hl as [->| ->];
    by split.
Qed.

Lemma universal_newlines_id s :
  Str.mem "013"%char s = false → Py.universal_newlines s = s.
Proof.
  induction s as [|c s IH]; [done|]. cbn [Str.mem Py.universal_newlines].
  intros H. apply orb_false_iff in H as [Hc Hs]. rewrite Hc. by rewrite IH.
Qed.

Lemma text_of_dump s :
  Py.utf8_valid (list_byte_of_string s) = true → Str.mem "013"%char s = false →
  text_of (list_byte_of_string s) = Some s.
Proof.
  intros Hv Hcr. unfold text_of. rewrite Hv, string_of_list_byte_of_string.
  by rewrite universal_newlines_id.
Qed.

(** ** Uploads told apart by their names *)

(** X4.  An upload is converted exactly when the final component of its
    file name is a non-empty stem, a dot, and the letters [kml], each in
    either case, the first one possibly written as the Kelvin sign
    (U+212A, which [str.lower] turns into [k]): [plan.KML] and
    [a.tar.kml] are, [.kml] (a hidden file without suffix) and
    [plan.kml.txt] are not. *)
Theorem is_kml_iff f :
  FileHandler.is_kml f = true ↔
  ∃ stem e, Pathlib.name (Pathlib.of_string (filename f)) = stem +:+ "." +:+ e ∧
            stem ≠ "" ∧ kml_letters e.
Proof.
  unfold FileHandler.is_kml, Pathlib.suffix.
  set (nm := Pathlib.name (Pathlib.of_string (filename f))).
  pose proof (name_no_slash (filename f)) as Hsl. fold nm in Hsl.
  split.
  - intros Hk.
    assert (Pathlib.suffix_of_name nm ≠ "") as Hne.
    { intros Heq. rewrite Heq in Hk. discriminate Hk. }
    destruct (suffix_of_name_shape nm Hsl Hne) as ((e & He & _) & stem & Hstem & Hnm).
    rewrite He in Hk, Hnm. exists stem, e. split; [done|]. split; [done|].
    apply lower_kml. cbn [Str.lower] in Hk. change (Str.is_ascii ".") with true in Hk.
    cbv iota in Hk. destruct (Str.lower e) as [t|]; [|discriminate Hk].
    cbn [option_map] in Hk. apply String.eqb_eq in Hk. by injection Hk as ->.
  - intros (stem & e & Hnm & Hstem & He).
    change (stem +:+ "." +:+ e) with (stem +:+ String "." e) in Hnm.
    destruct (kml_letters_shape e He) as [Hne Hdot].
    rewrite Hnm, suffix_of_name_app by done.
    apply lower_kml in He. cbn [Str.lower]. change (Str.is_ascii ".") with true.
    cbv iota. by rewrite He.
Qed.

(** ** What is saved, and what is read back *)

(** X1.  A [.kml] upload that converts is read back by
    [load_geojson_content], at the path [save_file] returned, as the value
    [json.loads] finds in the text [json.dumps] wrote (a text that is
    UTF-8 and has no carriage return, as [json.dumps] produces it): the
    dictionary itself when it has a ["type"] key, the 400 of an invalid
    structure otherwise. *)
Theorem saved_kml_loads_back E f w d v :
  FileHandler.is_kml f = true → content f ≠ [] →
  conversion E (content f) = inr d →
  Py.utf8_valid (list_byte_of_string (json_dumps E d)) = true →
  Str.mem "013"%char (json_dumps E d) = false →
  json_loads E (json_dumps E d) = inr v →
  ∃ p w1, FileHandler.save_file E f w = (Ok p, w1) ∧
          FileHandler.load_geojson_content E p w1
          = (if Py.is_dict v && Py.has_key "type" v then Ok v
             else Raise (HTTPException 400
                    "Invalid GeoJSON structure: Missing 'type' key or not a dictionary."),
             w1).
Proof.
  intros Hk Hc Hconv Hv Hcr Hl. rewrite save_file_kml by done. rewrite Hconv.
  eexists _, _. split; [reflexivity|].
  rewrite load_geojson_content_spec. cbn [files set_store].
  rewrite lookup_insert_eq. unfold geojson_bytes. rewrite text_of_dump by done.
  rewrite Hl. reflexivity.
Qed.

Lemma saved_kml_loads_back_witness :
  (FileHandler.is_kml (Sample.upload "campus.kml" "application/vnd.google-earth.kml+xml"
                         Sample.kml_bytes) = true ∧
   conversion Sample.env Sample.kml_bytes = inr Sample.feature_collection ∧
   json_loads Sample.env (json_dumps Sample.env Sample.feature_collection)
   = inr Sample.feature_collection) ∧
  ∃ p w1,
    FileHandler.save_file Sample.env
      (Sample.upload "campus.kml" "application/vnd.google-earth.kml+xml" Sample.kml_bytes)
      (Sample.world ∅) = (Ok p, w1) ∧
    FileHandler.load_geojson_content Sample.env p w1 = (Ok Sample.feature_collection, w1).
Proof.
  assert (content (Sample.upload "campus.kml" "application/vnd.google-earth.kml+xml"
                     Sample.kml_bytes) ≠ []) as Hc.
  { intros H. discriminate H. }
  assert (Py.utf8_valid
            (list_byte_of_string (json_dumps Sample.env Sample.feature_collection)) = true)
    as Hv.
  { vm_compute. reflexivity. }
  assert (Str.mem "013"%char (json_dumps Sample.env Sample.feature_collection) = false)
    as Hcr.
  { vm_compute. reflexivity. }
  assert (json_loads Sample.env (json_dumps Sample.env Sample.feature_collection)
          = inr Sample.feature_collection) as Hl.
  { vm_compute. reflexivity. }
  split; [by repeat split|].
  destruct (saved_kml_loads_back Sample.env
              (Sample.upload "campus.kml" "application/vnd.google-earth.kml+xml"
                 Sample.kml_bytes)
              (Sample.world ∅) Sample.feature_collection Sample.feature_collection
              eq_refl Hc eq_refl Hv Hcr Hl) as (p & w1 & Hsave & Hload).
  exists p, w1. split; [exact Hsave|exact Hload].
Defined.

(** X2.  Whatever the file name the client sent and whatever the outcome,
    [save_file] touches the store only at paths [dir/<uuid><suffix>], where
    [dir] is the directory of the content type, [<uuid>] the identifier
    drawn for this call and [<suffix>] holds no separator; every other
    stored file keeps its content. *)
Theorem save_file_confined E f w :
  ∃ ops, journal (snd (FileHandler.save_file E f w)) = journal w ++ ops ∧
    (∀ op p, op ∈ ops → op_writes op p →
       ∃ suffix, p = upload_dir f ++ [next_uuid w +:+ suffix] ∧
                 Str.mem "/" (next_uuid w +:+ suffix) = false) ∧
    (∀ q, (∀ suffix, q ≠ upload_dir f ++ [next_uuid w +:+ suffix]) →
       files (snd (FileHandler.save_file E f w)) !! q = files w !! q).
Proof.
  assert (∀ suffix, Str.mem "/" suffix = false →
            Str.mem "/" (next_uuid w +:+ suffix) = false) as Hname.
  { intros suffix Hs. rewrite mem_app, Hs, orb_false_r.
    apply uuid_shape_no_slash, uuid4_shape. }
  destruct (String.eqb_spec (extension f) "") as [Hext|Hext].
  { rewrite save_file_no_extension by done. exists []. cbn [snd].
    split; [by rewrite app_nil_r|]. split; [|done].
    intros op p Hop. by apply elem_of_nil in Hop. }
  pose proof (suffix_shape (filename f) Hext) as Hshape. fold (extension f) in Hshape.
  apply ext_shape_no_slash in Hshape.
  destruct (content f) as [|b data] eqn:Hc.
  { rewrite save_file_empty by done. exists []. cbn [snd tick journal files].
    split; [by rewrite app_nil_r|]. split; [|done].
    intros op p Hop. by apply elem_of_nil in Hop. }
  assert (∀ q, (∀ suffix, q ≠ upload_dir f ++ [next_uuid w +:+ suffix]) →
            q ≠ allocated f w ∧ q ≠ converted f w) as Hoff.
  { intros q Hq. split; intros ->.
    - by apply (Hq (extension f)).
    - by apply (Hq ".geojson"). }
  assert (∀ ops, Forall (fun op => op = OpWrite (allocated f w) ∨
                                   op = OpWrite (converted f w) ∨
                                   op = OpRemove (allocated f w)) ops →
            ∀ op p, op ∈ ops → op_writes op p →
            ∃ suffix, p = upload_dir f ++ [next_uuid w +:+ suffix] ∧
                      Str.mem "/" (next_uuid w +:+ suffix) = false) as Hops.
  { intros ops Hall op p Hop Hw. rewrite Forall_forall in Hall.
    destruct (Hall op Hop) as [->|[->| ->]]; simpl in Hw; subst p.
    - exists (extension f). split; [reflexivity|by apply Hname].
    - exists ".geojson". split; [reflexivity|by apply Hname].
    - exists (extension f). split; [reflexivity|by apply Hname]. }
  destruct (FileHandler.is_kml f) eqn:Hk.
  - rewrite save_file_kml by (done || by rewrite Hc). rewrite Hc.
    destruct (conversion E (b :: data)) as [e|d]; cbn [snd set_store journal files tick];
      eexists; (split; [reflexivity|]); split.
    + apply Hops.
      repeat (apply Forall_cons; split;
                [first [by left|by right; left|by right; right]|]).
      apply Forall_nil_2.
    + intros q Hq. destruct (Hoff q Hq) as [Hq1 Hq2]. by rewrite lookup_delete_ne.
    + apply Hops.
      repeat (apply Forall_cons; split;
                [first [by left|by right; left|by right; right]|]).
      apply Forall_nil_2.
    + intros q Hq. destruct (Hoff q Hq) as [Hq1 Hq2].
      by rewrite lookup_insert_ne, lookup_delete_ne.
  - rewrite save_file_plain by (done || by rewrite Hc).
    cbn [snd set_store journal files tick]. eexists. split; [reflexivity|]. split.
    + apply Hops.
      repeat (apply Forall_cons; split;
                [first [by left|by right; left|by right; right]|]).
      apply Forall_nil_2.
    + intros q Hq. destruct (Hoff q Hq) as [Hq1 Hq2]. by rewrite lookup_insert_ne.
Qed.




(** ** Deleting and overwriting stored files *)

Lemma delete_file_files p w :
  files (snd (FileHandler.delete_file p w)) = delete p (files w).
Proof.
  rewrite delete_file_spec. cbn [snd].
  destruct (files w !! p) eqn:Hp; [done|]. by rewrite delete_id.
Qed.

(** X5.  [delete_file] is idempotent: once it has returned, the store is
    without the path and otherwise as it was, and a second call finds
    nothing to remove, returns normally and changes nothing, as
    [file_exists] then answers [False]. *)
Theorem delete_file_idempotent p w w1 :
  FileHandler.delete_file p w = (Ok tt, w1) →
  files w1 = delete p (files w) ∧
  FileHandler.delete_file p w1 = (Ok tt, w1) ∧
  FileHandler.file_exists p w1 = (Ok false, w1).
Proof.
  intros Hrun. pose proof (delete_file_files p w) as Hfiles.
  rewrite Hrun in Hfiles. cbn [snd] in Hfiles. split; [exact Hfiles|].
  assert (files w1 !! p = None) as Hgone by (rewrite Hfiles; apply lookup_delete_eq).
  split.
  - rewrite delete_file_spec. by rewrite Hgone.
  - unfold FileHandler.file_exists, Os.path_exists. by rewrite Hgone.
Qed.

Lemma delete_file_idempotent_witness :
  files Sample.campus !! Sample.stored = Some Sample.kml_bytes ∧
  ∃ w1, FileHandler.delete_file Sample.stored Sample.campus = (Ok tt, w1) ∧
        files w1 !! Sample.stored = None ∧
        FileHandler.delete_file Sample.stored w1 = (Ok tt, w1) ∧
        FileHandler.file_exists Sample.stored w1 = (Ok false, w1).
Proof.
  split; [vm_compute; reflexivity|].
  assert (FileHandler.delete_file Sample.stored Sample.campus
          = (Ok tt, snd (FileHandler.delete_file Sample.stored Sample.campus))) as Hrun.
  { by rewrite delete_file_spec. }
  destruct (delete_file_idempotent Sample.stored Sample.campus _ Hrun)
    as (Hfiles & Hagain & Hexists).
  eexists. split; [exact Hrun|]. split; [|split; [exact Hagain|exact Hexists]].
  rewrite Hfiles. apply lookup_delete_eq.
Defined.

Lemma chunks_zero n : 0 < n → chunks 0 n = 0.
Proof. intros Hn. unfold chunks. apply Nat.div_small. lia. Qed.

Lemma chunks_step len n : 0 < n → 0 < len → chunks len n = S (chunks (len - n) n).
Proof.
  intros Hn Hlen. unfold chunks. destruct (Nat.le_gt_cases len n) as [Hle|Hgt].
  - replace (len - n) with 0 by lia.
    rewrite (Nat.div_small (0 + n - 1)) by lia.
    assert (len + n - 1 = (len - 1) + 1 * n) as -> by lia.
    rewrite Nat.div_add by lia. rewrite Nat.div_small by lia. lia.
  - assert (len + n - 1 = (len - n + n - 1) + 1 * n) as -> by lia.
    rewrite Nat.div_add by lia. lia.
Qed.

(** X6.  The read loop of [overwrite_file], for any chunk size [n > 0]:
    with the turns it is given it terminates normally, appends the bytes
    of the upload to the temporary file in their order, and does so in
    [ceil(len / n)] writes; an empty upload is not written at all. *)
Theorem copy_chunks_reassembles n rest tmp base w :
  0 < n → files w !! tmp = Some base →
  FileHandler.copy_chunks (S (length rest)) n rest tmp w
  = (Ok tt, set_store (<[tmp := base ++ rest]> (files w))
              (replicate (chunks (length rest) n) (OpWrite tmp)) w).
Proof.
  intros Hn. remember (S (length rest)) as fuel eqn:Hfuel.
  assert (length rest < fuel) as Hlt by lia. clear Hfuel.
  revert rest base w Hlt.
  induction fuel as [|fuel IH]; intros rest base w Hlt Hbase; [lia|].
  cbn [FileHandler.copy_chunks].
  destruct (take n rest) as [|b chunk] eqn:Htake.
  - apply take_nil_inv in Htake as ->; [|done]. simpl. rewrite chunks_zero by done.
    unfold ret. f_equal. apply World_eq; simpl; try done.
    + by rewrite app_nil_r, insert_id.
    + by rewrite app_nil_r.
  - assert (0 < length rest) as Hpos by (destruct rest; [by destruct n|simpl; lia]).
    unfold bind, Os.write. rewrite Hbase. cbn [default].
    rewrite (IH (drop n rest) (base ++ b :: chunk)).
    + rewrite length_drop, (chunks_step (length rest) n) by done.
      f_equal. apply World_eq; simpl; try done.
      * rewrite insert_insert_eq. rewrite <- Htake, <- app_assoc. by rewrite take_drop.
      * by rewrite <- app_assoc.
    + rewrite length_drop. lia.
    + simpl. by rewrite lookup_insert_eq.
Qed.

Lemma copy_chunks_reassembles_witness :
  (0 < 4 ∧ files (Sample.world {[ ["t.tmp"] := [] ]}) !! ["t.tmp"] = Some []) ∧
  FileHandler.copy_chunks 8 4 Sample.junk_bytes ["t.tmp"] (Sample.world {[ ["t.tmp"] := [] ]})
  = (Ok tt, set_store (<[ ["t.tmp"] := Sample.junk_bytes ]> {[ ["t.tmp"] := [] ]})
              [OpWrite ["t.tmp"]; OpWrite ["t.tmp"]]
              (Sample.world {[ ["t.tmp"] := [] ]})).
Proof.
  assert (0 < 4) as Hn by lia.
  assert (files (Sample.world {[ ["t.tmp"] := [] ]}) !! ["t.tmp"] = Some []) as Hbase.
  { vm_compute. reflexivity. }
  split; [by split|].
  exact (copy_chunks_reassembles 4 Sample.junk_bytes ["t.tmp"] []
           (Sample.world {[ ["t.tmp"] := [] ]}) Hn Hbase).
Defined.

(** X7.  What the target holds after an overwrite that the platform lets
    through (the temporary names are free and the final move is not
    refused): the bytes of the upload, whatever their number, for a file
    that is not named [*.kml]; the text of the converted dictionary for one
    that is and converts.  Nothing else in the store has changed. *)
Theorem overwrite_file_replaces_content E f target w :
  temp_path target w ≠ target → temp_geojson target w ≠ target →
  files w !! temp_path target w = None →
  files w !! temp_geojson target w = None →
  (∀ src, move_error E src target = None) →
  (FileHandler.is_kml f = false →
   ∃ w', FileHandler.overwrite_file E f target w = (Ok tt, w') ∧
         files w' = <[target := content f]> (files w)) ∧
  (∀ d, FileHandler.is_kml f = true → conversion E (content f) = inr d →
   ∃ w', FileHandler.overwrite_file E f target w = (Ok tt, w') ∧
         files w' = <[target := list_byte_of_string (json_dumps E d)]> (files w)).
Proof.
  intros Htmp Hout Hf1 Hf2 Hmove.
  destruct (overwrite_file_outcome E f target w) as [k Hk]. rewrite Hk.
  unfold overwrite_outcome. split.
  - intros Hkml. rewrite Hkml, Hmove. eexists. split; [reflexivity|].
    cbn [files set_store tick]. by rewrite delete_id.
  - intros d Hkml Hconv. rewrite Hkml, Hconv, Hmove. eexists. split; [reflexivity|].
    cbn [files set_store tick].
    by rewrite (delete_id (files w) (temp_path target w)), delete_id.
Qed.

Lemma overwrite_file_replaces_content_witness :
  (temp_path Sample.stored Sample.campus ≠ Sample.stored ∧
   temp_geojson Sample.stored Sample.campus ≠ Sample.stored ∧
   files Sample.campus !! temp_path Sample.stored Sample.campus = None ∧
   files Sample.campus !! temp_geojson Sample.stored Sample.campus = None ∧
   (∀ src, move_error Sample.env src Sample.stored = None) ∧
   FileHandler.is_kml (Sample.upload "map.geojson" "application/geo+json"
                         Sample.junk_bytes) = false) ∧
  ∃ w', FileHandler.overwrite_file Sample.env
          (Sample.upload "map.geojson" "application/geo+json" Sample.junk_bytes)
          Sample.stored Sample.campus = (Ok tt, w') ∧
        files w' = <[Sample.stored := Sample.junk_bytes]> (files Sample.campus).
Proof.
  assert (temp_path Sample.stored Sample.campus ≠ Sample.stored) as H1.
  { intros H. vm_compute in H. discriminate H. }
  assert (temp_geojson Sample.stored Sample.campus ≠ Sample.stored) as H2.
  { intros H. vm_compute in H. discriminate H. }
  assert (files Sample.campus !! temp_path Sample.stored Sample.campus = None) as H3.
  { vm_compute. reflexivity. }
  assert (files Sample.campus !! temp_geojson Sample.stored Sample.campus = None) as H4.
  { vm_compute. reflexivity. }
  assert (∀ src, move_error Sample.env src Sample.stored = None) as H5.
  { intros src. reflexivity. }
  split; [by repeat split|].
  exact (proj1 (overwrite_file_replaces_content Sample.env
                  (Sample.upload "map.geojson" "application/geo+json" Sample.junk_bytes)
                  Sample.stored Sample.campus H1 H2 H3 H4 H5) eq_refl).
Defined.

(** X8.  An upload without content is treated in two ways: [save_file]
    refuses it with the 400 "Empty file uploaded", while [overwrite_file]
    accepts it and leaves the target empty. *)
Theorem empty_upload_truncates_on_overwrite E f target w :
  content f = [] → extension f ≠ "" → FileHandler.is_kml f = false →
  temp_path target w ≠ target → files w !! temp_path target w = None →
  move_error E (temp_path target w) target = None →
  fst (FileHandler.save_file E f w) = Raise (HTTPException 400 "Empty file uploaded") ∧
  fst (FileHandler.overwrite_file E f target w) = Ok tt ∧
  files (snd (FileHandler.overwrite_file E f target w)) = <[target := []]> (files w).
Proof.
  intros Hc Hext Hkml Htmp Hf Hmove. split; [by rewrite save_file_empty|].
  destruct (overwrite_file_outcome E f target w) as [k Hk]. rewrite Hk.
  unfold overwrite_outcome. rewrite Hkml, Hmove, Hc. cbn [fst snd files set_store tick].
  split; [done|]. by rewrite delete_id.
Qed.

Lemma empty_upload_truncates_on_overwrite_witness :
  (content (Sample.upload "empty.geojson" "application/geo+json" []) = [] ∧
   extension (Sample.upload "empty.geojson" "application/geo+json" []) ≠ "" ∧
   FileHandler.is_kml (Sample.upload "empty.geojson" "application/geo+json" []) = false ∧
   temp_path Sample.stored Sample.campus ≠ Sample.stored ∧
   files Sample.campus !! temp_path Sample.stored Sample.campus = None) ∧
  fst (FileHandler.save_file Sample.env
         (Sample.upload "empty.geojson" "application/geo+json" []) Sample.campus)
  = Raise (HTTPException 400 "Empty file uploaded") ∧
  fst (FileHandler.overwrite_file Sample.env
         (Sample.upload "empty.geojson" "application/geo+json" [])
         Sample.stored Sample.campus) = Ok tt ∧
  files (snd (FileHandler.overwrite_file Sample.env
                (Sample.upload "empty.geojson" "application/geo+json" [])
                Sample.stored Sample.campus))
  = <[Sample.stored := []]> (files Sample.campus).
Proof.
  assert (extension (Sample.upload "empty.geojson" "application/geo+json" []) ≠ "") as H1.
  { intros H. vm_compute in H. discriminate H. }
  assert (temp_path Sample.stored Sample.campus ≠ Sample.stored) as H2.
  { intros H. vm_compute in H. discriminate H. }
  assert (files Sample.campus !! temp_path Sample.stored Sample.campus = None) as H3.
  { vm_compute. reflexivity. }
  split; [by repeat split|].
  exact (empty_upload_truncates_on_overwrite Sample.env
           (Sample.upload "empty.geojson" "application/geo+json" [])
           Sample.stored Sample.campus eq_refl H1 eq_refl H2 H3 eq_refl).
Defined.

(** ** The record of a stored file *)

Lemma save_file_ok E f w p w1 :
  FileHandler.save_file E f w = (Ok p, w1) →
  ∃ sfx data,
    p = upload_dir f ++ [next_uuid w +:+ sfx] ∧ ext_shape sfx ∧
    files w1 !! p = Some data ∧
    institutions w1 = institutions w ∧ geofiles w1 = geofiles w ∧
    imagefiles w1 = imagefiles w ∧ entropy w1 = entropy w ∧ drawn w1 = S (drawn w) ∧
    extension f ≠ "" ∧
    (if FileHandler.is_kml f
     then ∃ d, conversion E (content f) = inr d ∧ data = geojson_bytes E d ∧
               sfx = ".geojson" ∧
               files w1 = <[p := data]> (delete (allocated f w) (files w))
     else sfx = extension f ∧ data = content f ∧ files w1 = <[p := data]> (files w)).
Proof.
  destruct (String.eqb_spec (extension f) "") as [Hext|Hext].
  { rewrite save_file_no_extension by done. intros H. discriminate H. }
  destruct (content f) as [|b data] eqn:Hc.
  { rewrite save_file_empty by done. intros H. discriminate H. }
  pose proof (suffix_shape (filename f) Hext) as Hshape. fold (extension f) in Hshape.
  destruct (FileHandler.is_kml f) eqn:Hk.
  - rewrite save_file_kml by (done || by rewrite Hc). rewrite Hc.
    destruct (conversion E (b :: data)) as [e|d] eqn:Hconv; [intros H; discriminate H|].
    intros [= <- <-]. exists ".geojson", (geojson_bytes E d).
    split; [reflexivity|]. split; [exists "geojson"; by repeat split|].
    cbn [files set_store tick institutions geofiles imagefiles entropy drawn].
    rewrite lookup_insert_eq. do 7 (split; [done|]). by exists d.
  - rewrite save_file_plain by (done || by rewrite Hc). intros [= <- <-].
    exists (extension f), (b :: data). split; [reflexivity|]. split; [done|].
    cbn [files set_store tick institutions geofiles imagefiles entropy drawn].
    rewrite lookup_insert_eq, Hc. by repeat split.
Qed.

Lemma create_file_ok E f i w m row w' :
  CRUDService.create_file E f i w = (Ok (m, row), w') →
  ∃ p w1 data ct,
    FileHandler.save_file E f w = (Ok p, w1) ∧ files w1 !! p = Some data ∧
    upload_content_type f = Some ct ∧ m = kind f ∧
    row = {| id := next_uuid w1; name := Pathlib.name p; content_type := ct;
             size := Z.of_nat (length data);
             url := ("localhost:8000/api/v1/files/" +:+ file_type m +:+ "/")
                    +:+ Pathlib.name p;
             path := Pathlib.to_string p; institution_id := i |} ∧
    w' = CRUDService.set_table m (CRUDService.table m w1 ++ [row]) (tick w1).
Proof.
  unfold CRUDService.create_file. unfold bind at 1.
  destruct (FileHandler.save_file E f w) as [[p|e] w1] eqn:Hsave; [|intros H; discriminate H].
  unfold bind at 1. unfold Os.getsize.
  destruct (files w1 !! p) as [data|] eqn:Hp; [|intros H; discriminate H].
  destruct (upload_content_type f) as [ct|] eqn:Hct; [|intros H; discriminate H].
  unfold CRUDService.db_add, bind, Os.uuid4, ret. fold (next_uuid w1). fold (tick w1).
  intros Heq. exists p, w1, data, ct. do 3 (split; [done|]).
  unfold kind. rewrite Hct.
  destruct (mime_in (Some ct) GEO_MIME_TYPES);
    injection Heq as <- <- <-; repeat split; reflexivity.
Qed.

(** The path recorded for a created file, read back, is where it lies. *)
Lemma created_row_on_disk E f i w m row w' :
  CRUDService.create_file E f i w = (Ok (m, row), w') →
  ∃ data, files w' !! Pathlib.of_string (path row) = Some data ∧
          size row = Z.of_nat (length data).
Proof.
  intros Hrun.
  apply create_file_ok in Hrun as (p & w1 & data & ct & Hsave & Hp & Hct & -> & -> & ->).
  apply save_file_ok in Hsave as (sfx & data' & -> & Hsfx & _).
  cbn [path size]. rewrite stored_path_round_trip by by apply stored_plain.
  exists data. split; [|done]. by destruct (kind f).
Qed.

(** X9.  The record [create_file] inserts describes the file it stored:
    it goes to the table of the content type and carries that content
    type and the institution; its [path], read back as a path, is where
    the bytes lie, directly under the directory of the content type; its
    [size] is their number; its [name] is the final component of the path
    and holds no separator; and its [url] is the route of the read
    endpoint for that table and that name. *)
Theorem create_file_row_describes_file E f i w m row w' :
  CRUDService.create_file E f i w = (Ok (m, row), w') →
  (m = CRUDService.GeoFile ↔ mime_in (upload_content_type f) GEO_MIME_TYPES = true) ∧
  Some (content_type row) = upload_content_type f ∧ institution_id row = i ∧
  (∃ data, files w' !! Pathlib.of_string (path row) = Some data ∧
           size row = Z.of_nat (length data)) ∧
  Pathlib.parent (Pathlib.of_string (path row))
  = (if mime_in (upload_content_type f) GEO_MIME_TYPES
     then FileHandler.GEO_JSON_DIR else FileHandler.IMAGE_DIR) ∧
  Pathlib.name (Pathlib.of_string (path row)) = name row ∧
  Str.mem "/" (name row) = false ∧
  url row = ("localhost:8000/api/v1/files/" +:+ file_type m +:+ "/") +:+ name row.
Proof.
  intros Hrun. pose proof (created_row_on_disk _ _ _ _ _ _ _ Hrun) as Hdisk.
  apply create_file_ok in Hrun as (p & w1 & data & ct & Hsave & Hp & Hct & -> & Hrow & ->).
  apply save_file_ok in Hsave as (sfx & data' & -> & Hsfx & Hp' & _).
  pose proof (stored_plain w sfx Hsfx) as Hplain.
  split.
  { unfold kind. by destruct (mime_in (upload_content_type f) GEO_MIME_TYPES). }
  split; [by rewrite Hrow|]. split; [by rewrite Hrow|]. split; [exact Hdisk|].
  rewrite Hrow. cbn [path name url].
  rewrite stored_path_round_trip by done.
  rewrite name_snoc by by apply plain_not_anchor.
  rewrite parent_snoc by by apply plain_not_anchor.
  split; [done|]. split; [done|]. split; [by destruct Hplain|done].
Qed.

Lemma create_file_row_describes_file_witness :
  ∃ row w',
    CRUDService.create_file Sample.env
      (Sample.upload "map.geojson" "application/geo+json" Sample.junk_bytes) "abu"
      (Sample.world ∅) = (Ok (CRUDService.GeoFile, row), w') ∧
    (∃ data, files w' !! Pathlib.of_string (path row) = Some data ∧
             size row = Z.of_nat (length data)) ∧
    Pathlib.parent (Pathlib.of_string (path row)) = FileHandler.GEO_JSON_DIR ∧
    url row = "localhost:8000/api/v1/files/geo/" +:+ name row.
Proof.
  assert (∃ row, fst (CRUDService.create_file Sample.env
                        (Sample.upload "map.geojson" "application/geo+json"
                           Sample.junk_bytes) "abu" (Sample.world ∅))
                 = Ok (CRUDService.GeoFile, row)) as [row Hfst].
  { eexists. vm_compute. reflexivity. }
  destruct (CRUDService.create_file Sample.env
              (Sample.upload "map.geojson" "application/geo+json" Sample.junk_bytes)
              "abu" (Sample.world ∅)) as [r w'] eqn:Hrun.
  simpl in Hfst. subst r.
  destruct (create_file_row_describes_file _ _ _ _ _ _ _ Hrun)
    as (_ & _ & _ & Hdata & Hparent & _ & _ & Hurl).
  exists row, w'. split; [reflexivity|]. split; [exact Hdata|].
  split; [exact Hparent|exact Hurl].
Defined.

Lemma find_app_fresh (q : FileRow → bool) rows row :
  (∀ r, r ∈ rows → q r = false) → q row = true →
  List.find q (rows ++ [row]) = Some row.
Proof.
  intros Hfresh Hrow. induction rows as [|r rows IH]; simpl.
  - by rewrite Hrow.
  - rewrite (Hfresh r) by left. apply IH. intros r' Hr'. apply Hfresh. by right.
Qed.

Lemma filter_app_fresh (q : FileRow → bool) rows row :
  (∀ r, r ∈ rows → q r = true) → q row = false →
  List.filter q (rows ++ [row]) = rows.
Proof.
  intros Hfresh Hrow. rewrite List.filter_app. simpl. rewrite Hrow, app_nil_r.
  induction rows as [|r rows IH]; simpl; [done|].
  rewrite (Hfresh r) by left. f_equal. apply IH. intros r' Hr'. apply Hfresh. by right.
Qed.

Lemma get_file_or_404_found m nm label row w :
  List.find (fun r => String.eqb (name r) nm) (CRUDService.table m w) = Some row →
  is_Some (files w !! Pathlib.of_string (path row)) →
  CRUDService._get_file_or_404 m nm label w = (Ok row, w).
Proof.
  intros Hfind Hthere. unfold CRUDService._get_file_or_404, CRUDService.query_first, bind.
  rewrite Hfind. unfold FileHandler.file_exists, Os.path_exists.
  by rewrite bool_decide_eq_true_2.
Qed.

Lemma get_file_or_404_missing m nm label row w :
  List.find (fun r => String.eqb (name r) nm) (CRUDService.table m w) = Some row →
  files w !! Pathlib.of_string (path row) = None →
  CRUDService._get_file_or_404 m nm label w = (Raise (missing_on_disk label), w).
Proof.
  intros Hfind Hthere. unfold CRUDService._get_file_or_404, CRUDService.query_first, bind.
  rewrite Hfind. unfold FileHandler.file_exists, Os.path_exists.
  rewrite bool_decide_eq_false_2; [done|]. rewrite Hthere. by intros [? ?].
Qed.

Lemma get_file_or_404_absent m nm label w :
  List.find (fun r => String.eqb (name r) nm) (CRUDService.table m w) = None →
  CRUDService._get_file_or_404 m nm label w = (Raise (not_in_db label), w).
Proof.
  intros Hfind. unfold CRUDService._get_file_or_404, CRUDService.query_first, bind.
  by rewrite Hfind.
Qed.

Lemma created_row_found E f i w m row w' label :
  CRUDService.create_file E f i w = (Ok (m, row), w') →
  (∀ r, r ∈ CRUDService.table m w → name r ≠ name row) →
  CRUDService._get_file_or_404 m (name row) label w' = (Ok row, w').
Proof.
  intros Hrun Hfresh.
  pose proof (created_row_on_disk _ _ _ _ _ _ _ Hrun) as (data & Hdata & _).
  apply create_file_ok in Hrun as (p & w1 & data' & ct & Hsave & Hp & Hct & Hm & Hrow & Hw').
  apply save_file_ok in Hsave as (sfx & data'' & -> & Hsfx & Hp' & _ & Hg & Him & _).
  apply get_file_or_404_found; [|by rewrite Hdata].
  rewrite Hw', table_set_table.
  assert (CRUDService.table m w1 = CRUDService.table m w) as -> by (by destruct m).
  apply find_app_fresh; [|apply String.eqb_refl].
  intros r Hr. apply String.eqb_neq. by apply Hfresh.
Qed.

(** X10.  A file that [create_file] has recorded is found again under its
    name, in the table it went to, provided no older record of that table
    bears the same name: the look-up returns the very record, the file
    being on the store where the record says. *)
Theorem created_file_is_found_by_name E f i w m row w' :
  CRUDService.create_file E f i w = (Ok (m, row), w') →
  (∀ r, r ∈ CRUDService.table m w → name r ≠ name row) →
  match m with
  | CRUDService.GeoFile => CRUDService.get_geo_file (name row) w' = (Ok row, w')
  | CRUDService.ImageFile => CRUDService.get_image_file (name row) w' = (Ok row, w')
  end.
Proof.
  intros Hrun Hfresh. destruct m.
  - by eapply created_row_found.
  - by eapply created_row_found.
Qed.

Lemma created_file_is_found_by_name_witness :
  ∃ row w',
    CRUDService.create_file Sample.env
      (Sample.upload "logo.png" "image/png" Sample.junk_bytes) "abu" Sample.campus
    = (Ok (CRUDService.ImageFile, row), w') ∧
    (∀ r, r ∈ imagefiles Sample.campus → name r ≠ name row) ∧
    CRUDService.get_image_file (name row) w' = (Ok row, w').
Proof.
  assert (∃ row, fst (CRUDService.create_file Sample.env
                        (Sample.upload "logo.png" "image/png" Sample.junk_bytes)
                        "abu" Sample.campus)
                 = Ok (CRUDService.ImageFile, row)) as [row Hfst].
  { eexists. vm_compute. reflexivity. }
  destruct (CRUDService.create_file Sample.env
              (Sample.upload "logo.png" "image/png" Sample.junk_bytes)
              "abu" Sample.campus) as [r w'] eqn:Hrun.
  simpl in Hfst. subst r.
  assert (∀ r, r ∈ CRUDService.table CRUDService.ImageFile Sample.campus
               → name r ≠ name row) as Hfresh.
  { intros r Hr. exact (False_ind _ (proj1 (elem_of_nil r) Hr)). }
  exists row, w'. split; [reflexivity|]. split; [exact Hfresh|].
  exact (created_file_is_found_by_name _ _ _ _ _ _ _ Hrun Hfresh).
Defined.

(** X11.  Creating a file and deleting it by its name undoes the
    creation: when the identifier and the name of the new record are
    those of no older record of its table, and nothing was stored under
    the identifier drawn for the file, the store and the three tables are
    after the deletion what they were before the creation. *)
Theorem create_then_delete_restores E f i w m row w' :
  CRUDService.create_file E f i w = (Ok (m, row), w') →
  (∀ r, r ∈ CRUDService.table m w → name r ≠ name row ∧ id r ≠ id row) →
  (∀ sfx, files w !! (upload_dir f ++ [next_uuid w +:+ sfx]) = None) →
  ∃ w'', Routers.delete_file (name row) (file_type m) w' = (Ok tt, w'') ∧
         files w'' = files w ∧ institutions w'' = institutions w ∧
         geofiles w'' = geofiles w ∧ imagefiles w'' = imagefiles w.
Proof.
  intros Hrun Hfresh Hstore.
  assert (∀ label, CRUDService._get_file_or_404 m (name row) label w' = (Ok row, w'))
    as Hget.
  { intros label. eapply created_row_found; [exact Hrun|]. intros r Hr. by apply Hfresh. }
  apply create_file_ok in Hrun as (p & w1 & data & ct & Hsave & Hp & Hct & Hm & Hrow & Hw').
  apply save_file_ok in Hsave
    as (sfx & data' & Hpath & Hsfx & Hp' & Hi & Hg & Him & _ & _ & _ & Hfiles).
  pose proof (stored_plain w sfx Hsfx) as Hplain.
  assert (Pathlib.of_string (path row) = p) as Hround.
  { rewrite Hrow. cbn [path]. rewrite Hpath. by apply stored_path_round_trip. }
  assert (files w' = files w1) as Hfw' by (rewrite Hw'; by destruct m).
  assert (delete p (files w1) = files w) as Hdel.
  { destruct (FileHandler.is_kml f).
    - destruct Hfiles as (d & _ & _ & _ & ->). rewrite delete_insert_eq.
      rewrite (delete_id (files w) (allocated f w)) by apply Hstore.
      apply delete_id. rewrite Hpath. apply Hstore.
    - destruct Hfiles as (_ & _ & ->). rewrite delete_insert_eq.
      apply delete_id. rewrite Hpath. apply Hstore. }
  assert (List.filter (fun r => negb (String.eqb (id r) (id row)))
            (CRUDService.table m w1 ++ [row]) = CRUDService.table m w) as Hfilter.
  { assert (CRUDService.table m w1 = CRUDService.table m w) as -> by (by destruct m).
    apply filter_app_fresh.
    - intros r Hr. apply negb_true_iff, String.eqb_neq. by apply Hfresh.
    - by rewrite String.eqb_refl. }
  assert (∀ label,
            (do file <- CRUDService._get_file_or_404 m (name row) label;
             CRUDService._delete_file m file) w'
            = (Ok tt, CRUDService.set_table m (CRUDService.table m w)
                        (set_store (files w) [OpRemove p] w'))) as Hdelete.
  { intros label. unfold bind at 1. rewrite Hget.
    unfold CRUDService._delete_file, bind. rewrite delete_file_spec, Hround, Hfw', Hp.
    rewrite db_delete_tables. f_equal. rewrite Hdel.
    assert (CRUDService.table m (set_store (files w) [OpRemove p] w')
            = CRUDService.table m w1 ++ [row]) as ->.
    { rewrite Hw'. destruct m; reflexivity. }
    by rewrite Hfilter. }
  exists (CRUDService.set_table m (CRUDService.table m w)
            (set_store (files w) [OpRemove p] w')).
  split.
  - unfold Routers.delete_file. destruct m; simpl.
    + apply Hdelete.
    + apply Hdelete.
  - rewrite Hw'. destruct m; simpl; repeat split; congruence.
Qed.

Lemma create_then_delete_restores_witness :
  ∃ row w' w'',
    CRUDService.create_file Sample.env
      (Sample.upload "plan.kml" "application/vnd.google-earth.kml+xml" Sample.kml_bytes)
      "kano" Sample.campus = (Ok (CRUDService.GeoFile, row), w') ∧
    (∀ r, r ∈ geofiles Sample.campus → name r ≠ name row ∧ id r ≠ id row) ∧
    Routers.delete_file (name row) "geo" w' = (Ok tt, w'') ∧
    files w'' = files Sample.campus ∧ geofiles w'' = geofiles Sample.campus.
Proof.
  set (f := Sample.upload "plan.kml" "application/vnd.google-earth.kml+xml"
              Sample.kml_bytes).
  assert (fst (CRUDService.create_file Sample.env f "kano" Sample.campus)
          = Ok (CRUDService.GeoFile,
                {| id := "00000000-0000-4000-8000-000000000001";
                   name := "00000000-0000-4000-8000-000000000000.geojson";
                   content_type := "application/vnd.google-earth.kml+xml";
                   size := 45;
                   url := "localhost:8000/api/v1/files/geo/00000000-0000-4000-8000-000000000000.geojson";
                   path := "app/static/geo_jsons/00000000-0000-4000-8000-000000000000.geojson";
                   institution_id := "kano" |})) as Hfst.
  { vm_compute. reflexivity. }
  destruct (CRUDService.create_file Sample.env f "kano" Sample.campus) as [r w'] eqn:Hrun.
  simpl in Hfst. subst r.
  match type of Hrun with _ = (Ok (_, ?x), _) => set (row := x) in * end.
  assert (∀ r, r ∈ CRUDService.table CRUDService.GeoFile Sample.campus
               → name r ≠ name row ∧ id r ≠ id row) as Hfresh.
  { intros r Hr. apply list_elem_of_singleton in Hr as ->.
    split; intros H; discriminate H. }
  assert (∀ sfx, files Sample.campus
                 !! (upload_dir f ++ [next_uuid Sample.campus +:+ sfx]) = None) as Hstore.
  { intros sfx. apply lookup_singleton_ne. intros H.
    apply (f_equal (fun p => last p)) in H. vm_compute in H. discriminate H. }
  destruct (create_then_delete_restores _ _ _ _ _ _ _ Hrun Hfresh Hstore)
    as (w'' & Hdel & Hf & _ & Hg & _).
  exists row, w', w''. split; [reflexivity|]. split; [exact Hfresh|].
  split; [exact Hdel|]. split; [exact Hf|exact Hg].
Defined.

Lemma unique_name_first rows nm row r :
  NoDup (map name rows) →
  List.find (fun x => String.eqb (name x) nm) rows = Some row →
  r ∈ rows → name r = nm → r = row.
Proof.
  induction rows as [|x rows IH]; simpl; [done|].
  intros Hnodup Hfind Hin Hname. apply NoDup_cons in Hnodup as [Hx Hnodup].
  destruct (String.eqb_spec (name x) nm) as [Hxn|Hxn].
  - injection Hfind as <-. apply elem_of_cons in Hin as [->|Hin]; [done|].
    exfalso. apply Hx. rewrite Hxn, <- Hname. by apply list_elem_of_fmap_2.
  - apply elem_of_cons in Hin as [->|Hin]; [done|]. by apply IH.
Qed.

(** X12.  Deleting a file by its name, when the record is there and its
    file is on the store: the file is removed from the store, the record
    (every row of its primary key) from its table, and nothing else
    changes; and when the names of the table are distinct, the same
    request made again is answered 404 "... not found". *)
Theorem deleted_file_is_gone m nm row w :
  unique_file_names m w →
  List.find (fun r => String.eqb (name r) nm) (CRUDService.table m w) = Some row →
  is_Some (files w !! Pathlib.of_string (path row)) →
  ∃ w', Routers.delete_file nm (file_type m) w = (Ok tt, w') ∧
        files w' = delete (Pathlib.of_string (path row)) (files w) ∧
        CRUDService.table m w'
        = List.filter (fun r => negb (String.eqb (id r) (id row))) (CRUDService.table m w) ∧
        institutions w' = institutions w ∧
        match m with
        | CRUDService.GeoFile => imagefiles w' = imagefiles w
        | CRUDService.ImageFile => geofiles w' = geofiles w
        end ∧
        Routers.delete_file nm (file_type m) w' = (Raise (not_in_db (lookup_label m)), w').
Proof.
  intros Huniq Hfind Hthere.
  pose proof (λ label, get_file_or_404_found m nm label row w Hfind Hthere) as Hget.
  set (p := Pathlib.of_string (path row)) in *.
  set (rows' := List.filter (fun r => negb (String.eqb (id r) (id row)))
                  (CRUDService.table m w)).
  set (w' := CRUDService.set_table m rows' (snd (FileHandler.delete_file p w))).
  assert (∀ label, (do file <- CRUDService._get_file_or_404 m nm label;
                    CRUDService._delete_file m file) w = (Ok tt, w')) as Hdelete.
  { intros label. unfold bind at 1. rewrite Hget.
    unfold CRUDService._delete_file, bind. fold p.
    pose proof (delete_file_world p w) as (_ & Hg & Him & _).
    rewrite delete_file_spec. cbn [snd]. rewrite db_delete_tables.
    unfold w', rows'. rewrite delete_file_spec. cbn [snd].
    destruct Hthere as [data Hdata]. rewrite Hdata. by destruct m. }
  assert (List.find (fun r => String.eqb (name r) nm) rows' = None) as Hgone.
  { destruct (List.find _ rows') as [r|] eqn:Hr; [|done]. exfalso.
    apply List.find_some in Hr as [Hin Hname]. apply String.eqb_eq in Hname.
    apply List.filter_In in Hin as [Hin Hid]. apply list_elem_of_In in Hin.
    pose proof (unique_name_first _ _ _ _ Huniq Hfind Hin Hname) as ->.
    by rewrite String.eqb_refl in Hid. }
  assert (CRUDService.table m w' = rows') as Htable by apply table_set_table.
  exists w'. split; [|split; [|split; [done|split; [|split]]]].
  - unfold Routers.delete_file, CRUDService.delete_geo_file, CRUDService.delete_image_file,
      CRUDService.get_geo_file, CRUDService.get_image_file.
    destruct m; simpl; apply Hdelete.
  - unfold w'. pose proof (delete_file_files p w) as Hf. by destruct m.
  - unfold w'. pose proof (delete_file_world p w) as (Hi & _). by destruct m.
  - unfold w'. pose proof (delete_file_world p w) as (_ & Hg & Him & _). by destruct m.
  - unfold Routers.delete_file, CRUDService.delete_geo_file, CRUDService.delete_image_file,
      CRUDService.get_geo_file, CRUDService.get_image_file.
    rewrite <- Htable in Hgone.
    destruct m; simpl; unfold bind at 1;
      by rewrite (get_file_or_404_absent _ nm _ w' Hgone).
Qed.

Lemma deleted_file_is_gone_witness :
  (unique_file_names CRUDService.GeoFile Sample.campus ∧
   List.find (fun r => String.eqb (name r) "campus.geojson") (geofiles Sample.campus)
   = Some Sample.campus_row ∧
   is_Some (files Sample.campus !! Pathlib.of_string (path Sample.campus_row))) ∧
  ∃ w', Routers.delete_file "campus.geojson" "geo" Sample.campus = (Ok tt, w') ∧
        files w' = delete (Pathlib.of_string (path Sample.campus_row)) (files Sample.campus) ∧
        Routers.delete_file "campus.geojson" "geo" w'
        = (Raise (HTTPException 404 "GeoFile not found"), w').
Proof.
  assert (unique_file_names CRUDService.GeoFile Sample.campus) as Hu.
  { apply NoDup_singleton. }
  assert (is_Some (files Sample.campus !! Pathlib.of_string (path Sample.campus_row)))
    as Hthere.
  { exists Sample.kml_bytes. vm_compute. reflexivity. }
  split; [by repeat split|].
  destruct (deleted_file_is_gone CRUDService.GeoFile "campus.geojson" Sample.campus_row
              Sample.campus Hu eq_refl Hthere) as (w' & Hdel & Hf & _ & _ & _ & Hagain).
  exists w'. split; [exact Hdel|]. split; [exact Hf|exact Hagain].
Defined.

(** ** Records without a file *)

(** X13.  A record whose file is no longer on the store cannot be reached
    through the file routes: reading it, deleting it and updating it are
    all answered 404 "... found in DB but missing in filesystem" and
    change nothing, so the record stays; and since it stays, an upload of
    the same kind for its institution is refused with the 400 "already
    exists". *)
Theorem row_without_file_is_stuck E St m nm row w :
  List.find (fun r => String.eqb (name r) nm) (CRUDService.table m w) = Some row →
  files w !! Pathlib.of_string (path row) = None →
  Routers.get_file E St nm (file_type m) w = (Raise (missing_on_disk (lookup_label m)), w) ∧
  Routers.delete_file nm (file_type m) w = (Raise (missing_on_disk (lookup_label m)), w) ∧
  (∀ file, mime_in (upload_content_type file) ALLOWED_MIME_TYPES = true →
     Routers.update_file E file nm (file_type m) w
     = (Raise (missing_on_disk (update_label m)), w)) ∧
  (∀ file rest, mime_in (upload_content_type file) ALLOWED_MIME_TYPES = true →
     kind file = m →
     Routers.upload_file E (file :: rest) (institution_id row) w
     = (Raise (Routers.already_exists file), w)).
Proof.
  intros Hfind Hmissing.
  pose proof (λ label, get_file_or_404_missing m nm label row w Hfind Hmissing) as Hget.
  split; [|split; [|split]].
  - unfold Routers.get_file, CRUDService.get_geo_file, CRUDService.get_image_file.
    destruct m; simpl; unfold bind at 1; by rewrite Hget.
  - unfold Routers.delete_file, CRUDService.delete_geo_file, CRUDService.delete_image_file,
      CRUDService.get_geo_file, CRUDService.get_image_file.
    destruct m; simpl; unfold bind at 1; by rewrite Hget.
  - intros file Hallowed. unfold Routers.update_file, CRUDService.update_file.
    rewrite Hallowed. destruct m; simpl; unfold bind at 1; by rewrite Hget.
  - intros file rest Hallowed Hkind.
    apply (upload_rejects_duplicate E file rest (institution_id row) w row);
      [done| |done].
    unfold kind in Hkind. rewrite Hkind.
    apply List.find_some in Hfind as [Hin _]. exact Hin.
Qed.

Lemma row_without_file_is_stuck_witness :
  (List.find (fun r => String.eqb (name r) "campus.geojson") (geofiles Sample.campus_lost)
   = Some Sample.campus_row ∧
   files Sample.campus_lost !! Pathlib.of_string (path Sample.campus_row) = None) ∧
  Routers.delete_file "campus.geojson" "geo" Sample.campus_lost
  = (Raise (HTTPException 404 "GeoFile found in DB but missing in filesystem"),
     Sample.campus_lost) ∧
  Routers.update_file Sample.env
    (Sample.upload "map.geojson" "application/geo+json" Sample.junk_bytes)
    "campus.geojson" "geo" Sample.campus_lost
  = (Raise (HTTPException 404 "Geo File found in DB but missing in filesystem"),
     Sample.campus_lost) ∧
  Routers.upload_file Sample.env
    [Sample.upload "map.geojson" "application/geo+json" Sample.junk_bytes] "abu"
    Sample.campus_lost
  = (Raise (HTTPException 400
              "File with name 'map.geojson' already exists for institution."),
     Sample.campus_lost).
Proof.
  split; [by split|].
  destruct (row_without_file_is_stuck Sample.env Sample.starlette CRUDService.GeoFile
              "campus.geojson" Sample.campus_row Sample.campus_lost eq_refl eq_refl)
    as (_ & Hdel & Hupd & Hup).
  split; [exact Hdel|]. split.
  - exact (Hupd (Sample.upload "map.geojson" "application/geo+json" Sample.junk_bytes)
             eq_refl).
  - exact (Hup (Sample.upload "map.geojson" "application/geo+json" Sample.junk_bytes) []
             eq_refl eq_refl).
Defined.

(** ** Updating a stored file *)

(** X14.  An update replaces the bytes and nothing else: for an upload
    of any allowed content type that is not named [*.kml], whatever the
    table named in the URL, the stored file of the record now holds the
    bytes of the upload, while the record that is returned and the three
    tables are what they were: the name, content type, size and URL of
    the record still describe the file that was first uploaded. *)
Theorem update_file_keeps_row E file m nm row w :
  List.find (fun r => String.eqb (name r) nm) (CRUDService.table m w) = Some row →
  is_Some (files w !! Pathlib.of_string (path row)) →
  mime_in (upload_content_type file) ALLOWED_MIME_TYPES = true →
  FileHandler.is_kml file = false →
  temp_path (Pathlib.of_string (path row)) w ≠ Pathlib.of_string (path row) →
  files w !! temp_path (Pathlib.of_string (path row)) w = None →
  move_error E (temp_path (Pathlib.of_string (path row)) w) (Pathlib.of_string (path row))
  = None →
  ∃ w', Routers.update_file E file nm (file_type m) w = (Ok row, w') ∧
        files w' = <[Pathlib.of_string (path row) := content file]> (files w) ∧
        institutions w' = institutions w ∧ geofiles w' = geofiles w ∧
        imagefiles w' = imagefiles w.
Proof.
  intros Hfind Hthere Hallowed Hkml Htmp Hfresh Hmove.
  pose proof (λ label, get_file_or_404_found m nm label row w Hfind Hthere) as Hget.
  set (target := Pathlib.of_string (path row)) in *.
  destruct (overwrite_file_outcome E file target w) as [k Hk].
  unfold overwrite_outcome in Hk. rewrite Hkml, Hmove in Hk.
  eexists. split.
  - unfold Routers.update_file, CRUDService.update_file. rewrite Hallowed.
    destruct m; simpl; unfold bind at 1; rewrite Hget; unfold bind at 1;
      fold target; rewrite Hk; reflexivity.
  - cbn [files set_store tick institutions geofiles imagefiles].
    by rewrite delete_id.
Qed.

Lemma update_file_keeps_row_witness :
  (List.find (fun r => String.eqb (name r) "campus.geojson") (geofiles Sample.campus)
   = Some Sample.campus_row ∧
   is_Some (files Sample.campus !! Pathlib.of_string (path Sample.campus_row)) ∧
   mime_in (Some "image/png") ALLOWED_MIME_TYPES = true) ∧
  ∃ w', Routers.update_file Sample.env
          (Sample.upload "logo.png" "image/png" Sample.junk_bytes)
          "campus.geojson" "geo" Sample.campus = (Ok Sample.campus_row, w') ∧
        files w' !! Sample.stored = Some Sample.junk_bytes ∧
        geofiles w' = [Sample.campus_row] ∧
        size Sample.campus_row ≠ Z.of_nat (length Sample.junk_bytes).
Proof.
  assert (is_Some (files Sample.campus !! Pathlib.of_string (path Sample.campus_row)))
    as Hthere.
  { exists Sample.kml_bytes. vm_compute. reflexivity. }
  assert (temp_path (Pathlib.of_string (path Sample.campus_row)) Sample.campus
          ≠ Pathlib.of_string (path Sample.campus_row)) as Htmp.
  { intros H. vm_compute in H. discriminate H. }
  assert (files Sample.campus
          !! temp_path (Pathlib.of_string (path Sample.campus_row)) Sample.campus = None)
    as Hfresh.
  { vm_compute. reflexivity. }
  split; [by repeat split|].
  destruct (update_file_keeps_row Sample.env
              (Sample.upload "logo.png" "image/png" Sample.junk_bytes)
              CRUDService.GeoFile "campus.geojson" Sample.campus_row Sample.campus
              eq_refl Hthere eq_refl eq_refl Htmp Hfresh eq_refl)
    as (w' & Hrun & Hf & _ & Hg & _).
  exists w'. split; [exact Hrun|]. split.
  - rewrite Hf. apply lookup_insert_eq.
  - split; [exact Hg|]. intros H. discriminate H.
Defined.

(** ** Batches of uploads *)

Lemma owned_snoc_own rows row i :
  institution_id row = i → owned (rows ++ [row]) i ≠ [].
Proof.
  intros Hrow. rewrite owned_app. unfold owned at 2. simpl.
  apply String.eqb_eq in Hrow. rewrite Hrow. by destruct (owned rows i).
Qed.

Lemma upload_loop_ok E files i g0 i0 w geo img w' :
  Routers.upload_loop E files i g0 i0 w = (Ok (geo, img), w') →
  ∃ g1 i1, geo = g0 ++ g1 ∧ img = i0 ++ i1 ∧
    geofiles w' = geofiles w ++ g1 ∧ imagefiles w' = imagefiles w ++ i1 ∧
    institutions w' = institutions w ∧
    length files = length g1 + length i1 ∧
    Forall (fun r => institution_id r = i) (g1 ++ i1) ∧
    (length g1 ≤ 1 ∧ (g1 ≠ [] → owned (geofiles w) i = [])) ∧
    (length i1 ≤ 1 ∧ (i1 ≠ [] → owned (imagefiles w) i = [])).
Proof.
  revert g0 i0 w. induction files as [|file rest IH]; intros g0 i0 w.
  { intros [= <- <- <-]. exists [], []. rewrite !app_nil_r.
    repeat split; try done; simpl; lia. }
  cbn [Routers.upload_loop].
  destruct (mime_in (upload_content_type file) ALLOWED_MIME_TYPES); simpl;
    [|intros H; discriminate H].
  unfold bind at 1. rewrite file_exists_spec.
  destruct (owned _ i) as [|r0 rs] eqn:Hfree; [|intros H; discriminate H].
  unfold bind at 1.
  destruct (CRUDService.create_file E file i w) as [[[m row]|e] w1] eqn:Hrun;
    [|intros H; discriminate H].
  apply create_file_tables in Hrun as (Hinst & -> & Hrow & _ & Htab).
  destruct (mime_in (upload_content_type file) GEO_MIME_TYPES); cbn [snd];
    destruct Htab as [Hg Him]; intros Hrest;
    apply IH in Hrest as (g1 & i1 & -> & -> & Hg' & Him' & Hinst' & Hlen & Hall & Hgb & Hib).
  - destruct Hgb as [_ Hgb]. destruct g1 as [|r g1].
    2:{ exfalso. apply (owned_snoc_own (geofiles w) row i Hrow).
        rewrite <- Hg. by apply Hgb. }
    exists [row], i1. rewrite <- !app_assoc. simpl in *.
    split; [done|]. split; [done|]. split; [by rewrite Hg', Hg, app_nil_r|].
    split; [by rewrite Him', Him|]. split; [congruence|]. split; [lia|].
    split; [by constructor|]. split; [split; [lia|done]|].
    by rewrite <- Him.
  - destruct Hib as [_ Hib]. destruct i1 as [|r i1].
    2:{ exfalso. apply (owned_snoc_own (imagefiles w) row i Hrow).
        rewrite <- Him. by apply Hib. }
    exists g1, [row]. rewrite <- !app_assoc. simpl in *.
    split; [done|]. split; [done|]. split; [by rewrite Hg', Hg|].
    split; [by rewrite Him', Him, app_nil_r|]. split; [congruence|]. split; [lia|].
    split.
    { rewrite app_nil_r in Hall. apply Forall_app. split; [done|by constructor]. }
    split; [by rewrite <- Hg|]. split; [lia|done].
Qed.

(** X15.  A batch that is accepted holds at most one geo file and at most
    one image file, so at most two files: the records returned are, in
    their order, the rows added to the two tables, one per file, all for
    the institution of the request, and the institutions are untouched. *)
Theorem upload_file_success_shape E files i w geo img w' :
  Routers.upload_file E files i w = (Ok (geo, img), w') →
  geofiles w' = geofiles w ++ geo ∧ imagefiles w' = imagefiles w ++ img ∧
  institutions w' = institutions w ∧
  Forall (fun r => institution_id r = i) (geo ++ img) ∧
  length files = length geo + length img ∧ length geo ≤ 1 ∧ length img ≤ 1.
Proof.
  intros Hrun. unfold Routers.upload_file in Hrun.
  apply upload_loop_ok in Hrun
    as (g1 & i1 & -> & -> & Hg & Him & Hinst & Hlen & Hall & [Hgb _] & [Hib _]).
  simpl. by repeat split.
Qed.

Lemma upload_file_success_shape_witness :
  ∃ geo img w',
    Routers.upload_file Sample.env
      [Sample.upload "logo.png" "image/png" Sample.junk_bytes;
       Sample.upload "plan.kml" "application/vnd.google-earth.kml+xml" Sample.kml_bytes]
      "kano" (Sample.world ∅) = (Ok (geo, img), w') ∧
    geofiles w' = geo ∧ imagefiles w' = img ∧ length geo = 1 ∧ length img = 1.
Proof.
  set (batch := [Sample.upload "logo.png" "image/png" Sample.junk_bytes;
                 Sample.upload "plan.kml" "application/vnd.google-earth.kml+xml"
                   Sample.kml_bytes]).
  assert (∃ g i, fst (Routers.upload_file Sample.env batch "kano" (Sample.world ∅))
                 = Ok ([g], [i])) as (g & i & Hfst).
  { eexists _, _. vm_compute. reflexivity. }
  destruct (Routers.upload_file Sample.env batch "kano" (Sample.world ∅))
    as [r w'] eqn:Hrun.
  simpl in Hfst. subst r.
  destruct (upload_file_success_shape _ _ _ _ _ _ _ Hrun) as (Hg & Him & _).
  exists [g], [i], w'. split; [reflexivity|]. split; [exact Hg|]. split; [exact Him|].
  split; reflexivity.
Defined.

(** X16.  A batch is not undone when it fails: when the first file of a
    batch has been saved and recorded and the second is of the same kind,
    the request is answered 400 "already exists" for the second file, and
    the world is left as the first file made it, with its record in the
    table and its bytes on the store. *)
Theorem upload_file_no_rollback E f1 f2 rest i w saved w1 :
  mime_in (upload_content_type f1) ALLOWED_MIME_TYPES = true →
  mime_in (upload_content_type f2) ALLOWED_MIME_TYPES = true →
  kind f2 = kind f1 →
  owned (CRUDService.table (kind f1) w) i = [] →
  CRUDService.create_file E f1 i w = (Ok saved, w1) →
  Routers.upload_file E (f1 :: f2 :: rest) i w = (Raise (Routers.already_exists f2), w1) ∧
  snd saved ∈ CRUDService.table (kind f1) w1 ∧
  is_Some (files w1 !! Pathlib.of_string (path (snd saved))).
Proof.
  intros Ha1 Ha2 Hkind Hfree Hrun. destruct saved as [m row].
  pose proof (created_row_on_disk _ _ _ _ _ _ _ Hrun) as (data & Hdata & _).
  pose proof (create_file_tables _ _ _ _ _ _ Hrun) as (_ & Hm & Hrow & _ & Htab).
  assert (row ∈ CRUDService.table (kind f1) w1) as Hin.
  { unfold kind. rewrite <- Hm. destruct m; destruct Htab as [Hg Him]; simpl.
    - rewrite Hg. apply elem_of_app. right. by left.
    - rewrite Him. apply elem_of_app. right. by left. }
  cbn [snd]. split; [|split; [exact Hin|by rewrite Hdata]].
  unfold Routers.upload_file. cbn [Routers.upload_loop]. rewrite Ha1. cbn [negb].
  unfold bind at 1. rewrite file_exists_spec. fold (kind f1). rewrite Hfree.
  unfold bind at 1. rewrite Hrun. cbn [snd].
  assert (∀ g0 i0, Routers.upload_loop E (f2 :: rest) i g0 i0 w1
                   = (Raise (Routers.already_exists f2), w1)) as Hnext.
  { intros g0 i0. cbn [Routers.upload_loop]. rewrite Ha2. cbn [negb].
    unfold bind at 1. rewrite file_exists_spec. fold (kind f2). rewrite Hkind.
    destruct (owned (CRUDService.table (kind f1) w1) i) as [|r0 rs] eqn:Ho; [|done].
    exfalso. assert (row ∈ owned (CRUDService.table (kind f1) w1) i) as Hin'.
    { unfold owned. apply list_elem_of_In, List.filter_In. split.
      - by apply list_elem_of_In.
      - by apply String.eqb_eq. }
    rewrite Ho in Hin'. by apply elem_of_nil in Hin'. }
  destruct (mime_in (upload_content_type f1) GEO_MIME_TYPES); apply Hnext.
Qed.

Lemma upload_file_no_rollback_witness :
  ∃ saved w1,
    CRUDService.create_file Sample.env
      (Sample.upload "a.geojson" "application/geo+json" Sample.junk_bytes) "kano"
      (Sample.world ∅) = (Ok saved, w1) ∧
    Routers.upload_file Sample.env
      [Sample.upload "a.geojson" "application/geo+json" Sample.junk_bytes;
       Sample.upload "b.geojson" "application/json" Sample.junk_bytes] "kano"
      (Sample.world ∅)
    = (Raise (HTTPException 400
                "File with name 'b.geojson' already exists for institution."), w1) ∧
    snd saved ∈ geofiles w1 ∧
    is_Some (files w1 !! Pathlib.of_string (path (snd saved))).
Proof.
  assert (∃ saved, fst (CRUDService.create_file Sample.env
                          (Sample.upload "a.geojson" "application/geo+json"
                             Sample.junk_bytes) "kano" (Sample.world ∅))
                   = Ok saved) as [saved Hfst].
  { eexists. vm_compute. reflexivity. }
  destruct (CRUDService.create_file Sample.env
              (Sample.upload "a.geojson" "application/geo+json" Sample.junk_bytes)
              "kano" (Sample.world ∅)) as [r w1] eqn:Hrun.
  simpl in Hfst. subst r.
  destruct (upload_file_no_rollback Sample.env
              (Sample.upload "a.geojson" "application/geo+json" Sample.junk_bytes)
              (Sample.upload "b.geojson" "application/json" Sample.junk_bytes)
              [] "kano" (Sample.world ∅) saved w1 eq_refl eq_refl eq_refl eq_refl Hrun)
    as (Hup & Hin & Hdisk).
  exists saved, w1. split; [reflexivity|]. split; [exact Hup|].
  split; [exact Hin|exact Hdisk].
Defined.

(** ** The read route *)

Lemma exists_str_world s w : snd (Os.exists_str s w) = w.
Proof. unfold Os.exists_str. by repeat case_match. Qed.

Lemma load_geojson_content_world E p w :
  snd (FileHandler.load_geojson_content E p w) = w.
Proof. by rewrite load_geojson_content_spec. Qed.

(** X17.  Reading changes nothing: whatever the name and the type asked
    for, whether the file is served or an error is raised, [get_file]
    leaves the store, its journal, the tables and the entropy as they
    were. *)
Theorem get_file_read_only E St nm ty w :
  snd (Routers.get_file E St nm ty w) = w.
Proof.
  unfold Routers.get_file, CRUDService.get_geo_file, CRUDService.get_image_file,
    CRUDService.get_geojson_file_content.
  destruct (String.eqb ty "geo"); [|destruct (String.eqb ty "image"); [|done]].
  - unfold bind at 1.
    pose proof (get_file_or_404_world CRUDService.GeoFile nm "GeoFile" w) as Hw.
    destruct (CRUDService._get_file_or_404 _ _ _ w) as [[row|e] w1]; simpl in Hw; subst w1;
      [|done].
    unfold bind at 1.
    pose proof (load_geojson_content_world E (Pathlib.of_string (path row)) w) as Hw.
    destruct (FileHandler.load_geojson_content E _ w) as [[v|e] w1]; simpl in Hw; subst w1;
      [|done].
    unfold bind, lift_sum. by destruct (Routers.render St v).
  - unfold bind at 1.
    pose proof (get_file_or_404_world CRUDService.ImageFile nm "ImageFile" w) as Hw.
    destruct (CRUDService._get_file_or_404 _ _ _ w) as [[row|e] w1]; simpl in Hw; subst w1;
      [|done].
    unfold bind at 1.
    pose proof (exists_str_world (path row) w) as Hw.
    destruct (Os.exists_str (path row) w) as [[[]|e] w1]; simpl in Hw; subst w1; done.
Qed.

(** X18.  A geo file that was uploaded is served: when the bytes stored
    for it (the upload itself, or the text of its conversion for a
    [*.kml]) parse to a dictionary with a ["type"] key that Starlette can
    render, and no older geo record bears its name, the read route
    answers the name of the new record with a 200 [JSONResponse] of the
    rendered dictionary. *)
Theorem uploaded_geo_file_is_served E St f i w row w' data v body :
  CRUDService.create_file E f i w = (Ok (CRUDService.GeoFile, row), w') →
  (∀ r, r ∈ geofiles w → name r ≠ name row) →
  (if FileHandler.is_kml f
   then ∃ d, conversion E (content f) = inr d ∧ data = list_byte_of_string (json_dumps E d)
   else data = content f) →
  parsed E data = Some v → geojson_shaped v = true → Routers.render St v = inr body →
  Routers.get_file E St (name row) "geo" w' = (Ok (Routers.JSONResponse body 200), w').
Proof.
  intros Hrun Hfresh Hdata Hparsed Hshaped Hrender.
  pose proof (created_row_found E f i w _ row w' "GeoFile" Hrun Hfresh) as Hget.
  apply create_file_ok in Hrun as (p & w1 & data' & ct & Hsave & Hp & Hct & Hm & Hrow & Hw').
  apply save_file_ok in Hsave
    as (sfx & data'' & Hpath & Hsfx & Hp' & _ & _ & _ & _ & _ & _ & Hfiles).
  pose proof (stored_plain w sfx Hsfx) as Hplain.
  assert (Pathlib.of_string (path row) = p) as Hround.
  { rewrite Hrow. cbn [path]. rewrite Hpath. by apply stored_path_round_trip. }
  assert (files w' !! p = Some data) as Hstored.
  { rewrite Hw'. cbn [CRUDService.set_table with_tables files tick].
    rewrite Hp'. f_equal. destruct (FileHandler.is_kml f).
    - destruct Hfiles as (d & Hd & -> & _). destruct Hdata as (d' & Hd' & ->).
      rewrite Hd in Hd'. by injection Hd' as ->.
    - destruct Hfiles as (_ & -> & _). by symmetry. }
  unfold Routers.get_file. cbn [String.eqb Ascii.eqb Bool.eqb].
  unfold CRUDService.get_geo_file. unfold bind at 1. rewrite Hget.
  unfold bind at 1. unfold CRUDService.get_geojson_file_content.
  rewrite load_geojson_content_spec, Hround, Hstored.
  unfold parsed in Hparsed. destruct (text_of data) as [s|]; [|discriminate Hparsed].
  destruct (json_loads E s) as [e|v']; [discriminate Hparsed|].
  injection Hparsed as ->. rewrite Hshaped. unfold bind, lift_sum. by rewrite Hrender.
Qed.

Lemma uploaded_geo_file_is_served_witness :
  ∃ row w',
    CRUDService.create_file Sample.env
      (Sample.upload "plan.kml" "application/vnd.google-earth.kml+xml" Sample.kml_bytes)
      "kano" Sample.campus = (Ok (CRUDService.GeoFile, row), w') ∧
    (∀ r, r ∈ geofiles Sample.campus → name r ≠ name row) ∧
    Routers.get_file Sample.env Sample.starlette (name row) "geo" w'
    = (Ok (Routers.JSONResponse
             (list_byte_of_string (Sample.dumps Sample.feature_collection)) 200), w').
Proof.
  set (f := Sample.upload "plan.kml" "application/vnd.google-earth.kml+xml"
              Sample.kml_bytes).
  assert (fst (CRUDService.create_file Sample.env f "kano" Sample.campus)
          = Ok (CRUDService.GeoFile,
                {| id := "00000000-0000-4000-8000-000000000001";
                   name := "00000000-0000-4000-8000-000000000000.geojson";
                   content_type := "application/vnd.google-earth.kml+xml";
                   size := 45;
                   url := "localhost:8000/api/v1/files/geo/00000000-0000-4000-8000-000000000000.geojson";
                   path := "app/static/geo_jsons/00000000-0000-4000-8000-000000000000.geojson";
                   institution_id := "kano" |})) as Hfst.
  { vm_compute. reflexivity. }
  destruct (CRUDService.create_file Sample.env f "kano" Sample.campus) as [r w'] eqn:Hrun.
  simpl in Hfst. subst r.
  match type of Hrun with _ = (Ok (_, ?x), _) => set (row := x) in * end.
  assert (∀ r, r ∈ geofiles Sample.campus → name r ≠ name row) as Hfresh.
  { intros r Hr. apply list_elem_of_singleton in Hr as ->. intros H. discriminate H. }
  assert (if FileHandler.is_kml f
          then ∃ d, conversion Sample.env (content f) = inr d ∧
                    list_byte_of_string (Sample.dumps Sample.feature_collection)
                    = list_byte_of_string (json_dumps Sample.env d)
          else list_byte_of_string (Sample.dumps Sample.feature_collection) = content f)
    as Hdata.
  { exists Sample.feature_collection. split; reflexivity. }
  assert (parsed Sample.env (list_byte_of_string (Sample.dumps Sample.feature_collection))
          = Some Sample.feature_collection) as Hparsed.
  { vm_compute. reflexivity. }
  exists row, w'. split; [reflexivity|]. split; [exact Hfresh|].
  exact (uploaded_geo_file_is_served Sample.env Sample.starlette f "kano" Sample.campus
           row w' _ Sample.feature_collection _ Hrun Hfresh Hdata Hparsed eq_refl eq_refl).
Defined.

Lemma exists_str_stored f nm w :
  plain_name nm →
  Os.exists_str (Pathlib.to_string (upload_dir f ++ [nm])) w
  = (Ok (bool_decide (is_Some (files w !! (upload_dir f ++ [nm])))), w).
Proof.
  intros Hnm. unfold Os.exists_str. rewrite last_split_plain by by apply stored_path_plain.
  destruct Hnm as (Hsl & Hne & Hdot). pose proof Hne as Hne'. pose proof Hdot as Hdot'.
  apply String.eqb_neq in Hne', Hdot'. rewrite Hne', Hdot'. cbn [orb].
  by rewrite stored_path_round_trip.
Qed.

(** X19.  An image that was uploaded is served: when no older image
    record bears the name of the new one, the read route answers that
    name with a [FileResponse] for the recorded path, under the content
    type the client declared at the upload; the second look at the disk,
    made in the route on the path as a string, finds the file the first
    one found. *)
Theorem uploaded_image_file_is_served E St f i w row w' :
  CRUDService.create_file E f i w = (Ok (CRUDService.ImageFile, row), w') →
  (∀ r, r ∈ imagefiles w → name r ≠ name row) →
  Routers.get_file E St (name row) "image" w'
  = (Ok (Routers.FileResponse (path row) (content_type row)), w') ∧
  Some (content_type row) = upload_content_type f.
Proof.
  intros Hrun Hfresh.
  pose proof (created_row_found E f i w _ row w' "ImageFile" Hrun Hfresh) as Hget.
  pose proof (created_row_on_disk _ _ _ _ _ _ _ Hrun) as (data0 & Hdata0 & _).
  pose proof (create_file_tables _ _ _ _ _ _ Hrun) as (_ & _ & _ & Hct' & _).
  split; [|exact Hct'].
  apply create_file_ok in Hrun as (p & w1 & data' & ct & Hsave & Hp & Hct & Hm & Hrow & Hw').
  apply save_file_ok in Hsave as (sfx & data'' & Hpath & Hsfx & _).
  pose proof (stored_plain w sfx Hsfx) as Hplain.
  assert (Pathlib.of_string (path row) = p) as Hround.
  { rewrite Hrow. cbn [path]. rewrite Hpath. by apply stored_path_round_trip. }
  unfold Routers.get_file. cbn [String.eqb Ascii.eqb Bool.eqb].
  unfold CRUDService.get_image_file. unfold bind at 1. rewrite Hget.
  unfold bind at 1.
  assert (Os.exists_str (path row) w' = (Ok true, w')) as ->; [|done].
  rewrite Hround in Hdata0.
  rewrite Hrow. cbn [path]. rewrite Hpath. rewrite exists_str_stored by done.
  rewrite <- Hpath, Hdata0. by rewrite bool_decide_eq_true_2.
Qed.

Lemma uploaded_image_file_is_served_witness :
  ∃ row w',
    CRUDService.create_file Sample.env
      (Sample.upload "logo.png" "image/png" Sample.junk_bytes) "abu" Sample.campus
    = (Ok (CRUDService.ImageFile, row), w') ∧
    (∀ r, r ∈ imagefiles Sample.campus → name r ≠ name row) ∧
    Routers.get_file Sample.env Sample.starlette (name row) "image" w'
    = (Ok (Routers.FileResponse (path row) "image/png"), w').
Proof.
  assert (∃ row, fst (CRUDService.create_file Sample.env
                        (Sample.upload "logo.png" "image/png" Sample.junk_bytes)
                        "abu" Sample.campus)
                 = Ok (CRUDService.ImageFile, row)) as [row Hfst].
  { eexists. vm_compute. reflexivity. }
  destruct (CRUDService.create_file Sample.env
              (Sample.upload "logo.png" "image/png" Sample.junk_bytes)
              "abu" Sample.campus) as [r w'] eqn:Hrun.
  simpl in Hfst. subst r.
  assert (∀ r, r ∈ imagefiles Sample.campus → name r ≠ name row) as Hfresh.
  { intros r Hr. exact (False_ind _ (proj1 (elem_of_nil r) Hr)). }
  destruct (uploaded_image_file_is_served Sample.env Sample.starlette _ _ _ _ _
              Hrun Hfresh) as [Hget Hct].
  exists row, w'. split; [reflexivity|]. split; [exact Hfresh|].
  simpl in Hct. injection Hct as Hct. rewrite Hct in Hget. exact Hget.
Defined.

(** ** Institutions *)

Lemma existsb_name nm insts :
  existsb (fun i => String.eqb (inst_name i) nm) insts = true ↔ nm ∈ map inst_name insts.
Proof.
  induction insts as [|x insts IH]; simpl.
  - split; [done|]. intros H. by apply elem_of_nil in H.
  - rewrite orb_true_iff, IH, elem_of_cons, String.eqb_eq.
    split; (intros [H|H]; [left; by symmetry|by right]).
Qed.

(** X20.  The creation route keeps the names of the institutions
    distinct: it answers 400 "Institution already exists" exactly when
    the name is that of an institution, and then changes nothing;
    otherwise whatever it adds bears a name no institution had. *)
Theorem create_institution_keeps_names_unique nm w :
  unique_names w →
  unique_names (snd (Routers.create_institution nm w)) ∧
  (fst (Routers.create_institution nm w) = Raise AlreadyExists
   ↔ nm ∈ map inst_name (institutions w)) ∧
  (nm ∈ map inst_name (institutions w) → snd (Routers.create_institution nm w) = w).
Proof.
  intros Huniq.
  unfold Routers.create_institution, CRUDService.institution_exists,
    CRUDService.create_institution, bind, Os.uuid4, raise.
  pose proof (existsb_name nm (institutions w)) as Hex.
  destruct (existsb _ (institutions w)) eqn:Hb; cbn [fst snd].
  - split; [done|]. split; [|done]. split; [intros _; by apply Hex|done].
  - assert (nm ∉ map inst_name (institutions w)) as Hnot.
    { intros Hin. apply Hex in Hin. discriminate Hin. }
    split; [|split; [split; [intros H; discriminate H|done]|done]].
    unfold unique_names. cbn [institutions with_tables].
    rewrite map_app. apply NoDup_app. split; [done|]. split.
    + intros x Hx Hx'. cbn in Hx'. apply list_elem_of_singleton in Hx'. by subst.
    + cbn. apply NoDup_singleton.
Qed.

Lemma create_institution_keeps_names_unique_witness :
  unique_names Sample.campus ∧
  unique_names (snd (Routers.create_institution "Bayero University" Sample.campus)) ∧
  fst (Routers.create_institution "Ahmadu Bello University" Sample.campus)
  = Raise (HTTPException 400 "Institution already exists").
Proof.
  assert (unique_names Sample.campus) as Hu by apply NoDup_singleton.
  split; [exact Hu|]. split.
  - exact (proj1 (create_institution_keeps_names_unique "Bayero University"
                    Sample.campus Hu)).
  - apply (proj1 (proj2 (create_institution_keeps_names_unique "Ahmadu Bello University"
                           Sample.campus Hu))).
    left.
Defined.

Lemma find_id_app_fresh insts inst :
  (∀ x, x ∈ insts → inst_id x ≠ inst_id inst) →
  List.find (fun x => String.eqb (inst_id x) (inst_id inst)) (insts ++ [inst]) = Some inst.
Proof.
  intros Hfresh. induction insts as [|x insts IH]; simpl.
  - by rewrite String.eqb_refl.
  - destruct (String.eqb_spec (inst_id x) (inst_id inst)) as [Heq|_].
    + exfalso. by apply (Hfresh x); [left|].
    + apply IH. intros y Hy. apply Hfresh. by right.
Qed.

(** X21.  An institution that was created is found: it bears the name
    asked for and is the last row of the table; when its identifier is
    that of no older institution, [get_institution_by_id] returns it for
    that identifier; and a second creation under the same name is
    refused. *)
Theorem created_institution_is_found nm w inst w' :
  Routers.create_institution nm w = (Ok inst, w') →
  (∀ x, x ∈ institutions w → inst_id x ≠ inst_id inst) →
  inst_name inst = nm ∧
  institutions w' = institutions w ++ [inst] ∧
  Routers.get_institution_by_id (inst_id inst) w' = (Ok inst, w') ∧
  Routers.create_institution nm w' = (Raise AlreadyExists, w').
Proof.
  unfold Routers.create_institution, CRUDService.institution_exists,
    CRUDService.create_institution, bind, Os.uuid4, raise.
  destruct (existsb _ (institutions w)) eqn:Hb; [intros H; discriminate H|].
  intros [= <- <-] Hfresh. cbn [institutions with_tables].
  split; [done|]. split; [done|]. split.
  - unfold Routers.get_institution_by_id, CRUDService.get_institution_by_id.
    cbn [institutions with_tables].
    by rewrite (find_id_app_fresh (institutions w) _ Hfresh).
  - rewrite existsb_app. cbn [existsb inst_name].
    by rewrite String.eqb_refl, !orb_true_r.
Qed.

Lemma created_institution_is_found_witness :
  ∃ inst w',
    Routers.create_institution "Bayero University" Sample.campus = (Ok inst, w') ∧
    (∀ x, x ∈ institutions Sample.campus → inst_id x ≠ inst_id inst) ∧
    Routers.get_institution_by_id (inst_id inst) w' = (Ok inst, w') ∧
    inst_name inst = "Bayero University".
Proof.
  assert (fst (Routers.create_institution "Bayero University" Sample.campus)
          = Ok {| inst_id := "00000000-0000-4000-8000-000000000000";
                  inst_name := "Bayero University" |}) as Hfst.
  { vm_compute. reflexivity. }
  destruct (Routers.create_institution "Bayero University" Sample.campus)
    as [r w'] eqn:Hrun.
  simpl in Hfst. subst r.
  match type of Hrun with _ = (Ok ?x, _) => set (inst := x) in * end.
  assert (∀ x, x ∈ institutions Sample.campus → inst_id x ≠ inst_id inst) as Hfresh.
  { intros x Hx. apply list_elem_of_singleton in Hx as ->. intros H. discriminate H. }
  destruct (created_institution_is_found _ _ _ _ Hrun Hfresh) as (Hname & _ & Hget & _).
  exists inst, w'. split; [reflexivity|]. split; [exact Hfresh|].
  split; [exact Hget|exact Hname].
Defined.

Lemma find_map_update (i : string) (updated : Institution) insts inst :
  List.find (fun x => String.eqb (inst_id x) i) insts = Some inst →
  inst_id updated = inst_id inst →
  List.find (fun x => String.eqb (inst_id x) i)
    (map (fun x => if String.eqb (inst_id x) (inst_id inst) then updated else x) insts)
  = Some updated.
Proof.
  intros Hfind Hid. pose proof (List.find_some _ _ Hfind) as [_ Hi].
  apply String.eqb_eq in Hi. subst i.
  induction insts as [|x insts IH]; simpl in *; [done|].
  destruct (String.eqb (inst_id x) (inst_id inst)) eqn:Hx.
  - by rewrite Hid, String.eqb_refl.
  - rewrite Hx. by apply IH.
Qed.

(** X22.  An update of an institution, on the name column: the
    institution returned keeps its identifier, bears the new name when one
    is given and is the stored row itself when none is; it is what
    [get_institution_by_id] returns afterwards; and the identifiers of
    the table, the store and the two file tables are untouched. *)
Theorem updated_institution_is_found i updates w inst w' :
  Routers.update_institution i updates w = (Ok inst, w') →
  inst_id inst = i ∧
  (∀ nm, updates = Some nm → inst_name inst = nm) ∧
  (updates = None →
   List.find (fun x => String.eqb (inst_id x) i) (institutions w) = Some inst) ∧
  Routers.get_institution_by_id i w' = (Ok inst, w') ∧
  map inst_id (institutions w') = map inst_id (institutions w) ∧
  files w' = files w ∧ geofiles w' = geofiles w ∧ imagefiles w' = imagefiles w.
Proof.
  unfold Routers.update_institution, CRUDService.update_institution,
    Routers.get_institution_by_id, CRUDService.get_institution_by_id. unfold bind.
  destruct (List.find _ (institutions w)) as [found|] eqn:Hfind; [|intros H; discriminate H].
  intros [= <- <-]. cbn [institutions with_tables files geofiles imagefiles].
  pose proof (List.find_some _ _ Hfind) as [_ Hi]. apply String.eqb_eq in Hi.
  assert (inst_id (match updates with
                   | Some nm => {| inst_id := inst_id found; inst_name := nm |}
                   | None => found
                   end) = inst_id found) as Hid by (by destruct updates).
  split; [by rewrite Hid|]. split; [by intros nm ->|]. split; [by intros ->|].
  split.
  - by rewrite (find_map_update i _ _ found Hfind Hid).
  - split; [|done]. rewrite map_map. apply map_ext_in. intros x _.
    destruct (String.eqb_spec (inst_id x) (inst_id found)) as [Hx|_]; [|done].
    by rewrite Hid.
Qed.

Lemma updated_institution_is_found_witness :
  ∃ w', Routers.update_institution "abu" (Some "ABU Zaria") Sample.campus
        = (Ok {| inst_id := "abu"; inst_name := "ABU Zaria" |}, w') ∧
        Routers.get_institution_by_id "abu" w'
        = (Ok {| inst_id := "abu"; inst_name := "ABU Zaria" |}, w') ∧
        geofiles w' = geofiles Sample.campus.
Proof.
  assert (fst (Routers.update_institution "abu" (Some "ABU Zaria") Sample.campus)
          = Ok {| inst_id := "abu"; inst_name := "ABU Zaria" |}) as Hfst.
  { vm_compute. reflexivity. }
  destruct (Routers.update_institution "abu" (Some "ABU Zaria") Sample.campus)
    as [r w'] eqn:Hrun.
  simpl in Hfst. subst r.
  destruct (updated_institution_is_found _ _ _ _ _ Hrun) as (_ & _ & _ & Hget & _ & _ & Hg & _).
  exists w'. split; [reflexivity|]. split; [exact Hget|exact Hg].
Defined.

Lemma owned_first rows i row :
  List.find (fun r => String.eqb (institution_id r) i) rows = Some row →
  length (owned rows i) ≤ 1 → owned rows i = [row].
Proof.
  unfold owned. induction rows as [|r rows IH]; simpl; [done|].
  destruct (String.eqb (institution_id r) i).
  - intros [= ->] Hlen. simpl in Hlen. destruct (List.filter _ rows); [done|simpl in Hlen; lia].
  - exact IH.
Qed.

Lemma owned_filter q rows i :
  owned (List.filter q rows) i = List.filter q (owned rows i).
Proof.
  unfold owned. induction rows as [|r rows IH]; simpl; [done|].
  destruct (q r) eqn:Hq, (String.eqb (institution_id r) i) eqn:Hi; simpl;
    rewrite ?Hq, ?Hi, IH; done.
Qed.

(** X23.  A deletion of an institution that succeeds takes everything of
    the institution with it: in a world where every institution owns at
    most one file of each kind, the institution is no longer found (404),
    no geo or image record refers to it any more, and the two stored
    files of its records are removed from the store, which is otherwise
    unchanged. *)
Theorem delete_institution_cascades i w w' :
  at_most_one w →
  CRUDService.delete_institution i w = (Ok tt, w') →
  Routers.get_institution_by_id i w' = (Raise InstitutionNotFound, w') ∧
  owned (geofiles w') i = [] ∧ owned (imagefiles w') i = [] ∧
  ∃ geo image,
    List.find (fun r => String.eqb (institution_id r) i) (geofiles w) = Some geo ∧
    List.find (fun r => String.eqb (institution_id r) i) (imagefiles w) = Some image ∧
    files w' = delete (Pathlib.of_string (path image))
                 (delete (Pathlib.of_string (path geo)) (files w)) ∧
    geofiles w' = List.filter (fun r => negb (String.eqb (id r) (id geo))) (geofiles w) ∧
    imagefiles w'
    = List.filter (fun r => negb (String.eqb (id r) (id image))) (imagefiles w).
Proof.
  intros Hinv. rewrite delete_institution_spec.
  destruct (List.find _ (institutions w)) as [inst|] eqn:Hinst; [|intros H; discriminate H].
  pose proof (List.find_some _ _ Hinst) as [_ Hi]. apply String.eqb_eq in Hi. rewrite Hi.
  destruct (List.find _ (geofiles w)) as [geo|] eqn:Hgeo; [|intros H; discriminate H].
  cbv zeta.
  destruct (List.find _ (imagefiles w)) as [image|] eqn:Himage; [|intros H; discriminate H].
  pose proof (delete_file_world (Pathlib.of_string (path geo)) w) as (Hi1 & Hg1 & Him1 & _).
  pose proof (delete_file_files (Pathlib.of_string (path geo)) w) as Hf1.
  set (w1 := snd (FileHandler.delete_file (Pathlib.of_string (path geo)) w)) in *.
  pose proof (delete_file_world (Pathlib.of_string (path image)) w1) as (Hi2 & Hg2 & Him2 & _).
  pose proof (delete_file_files (Pathlib.of_string (path image)) w1) as Hf2.
  set (w2 := snd (FileHandler.delete_file (Pathlib.of_string (path image)) w1)) in *.
  unfold CRUDService.db_delete_institution, bind. rewrite !db_delete_tables.
  intros [= <-].
  cbn [institutions geofiles imagefiles files with_tables CRUDService.set_table
       CRUDService.table].
  rewrite Hi2, Hi1, Hg2, Hg1, Him2, Him1, Hf2, Hf1, Hi.
  destruct (Hinv i) as [Hgi Hii].
  split; [|split; [|split]].
  - unfold Routers.get_institution_by_id, CRUDService.get_institution_by_id.
    cbn [institutions with_tables].
    destruct (List.find _ (List.filter _ _)) as [x|] eqn:Hx; [|done].
    exfalso. apply List.find_some in Hx as [Hin Hxi].
    apply List.filter_In in Hin as [_ Hne]. by rewrite Hxi in Hne.
  - rewrite owned_filter, (owned_first _ _ _ Hgeo Hgi). simpl.
    by rewrite String.eqb_refl.
  - rewrite owned_filter, (owned_first _ _ _ Himage Hii). simpl.
    by rewrite String.eqb_refl.
  - by exists geo, image.
Qed.

Lemma delete_institution_cascades_witness :
  at_most_one Sample.campus_complete ∧
  ∃ w', CRUDService.delete_institution "abu" Sample.campus_complete = (Ok tt, w') ∧
        Routers.get_institution_by_id "abu" w'
        = (Raise (HTTPException 404 "Institution not found"), w') ∧
        owned (geofiles w') "abu" = [] ∧ owned (imagefiles w') "abu" = [].
Proof.
  assert (at_most_one Sample.campus_complete) as Hinv.
  { intros j. unfold owned, Sample.campus_complete, Sample.campus_row, Sample.logo_row.
    cbn [geofiles imagefiles List.filter institution_id].
    destruct (String.eqb "abu" j); cbn [List.length]; lia. }
  split; [exact Hinv|].
  assert (fst (CRUDService.delete_institution "abu" Sample.campus_complete) = Ok tt)
    as Hfst.
  { vm_compute. reflexivity. }
  destruct (CRUDService.delete_institution "abu" Sample.campus_complete)
    as [r w'] eqn:Hrun.
  simpl in Hfst. subst r.
  destruct (delete_institution_cascades _ _ _ Hinv Hrun) as (Hget & Hg & Him & _).
  exists w'. split; [reflexivity|]. split; [exact Hget|]. split; [exact Hg|exact Him].
Defined.

(** ** Examples *)

Example suffix_plain : Pathlib.suffix (Pathlib.of_string "photos/logo.PNG") = ".PNG".
Proof. reflexivity. Qed.
Example suffix_hidden : Pathlib.suffix (Pathlib.of_string ".bashrc") = "".
Proof. reflexivity. Qed.
Example suffix_trailing_dot : Pathlib.suffix (Pathlib.of_string "report.") = "".
Proof. reflexivity. Qed.
Example suffix_two_dots : Pathlib.suffix (Pathlib.of_string "a/b.tar.gz") = ".gz".
Proof. reflexivity. Qed.
Example with_suffix_tmp :
Pathlib.with_suffix ["app"; "static"; ".0f.tmp"] ".geojson"
= Some ["app"; "static"; ".0f.geojson"].
Proof. reflexivity. Qed.
Example parse_dots : Pathlib.of_string "/a/./b//c/" = ["/"; "a"; "b"; "c"].
Proof. reflexivity. Qed.

(** The scenarios of [tests/test_fileIO.py], run on the sample environment. *)

Example test_get_upload_path_kml :
  fst (FileHandler._get_upload_path
         (Sample.upload "test.kml" "application/vnd.google-earth.kml+xml" [])
         (Sample.world ∅))
  = Ok ["app"; "static"; "geo_jsons"; "00000000-0000-4000-8000-000000000000.kml"].
Proof. vm_compute. reflexivity. Qed.

Example test_get_upload_path_image :
  fst (FileHandler._get_upload_path (Sample.upload "logo.png" "image/png" [])
         (Sample.world ∅))
  = Ok ["app"; "static"; "images"; "00000000-0000-4000-8000-000000000000.png"].
Proof. vm_compute. reflexivity. Qed.

Example test_get_upload_path_no_extension :
  fst (FileHandler._get_upload_path
         (Sample.upload "myfile" "application/octet-stream" []) (Sample.world ∅))
  = Raise (HTTPException 400 "File has no extension").
Proof. vm_compute. reflexivity. Qed.

Example test_save_file_kml_success :
  fst (FileHandler.save_file Sample.env
         (Sample.upload "input.kml" "application/vnd.google-earth.kml+xml" Sample.kml_bytes)
         (Sample.world ∅))
  = Ok ["app"; "static"; "geo_jsons"; "00000000-0000-4000-8000-000000000000.geojson"] ∧
  parsed Sample.env
    (default []
       (files (snd (FileHandler.save_file Sample.env
                      (Sample.upload "input.kml" "application/vnd.google-earth.kml+xml"
                         Sample.kml_bytes) (Sample.world ∅)))
        !! ["app"; "static"; "geo_jsons"; "00000000-0000-4000-8000-000000000000.geojson"]))
  = Some Sample.feature_collection.
Proof. split; vm_compute; reflexivity. Qed.

Example test_save_file_empty :
  fst (FileHandler.save_file Sample.env (Sample.upload "empty.txt" "text/plain" [])
         (Sample.world ∅))
  = Raise (HTTPException 400 "Empty file uploaded").
Proof. vm_compute. reflexivity. Qed.

Example test_convert_and_save_kml_invalid_structure :
  FileHandler.convert_and_save_kml_to_geojson Sample.env ["invalid.kml"] ["invalid.geojson"]
    (Sample.world {[ ["invalid.kml"] := Sample.junk_bytes ]})
  = (Raise (ValueError "Invalid KML structure or encoding"),
     set_store ∅ [OpRemove ["invalid.kml"]]
       (Sample.world {[ ["invalid.kml"] := Sample.junk_bytes ]})).
Proof. vm_compute. reflexivity. Qed.

Example test_delete_file_non_existent :
  FileHandler.delete_file ["not_here.txt"] (Sample.world ∅) = (Ok tt, Sample.world ∅).
Proof. vm_compute. reflexivity. Qed.

Example test_overwrite_file_success :
  fst (FileHandler.overwrite_file Sample.env
         (Sample.upload "new_file.txt" "application/geo+json" Sample.junk_bytes)
         Sample.stored Sample.campus) = Ok tt ∧
  files (snd (FileHandler.overwrite_file Sample.env
                (Sample.upload "new_file.txt" "application/geo+json" Sample.junk_bytes)
                Sample.stored Sample.campus))
  = {[ Sample.stored := Sample.junk_bytes ]}.
Proof. split; vm_compute; reflexivity. Qed.

Example overwrite_file_move_refused :
  fst (FileHandler.overwrite_file Sample.env_no_move
         (Sample.upload "new_file.txt" "application/geo+json" Sample.junk_bytes)
         Sample.stored Sample.campus)
  = Raise (HTTPException 500 "Failed to overwrite file: [Errno 13] Permission denied") ∧
  files (snd (FileHandler.overwrite_file Sample.env_no_move
                (Sample.upload "new_file.txt" "application/geo+json" Sample.junk_bytes)
                Sample.stored Sample.campus))
  = files Sample.campus.
Proof. split; vm_compute; reflexivity. Qed.

Example test_upload_second_geo_file :
  fst (Routers.upload_file Sample.env
         [Sample.upload "second.geojson" "application/geo+json" Sample.junk_bytes]
         "abu" Sample.campus)
  = Raise (HTTPException 400
             "File with name 'second.geojson' already exists for institution.").
Proof. vm_compute. reflexivity. Qed.

(** File names that are, and are not, converted. *)

Example is_kml_upper :
  FileHandler.is_kml (Sample.upload "plan.KML" "image/png" []) = true.
Proof. reflexivity. Qed.
Example is_kml_hidden :
  FileHandler.is_kml (Sample.upload ".kml" "application/vnd.google-earth.kml+xml" []) = false.
Proof. reflexivity. Qed.
Example is_kml_inner :
  FileHandler.is_kml (Sample.upload "plan.kml.txt" "text/plain" []) = false.
Proof. reflexivity. Qed.
Example is_kml_kelvin :
  FileHandler.is_kml (Sample.upload ("plan." +:+ Str.kelvin +:+ "ml") "image/png" []) = true.
Proof. reflexivity. Qed.
Example is_kml_accented :
  FileHandler.is_kml
    (Sample.upload ("plan.km" +:+ String "195" (String "169" "")) "image/png" []) = false.
Proof. reflexivity. Qed.

(** A stored text on which [json.loads] raises something else than a
    [JSONDecodeError]. *)

Example load_geojson_content_too_deep :
  fst (FileHandler.load_geojson_content Sample.env_too_deep Sample.stored
         (Sample.world {[ Sample.stored := [x5b; x5b; x5d; x5d] ]}))
  = Raise (HTTPException 500
             "Error loading GeoJSON file: maximum recursion depth exceeded while decoding a JSON array from a unicode string").
Proof. vm_compute. reflexivity. Qed.

Example load_geojson_content_long_integer :
  fst (FileHandler.load_geojson_content Sample.env_long_integer Sample.stored
         (Sample.world {[ Sample.stored := [x5b; x5b; x5d; x5d] ]}))
  = Raise (HTTPException 400
             "Exceeds the limit (4300 digits) for integer string conversion: value has 5000 digits; use sys.set_int_max_str_digits() to increase the limit").
Proof. vm_compute. reflexivity. Qed.

(** The routes that read. *)

Example get_file_unknown_type :
  Routers.get_file Sample.env Sample.starlette "campus.geojson" "video" Sample.campus
  = (Raise (HTTPException 400 "Invalid file type."), Sample.campus).
Proof. reflexivity. Qed.

Example get_file_not_geojson :
  fst (Routers.get_file Sample.env Sample.starlette "campus.geojson" "geo" Sample.campus)
  = Raise (HTTPException 400 "Could not parse GeoJSON file content").
Proof. vm_compute. reflexivity. Qed.

Example get_file_trailing_separator :
  fst (Routers.get_file Sample.env Sample.starlette "logo.png" "image"
         {| files := {[ Sample.logo := Sample.junk_bytes ]}; journal := [];
            institutions := []; geofiles := [];
            imagefiles :=
              [ {| id := "51aa"; name := "logo.png"; content_type := "image/png";
                   size := 7; url := "localhost:8000/api/v1/files/image/logo.png";
                   path := "app/static/images/logo.png/";
                   institution_id := "abu" |} ];
            entropy := fun n => N.of_nat n; drawn := 0 |})
  = Raise (HTTPException 404 "Image file not found on disk").
Proof. vm_compute. reflexivity. Qed.

Example get_institutions_raises :
  fst (Routers.get_institutions Sample.campus)
  = Raise (AttributeError "'CRUDService' object has no attribute 'get_institutions'").
Proof. reflexivity. Qed.
